(** * SyncEverything: configuration locator, profile detector,
      snapshot reader/writer and extension reconciler

    Shallow embedding of [src/utils] ([getConfigPaths], [pathExists],
    [findConfigFile], [getStoragePath], [getActiveProfileInfo]) and of the
    [SyncEverything] class ([getActiveProfile], [updateLocalProfile],
    [readConfigFile], [writeConfigFile], [getExtensions],
    [installExtensions]).

    Asynchronous functions are written in a state-and-exception monad over a
    [World] (file system, extension host, chronological event trace).  The
    host language's numbers, the relaxed-JSON parser, the strict serializer,
    [Uri.file(_).fsPath] and the extension host are interfaces (type
    classes); everything else is a direct transcription. *)

From Stdlib Require Import QArith Qround HexadecimalString.
From stdpp Require Import base strings list gmap pretty.

Close Scope Q_scope.
Set Warnings "-register-all".
Open Scope string_scope.
Open Scope list_scope.

(** ** Strings of the host language *)

Definition nl : string := String (Ascii.ascii_of_nat 10) EmptyString.
Definition backslash : string := String (Ascii.ascii_of_nat 92) EmptyString.
Definition quote : string := String (Ascii.ascii_of_nat 34) EmptyString.

(** [Array.prototype.join] on an array of strings. *)
Fixpoint join (sep : string) (xs : list string) : string :=
  match xs with
  | [] => ""
  | [x] => x
  | x :: rest => x +:+ sep +:+ join sep rest
  end.

(** A template-literal hole [${e}] where [e] may be [undefined]. *)
Definition tpl (o : option string) : string := default "undefined" o.

(** Truthiness of a string that may be [undefined]. *)
Definition str_truthy (s : string) : bool := negb (String.eqb s "").
Definition opt_truthy (o : option string) : bool :=
  match o with Some s => str_truthy s | None => false end.

(** [s.charAt(0).toUpperCase() + s.slice(1)] on ASCII input. *)
Definition upper_ascii (c : Ascii.ascii) : Ascii.ascii :=
  let n := Ascii.nat_of_ascii c in
  if (97 <=? n)%nat && (n <=? 122)%nat then Ascii.ascii_of_nat (n - 32) else c.

Definition capitalize (s : string) : string :=
  match s with
  | EmptyString => EmptyString
  | String c rest => String (upper_ascii c) rest
  end.

(** ** Values produced by the relaxed-JSON parser *)

Class Number (num : Type) := {
  num_truthy : num -> bool;          (* neither 0 nor NaN *)
  num_strict_eq : num -> num -> bool; (* [===] on numbers *)
  num_to_string : num -> string      (* [String(n)] *)
}.

Inductive json (num : Type) : Type :=
| JNull
| JBool (b : bool)
| JNum (n : num)
| JStr (s : string)
| JArr (xs : list (json num))
| JObj (kvs : list (string * json num)).

Arguments JNull {num}.
Arguments JBool {num} b.
Arguments JNum {num} n.
Arguments JStr {num} s.
Arguments JArr {num} xs.
Arguments JObj {num} kvs.

(** Exceptions that the modelled code can raise. *)
Inductive exn :=
| TypeError
| SyntaxError
| IOError (path : string)
| FileNotFound (msg : string)
| CommandFailed (command : string).

Inductive Res (A : Type) :=
| Ok (a : A)
| Throw (e : exn).
Arguments Ok {A} a.
Arguments Throw {A} e.

Section JsValues.
Context {num : Type} `{Number num}.

(** A value that may be [undefined]. *)
Definition jsval := option (json num).

Definition truthy (v : json num) : bool :=
  match v with
  | JNull => false
  | JBool b => b
  | JNum n => num_truthy n
  | JStr s => str_truthy s
  | JArr _ | JObj _ => true
  end.

Definition val_truthy (v : jsval) : bool :=
  match v with Some j => truthy j | None => false end.

(** [a === b].  Arrays and objects compare by reference; two nodes of a
    freshly parsed document are never the same reference. *)
Definition strict_eq (a b : json num) : bool :=
  match a, b with
  | JNull, JNull => true
  | JBool x, JBool y => Bool.eqb x y
  | JNum x, JNum y => num_strict_eq x y
  | JStr x, JStr y => String.eqb x y
  | _, _ => false
  end.

Definition val_strict_eq (a : jsval) (b : json num) : bool :=
  match a with Some j => strict_eq j b | None => false end.

Fixpoint assoc (k : string) (kvs : list (string * json num)) : jsval :=
  match kvs with
  | [] => None
  | (k', v) :: rest => if String.eqb k k' then Some v else assoc k rest
  end.

(** [v[k]] / [v.k] for [k] that names no built-in or inherited member:
    reading a property of [null] raises, of a parsed object looks up its
    own keys, of any other value gives [undefined]. *)
Definition get_prop (v : json num) (k : string) : Res jsval :=
  match v with
  | JNull => Throw TypeError
  | JObj kvs => Ok (assoc k kvs)
  | _ => Ok None
  end.

Definition get_prop_val (v : jsval) (k : string) : Res jsval :=
  match v with
  | None => Throw TypeError
  | Some j => get_prop j k
  end.

(** [v?.k] *)
Definition opt_chain (v : jsval) (k : string) : Res jsval :=
  match v with
  | None | Some JNull => Ok None
  | Some j => get_prop j k
  end.

(** [String(v)], as used by a template-literal hole. *)
Fixpoint to_js_string (v : json num) : string :=
  match v with
  | JNull => "null"
  | JBool true => "true"
  | JBool false => "false"
  | JNum n => num_to_string n
  | JStr s => s
  | JArr xs =>
      join "," (map (fun x => match x with JNull => "" | _ => to_js_string x end) xs)
  | JObj _ => "[object Object]"
  end.

(** [xs.find(p => p.location === target)] *)
Fixpoint find_location (target : json num) (xs : list (json num))
  : Res jsval :=
  match xs with
  | [] => Ok None
  | p :: rest =>
      match get_prop p "location" with
      | Throw e => Throw e
      | Ok loc =>
          if val_strict_eq loc target then Ok (Some p)
          else find_location target rest
      end
  end.
End JsValues.

(** ** Process environment *)

Record Env := {
  platform : string;                  (* os.platform() *)
  APPDATA : option string;
  USERPROFILE : option string;
  HOME : option string;
  XDG_CONFIG_HOME : option string;
  homedir : string                    (* os.homedir() *)
}.

Definition default_profile : string := "__default__profile__".

Section Locator.
Context {num : Type} `{Number num}.

Definition is_win32 (env : Env) : bool := String.eqb (platform env) "win32".
Definition is_darwin (env : Env) : bool := String.eqb (platform env) "darwin".

Definition baseFolder (env : Env) : string :=
  if is_win32 env then tpl (APPDATA env)
  else if is_darwin env then tpl (HOME env) +:+ "/Library/Application Support"
  else tpl (HOME env) +:+ "/.config".

Definition separator (env : Env) : string :=
  if is_win32 env then backslash else "/".

Definition profile_path (env : Env) (appName file : string)
    (profileId : json num) : string :=
  let sep := separator env in
  baseFolder env +:+ sep +:+ appName +:+ sep +:+ "User" +:+ sep +:+
  "profiles" +:+ sep +:+ to_js_string profileId +:+ sep +:+ file.

Definition default_paths (env : Env) (appName file : string) : list string :=
  if is_win32 env then
    [ tpl (APPDATA env) +:+ backslash +:+ appName +:+ backslash +:+ "User"
        +:+ backslash +:+ file;
      tpl (USERPROFILE env) +:+ backslash +:+ "AppData" +:+ backslash +:+
        "Roaming" +:+ backslash +:+ appName +:+ backslash +:+ "User" +:+
        backslash +:+ file ]
  else if is_darwin env then
    [ tpl (HOME env) +:+ "/Library/Application Support/" +:+ appName +:+
        "/User/" +:+ file;
      homedir env +:+ "/Library/Application Support/" +:+ appName +:+
        "/User/" +:+ file ]
  else
    [ tpl (HOME env) +:+ "/.config/" +:+ appName +:+ "/User/" +:+ file;
      (if opt_truthy (XDG_CONFIG_HOME env)
       then tpl (XDG_CONFIG_HOME env)
       else homedir env +:+ "/.config")
        +:+ "/" +:+ appName +:+ "/User/" +:+ file;
      homedir env +:+ "/.config/" +:+ appName +:+ "/User/" +:+ file ].

(** [profileId] is [JNull] for both [null] and an omitted argument. *)
Definition getConfigPaths (env : Env) (appName file : string)
    (profileId : json num) : list string :=
  let paths : list string := [] in
  let paths :=
    if truthy profileId && negb (strict_eq profileId (JStr default_profile))
    then (paths ++ [profile_path env appName file profileId])%list
    else paths in
  (paths ++ default_paths env appName file)%list.
End Locator.

(** ** The world the asynchronous code runs in *)

Inductive node :=
| File (content : string)
| Dir.

Inductive level := Info | Warn | Error.

(** Observable calls, recorded in the order they are made. *)
Inductive event :=
| Stat (path : string)                          (* workspace.fs.stat *)
| ReadFile (path : string)                      (* fs/promises readFile *)
| WriteFile (path content : string)             (* workspace.fs.writeFile *)
| Log (lvl : level) (msg : string)              (* logger.info/warn/error *)
| ShowInformation (msg : string)                (* window.showInformationMessage *)
| ShowWarning (msg : string)                    (* window.showWarningMessage *)
| Progress (msg : string) (increment : Q)       (* progress.report *)
| Execute (command : string) (args : list string). (* commands.executeCommand *)

Record Extension := { ext_id : string; isBuiltin : bool }.

(** [extensions.all] and [commands.executeCommand]: a command either
    completes or rejects, and in both cases may change the host. *)
Class ExtensionHost (Host : Type) := {
  all_extensions : Host -> list Extension;
  executeCommand : Host -> string -> list string -> Host * bool
}.

(** [JSON5.parse] ([None] when it raises) and [JSON.stringify(_, null, 2)]. *)
Class Json5 (num : Type) := {
  JSON5_parse : string -> option (json num);
  JSON_stringify : json num -> string
}.

(** [Uri.file(path).fsPath] *)
Class UriLib := { fsPath : string -> string }.

Record World (Host : Type) := {
  fs : gmap string node;
  host : Host;
  trace : list event
}.
Arguments fs {Host} w.
Arguments host {Host} w.
Arguments trace {Host} w.

Section Monad.
Context {Host : Type} `{ExtensionHost Host}.

Definition M (A : Type) : Type := World Host -> Res A * World Host.

Global Instance M_ret : MRet M := fun A a w => (Ok a, w).

Global Instance M_bind : MBind M := fun A B f m w =>
  match m w with
  | (Ok a, w') => f a w'
  | (Throw e, w') => (Throw e, w')
  end.

Definition throw {A} (e : exn) : M A := fun w => (Throw e, w).

Definition lift {A} (r : Res A) : M A := fun w => (r, w).

(** [try { m } catch (error) { h error }] *)
Definition try_catch {A} (m : M A) (h : exn -> M A) : M A := fun w =>
  match m w with
  | (Ok a, w') => (Ok a, w')
  | (Throw e, w') => h e w'
  end.

(** The world after further calls have been recorded. *)
Definition record (w : World Host) (evs : list event) : World Host :=
  {| fs := fs w; host := host w; trace := (trace w ++ evs)%list |}.

Definition emit (e : event) : M unit := fun w => (Ok (), record w [e]).

Definition log (lvl : level) (msg : string) : M unit := emit (Log lvl msg).

Definition stat (path : string) : M unit :=
  emit (Stat path);;
  ((fun w => match fs w !! path with
             | Some _ => (Ok (), w)
             | None => (Throw (FileNotFound path), w)
             end) : M unit).

Definition readFile (path : string) : M string :=
  emit (ReadFile path);;
  ((fun w => match fs w !! path with
             | Some (File content) => (Ok content, w)
             | _ => (Throw (IOError path), w)
             end) : M string).

(** Writing replaces the whole content; it is refused on a directory.  The
    file map is flat: the parent directory is not consulted. *)
Definition writeFile (path content : string) : M unit :=
  emit (WriteFile path content);;
  ((fun w => match fs w !! path with
             | Some Dir => (Throw (IOError path), w)
             | _ => (Ok (), {| fs := <[path := File content]> (fs w);
                               host := host w; trace := trace w |})
             end) : M unit).

Definition execute (command : string) (args : list string) : M unit :=
  emit (Execute command args);;
  ((fun w => let '(h', ok) := executeCommand (host w) command args in
             let w' := {| fs := fs w; host := h'; trace := trace w |} in
             if ok then (Ok (), w') else (Throw (CommandFailed command), w'))
   : M unit).

Definition get_host : M Host := fun w => (Ok (host w), w).

(** [for (const x of xs) { body }] threading the loop's local variables. *)
Fixpoint for_of {A S} (xs : list A) (body : A -> S -> M S) (s : S) : M S :=
  match xs with
  | [] => mret s
  | x :: rest => s' ← body x s; for_of rest body s'
  end.
End Monad.

(** [`${error}`] inside a log line, reduced to the class of the error: the
    text the engine puts after the class name is not modelled, and the
    statements about such log lines leave that part of the line open. *)
Definition exn_message (e : exn) : string :=
  match e with
  | TypeError => "TypeError"
  | SyntaxError => "SyntaxError"
  | IOError p => "Error: " +:+ p
  | FileNotFound m => m
  | CommandFailed c => "Error: " +:+ c
  end.

(** ** utils: config locator and profile detector *)

Record Uri := { scheme : string; rest : string }.

(** [uri.toString()]: always the scheme, a colon, and the remainder, so it is
    never the name of an array index or of a built-in member. *)
Definition uri_toString (u : Uri) : string := scheme u +:+ ":" +:+ rest u.

Section Utils.
Context {num : Type} `{Number num} `{Json5 num} `{UriLib}.
Context {Host : Type} `{ExtensionHost Host}.

Definition pathExists (path : string) : M (Host := Host) bool :=
  try_catch
    (stat path;;
     log Info ("Found file at: " +:+ path);;
     mret true)
    (fun _ => mret false).

Fixpoint find_first (file : string) (possiblePaths : list string)
  : M (Host := Host) string :=
  match possiblePaths with
  | [] =>
      log Error ("Could not find " +:+ file +:+ " in any default location");;
      throw (FileNotFound
               (file +:+ " does not exist in any of the configuration directories"))
  | path :: others =>
      found ← pathExists path;
      if found : bool then mret (fsPath path) else find_first file others
  end.

Definition findConfigFile (env : Env) (appName file : string)
    (profileId : json num) : M (Host := Host) string :=
  let possiblePaths := getConfigPaths env appName file profileId in
  find_first file possiblePaths.

Definition getStoragePath (env : Env) (appName : string) : string :=
  let sep := separator env in
  baseFolder env +:+ sep +:+ appName +:+ sep +:+ "User" +:+ sep +:+
  "globalStorage" +:+ sep +:+ "storage.json".

(** [{ id, name }]; the fields are prefixed because [id] is the identity
    function of the standard library. *)
Record ProfileInfo := { info_id : json num; info_name : json num }.

Definition default_info : ProfileInfo :=
  {| info_id := JStr default_profile; info_name := JStr "Default" |}.

(** [workspace.workspaceFolders?.[0]?.uri.toString()] *)
Definition workspaceUri (workspaceFolders : option (list Uri)) : option string :=
  match workspaceFolders with
  | Some (folder :: _) => Some (uri_toString folder)
  | _ => None
  end.

(** [storage.userDataProfiles?.find((p) => p.location === profileId)]:
    [find] exists on arrays only. *)
Definition find_profile (storage profileId : json num) : Res jsval :=
  match get_prop storage "userDataProfiles" with
  | Throw e => Throw e
  | Ok (None | Some JNull) => Ok None
  | Ok (Some (JArr xs)) => find_location profileId xs
  | Ok (Some _) => Throw TypeError
  end.

(** [profile?.name || profileId] *)
Definition profile_name (profile : jsval) (profileId : json num)
  : Res (json num) :=
  match opt_chain profile "name" with
  | Throw e => Throw e
  | Ok (Some n) => Ok (if truthy n then n else profileId)
  | Ok None => Ok profileId
  end.

(** The block guarded by [if (storage.profileAssociations?.workspaces)];
    [None] stands for falling through to the final [return]. *)
Definition workspace_profile (storage : json num)
    (workspaceFolders : option (list Uri)) : Res (option ProfileInfo) :=
  match get_prop storage "profileAssociations" with
  | Throw e => Throw e
  | Ok pa =>
    match opt_chain pa "workspaces" with
    | Throw e => Throw e
    | Ok workspaces =>
      if val_truthy workspaces then
        match workspaceUri workspaceFolders with
        | Some uri =>
          if str_truthy uri then
            match get_prop_val workspaces uri with
            | Throw e => Throw e
            | Ok (Some profileId) =>
              if truthy profileId then
                match find_profile storage profileId with
                | Throw e => Throw e
                | Ok profile =>
                  match profile_name profile profileId with
                  | Throw e => Throw e
                  | Ok n => Ok (Some {| info_id := profileId; info_name := n |})
                  end
                end
              else Ok None
            | Ok None => Ok None
            end
          else Ok None
        | None => Ok None
        end
      else Ok None
    end
  end.

Definition parse (content : string) : M (Host := Host) (json num) :=
  match JSON5_parse content with
  | Some v => mret v
  | None => throw SyntaxError
  end.

Definition getActiveProfileInfo (env : Env)
    (workspaceFolders : option (list Uri)) (appName : string)
  : M (Host := Host) ProfileInfo :=
  try_catch
    (let storagePath := getStoragePath env appName in
     exists_ ← pathExists storagePath;
     if negb exists_ then mret default_info
     else
       content ← readFile storagePath;
       storage ← parse content;
       found ← lift (workspace_profile storage workspaceFolders);
       match found with
       | Some info => mret info
       | None => mret default_info
       end)
    (fun error =>
       log Warn ("Could not detect active profile, using default: "
                 +:+ exn_message error);;
       mret default_info).
End Utils.

(** ** The SyncEverything class *)

(** [t: "keybindings" | "settings"] *)
Inductive config_kind := keybindings_file | settings_file.

Definition kind_name (t : config_kind) : string :=
  match t with
  | keybindings_file => "keybindings"
  | settings_file => "settings"
  end.

(** [workspace.getConfiguration("synceverything")]: a key may be unset. *)
Record Configuration := {
  excludeExtensions : option (list string);
  confirmBeforeSync : option bool
}.

(** The person in front of the editor: the button picked in the modal
    warning and in the final notification ([None]: dismissed). *)
Record User := {
  answer_warning : string -> option string;
  answer_reload : string -> option string
}.

Definition bullet : string :=
  String (Ascii.ascii_of_nat 226)
    (String (Ascii.ascii_of_nat 128) (String (Ascii.ascii_of_nat 162) EmptyString)).

(** [(completed / total) * 100].  The host computes it in double
    precision; it is kept here as the exact rational. *)
Definition percent (completed total : nat) : Q :=
  (inject_Z (Z.of_nat completed) / inject_Z (Z.of_nat total) * 100)%Q.

Definition uninstall_command : string := "workbench.extensions.uninstallExtension".
Definition install_command : string := "workbench.extensions.installExtension".
Definition reload_command : string := "workbench.action.reloadWindow".

Section SyncEverything.
Context {num : Type} `{Number num} `{Json5 num} `{UriLib}.
Context {Host : Type} `{ExtensionHost Host}.

Variable env : Env.
Variable workspaceFolders : option (list Uri).
Variable configuration : Configuration.
Variable user : User.

Local Abbreviation IO := (M (Host := Host)).

(** The instance fields and the extension context's [globalState]. *)
Record Instance := {
  appName : string;
  activeProfileId : json num;
  activeProfileName : json num;
  globalState : gmap string string
}.

(** [IProfile] *)
Record IProfile := {
  profileName : string;
  settings : json num;
  extensions : list string;
  keybindings : json num
}.

(** [Partial<IProfile>] as built by [getActiveProfile]; a field holding
    [undefined] is [None]. *)
Record Snapshot := {
  snap_settings : jsval (num := num);
  snap_extensions : list string;
  snap_keybindings : jsval (num := num);
  sourceAppName : string;
  sourceProfileId : json num;
  sourceProfileName : json num
}.

Definition readConfigFile (self : Instance) (t : config_kind)
  : IO (jsval (num := num)) :=
  located ←
    try_catch
      (let manualPath :=
         globalState self !! ("manual" +:+ capitalize (kind_name t) +:+ "Path") in
       if opt_truthy manualPath then mret (Some (tpl manualPath))
       else
         path ← findConfigFile env (appName self) (kind_name t +:+ ".json")
                  (activeProfileId self);
         mret (Some path))
      (fun error =>
         log Error (kind_name t +:+
                    " file has not been set, cannot read from empty file path");;
         mret None);
  match located with
  | None => mret None
  | Some path =>
      try_catch
        (buffer ← readFile path;
         value ← parse buffer;
         mret (Some value))
        (fun error =>
           log Error ("Failed to read " +:+ kind_name t +:+ " file: " +:+ path);;
           mret None)
  end.

Definition writeConfigFile (path : string) (data : json num) : IO unit :=
  try_catch
    (let content :=
       match data with JStr s => s | _ => JSON_stringify data end in
     writeFile path content;;
     log Info ("Configuration file updated: " +:+ path))
    (fun error =>
       log Error ("Failed to write settings file: " +:+ path);;
       throw error).

(** [excludeList.includes(id)] *)
Definition includes (xs : list string) (x : string) : bool :=
  existsb (String.eqb x) xs.

Definition installed_ids (h : Host) : list string :=
  let excludeList := default [] (excludeExtensions configuration) in
  List.filter (fun id => negb (includes excludeList id))
    (map ext_id
       (List.filter (fun ext => negb (isBuiltin ext)) (all_extensions h))).

Definition getExtensions : IO (list string) :=
  h ← get_host; mret (installed_ids h).

Definition toInstall_of (localList remoteList : list string) : list string :=
  let localSet : gset string := list_to_set localList in
  List.filter (fun id => negb (bool_decide (id ∈ localSet))) remoteList.

Definition toDelete_of (localList remoteList : list string) : list string :=
  let remoteSet : gset string := list_to_set remoteList in
  List.filter (fun id => negb (bool_decide (id ∈ remoteSet))) localList.

Definition warning_message (toInstall toDelete : list string) : string :=
  "Sync will:" +:+ nl +:+ bullet +:+ " Install " +:+
  pretty (length toInstall) +:+ " extensions" +:+ nl +:+ bullet +:+
  " Remove " +:+ pretty (length toDelete) +:+ " extensions" +:+ nl +:+ nl +:+
  "Continue?".

(** [[a, b].filter(Boolean).join("\n\n")] *)
Definition details_message (toInstall toDelete : list string) : string :=
  join (nl +:+ nl)
    (List.filter str_truthy
       [ if (0 <? length toInstall)%nat
         then "To Install:" +:+ nl +:+ join nl toInstall else "";
         if (0 <? length toDelete)%nat
         then "To Remove:" +:+ nl +:+ join nl toDelete else "" ]).

Definition reload_message : string :=
  "Extension sync complete. Reload window to apply all changes?".

(** Loop-local variables of the progress callback. *)
Definition loop_state : Type := nat * bool.   (* completed, needsReload *)

Definition uninstall_step (total : nat) (id : string) (st : loop_state)
  : IO loop_state :=
  let completed := S (fst st) in
  try_catch
    (emit (Progress ("Uninstalling " +:+ id +:+ "...") (percent completed total));;
     execute uninstall_command [id];;
     log Info ("Uninstalled extension: " +:+ id);;
     mret (completed, true))
    (fun error =>
       log Error ("Failed to uninstall " +:+ id);;
       mret (completed, snd st)).

Definition install_step (total : nat) (id : string) (st : loop_state)
  : IO loop_state :=
  let completed := S (fst st) in
  try_catch
    (emit (Progress ("Installing " +:+ id +:+ "...") (percent completed total));;
     execute install_command [id];;
     log Info ("Installed extension: " +:+ id);;
     mret (completed, true))
    (fun error =>
       log Error ("Failed to install " +:+ id);;
       mret (completed, snd st)).

(** The callback given to [window.withProgress]. *)
Definition sync_batch (toInstall toDelete : list string) (needsReload : bool)
  : IO loop_state :=
  let total := (length toInstall + length toDelete)%nat in
  let completed := 0%nat in
  st ← for_of toDelete (uninstall_step total) (completed, needsReload);
  for_of toInstall (install_step total) st.

(** The confirmation block; [true] means execution continues past it. *)
Definition confirm (toInstall toDelete : list string) : IO bool :=
  if default true (confirmBeforeSync configuration) then
    let message := warning_message toInstall toDelete in
    emit (ShowWarning message);;
    let action := answer_warning user message in
    if bool_decide (action = Some "Show Details") then
      emit (ShowInformation (details_message toInstall toDelete));;
      mret false
    else if negb (bool_decide (action = Some "Yes")) then mret false
    else mret true
  else mret true.

Definition installExtensions (remoteList : list string) : IO unit :=
  localList ← getExtensions;
  let toInstall := toInstall_of localList remoteList in
  let toDelete := toDelete_of localList remoteList in
  if (length toInstall =? 0)%nat && (length toDelete =? 0)%nat then
    emit (ShowInformation "Extensions are already in sync")
  else
    go ← confirm toInstall toDelete;
    if negb go then mret ()
    else
      st ← sync_batch toInstall toDelete false;
      if snd (st : loop_state) then
        emit (ShowInformation reload_message);;
        if bool_decide (answer_reload user reload_message = Some "Reload")
        then execute reload_command []
        else mret ()
      else mret ().

Definition getActiveProfile (self : Instance) : IO (Instance * Snapshot) :=
  self ←
    try_catch
      (profileInfo ← getActiveProfileInfo env workspaceFolders (appName self);
       log Info ("Current active profile: " +:+ to_js_string (info_name profileInfo)
                 +:+ " (" +:+ to_js_string (info_id profileInfo) +:+ ")");;
       mret {| appName := appName self;
               activeProfileId := info_id profileInfo;
               activeProfileName := info_name profileInfo;
               globalState := globalState self |})
      (fun error =>
         log Warn "Could not re-detect profile, using cached value";;
         mret self);
  settings ← readConfigFile self settings_file;
  keybinds ← readConfigFile self keybindings_file;
  exts ← getExtensions;
  mret (self,
        {| snap_settings := settings;
           snap_extensions := exts;
           snap_keybindings := keybinds;
           sourceAppName := appName self;
           sourceProfileId := activeProfileId self;
           sourceProfileName := activeProfileName self |}).

Definition updateLocalProfile (self : Instance) (profile : IProfile) : IO unit :=
  settingsPath ← findConfigFile env (appName self) "settings.json"
                   (activeProfileId self);
  writeConfigFile settingsPath (settings profile);;
  keybindingsPath ← findConfigFile env (appName self) "keybindings.json"
                      (activeProfileId self);
  writeConfigFile keybindingsPath (keybindings profile);;
  installExtensions (extensions profile).
End SyncEverything.

(** ** The SyncEverything class: activation and new-profile creation *)

(** [haystack.includes(needle)] *)
Fixpoint str_includes (haystack needle : string) : bool :=
  String.prefix needle haystack ||
  match haystack with
  | EmptyString => false
  | String _ tail => str_includes tail needle
  end.

(** The application name chosen by [initialize] from [env.appName]. *)
Definition initialize_appName (envAppName : string) : string :=
  if str_includes envAppName "Antigravity" then "Antigravity"
  else if str_includes envAppName "Trae" then "Trae"
  else if str_includes envAppName "Code" then
    if str_includes envAppName "Insiders" then "Code - Insiders" else "Code"
  else "Cursor".

(** The application name chosen by [createNewProfileFromSync]. *)
Definition create_appName (envAppName : string) : string :=
  if str_includes envAppName "Antigravity" then "Antigravity"
  else if str_includes envAppName "Trae" then "Trae"
  else if str_includes envAppName "Code" then "Code"
  else "Cursor".

(** [n.toString(16)] on an integer. *)
Definition to_hex (n : Z) : string :=
  HexadecimalString.NilZero.string_of_int (Z.to_hex_int n).

(** [Array.from({ length: 8 }, () => Math.floor(Math.random() * 16)
    .toString(16)).join("")]; [random i] is what the i-th call of
    [Math.random] returns.  Multiplying a double by 16 is exact, so the
    rational product is the double product. *)
Definition generateProfileId (random : nat -> Q) : string :=
  join "" (map (fun i => to_hex (Qfloor (random i * 16))) (seq 0 8)).

(** The modal pickers: [window.showOpenDialog] (the [fsPath] of each chosen
    file, by dialog title) and [window.showInputBox] (by prompt); [None] is
    a dismissed dialog. *)
Record Dialogs := {
  open_dialog : string -> option (list string);
  input_box : string -> option string
}.

Section Activation.
Context {num : Type} `{Number num} `{Json5 num} `{UriLib}.
Context {Host : Type} `{ExtensionHost Host}.

Variable env : Env.
Variable workspaceFolders : option (list Uri).
Variable configuration : Configuration.
Variable user : User.
Variable dialogs : Dialogs.

Local Abbreviation IO := (M (Host := Host)).
Local Abbreviation Inst := (Instance (num := num)).

(** Whether a character separates the segments of a path: the slash, and
    on Windows the backslash as well. *)
Definition is_separator (c : Ascii.ascii) : bool :=
  Ascii.eqb c (Ascii.ascii_of_nat 47) ||
  (is_win32 env && Ascii.eqb c (Ascii.ascii_of_nat 92)).

(** The ancestors of a path, outermost first: its non-empty proper prefixes
    that end right before a separator; [pre] is the part already read. *)
Fixpoint parents_from (pre path : string) : list string :=
  match path with
  | EmptyString => []
  | String c others =>
      (if is_separator c && str_truthy pre then [pre] else []) ++
      parents_from (pre +:+ String c EmptyString) others
  end.

Definition ancestors (path : string) : list string := parents_from "" path.

Definition is_file (n : option node) : bool :=
  match n with Some (File _) => true | _ => false end.

(** [workspace.fs.createDirectory]: makes the directory together with every
    missing ancestor; refused when the path or one of its ancestors is a
    regular file; directories that exist stay as they are. *)
Definition createDirectory (path : string) : IO unit := fun w =>
  let dirs := ancestors path ++ [path] in
  if existsb (fun p => is_file (fs w !! p)) dirs then (Throw (IOError path), w)
  else (Ok (), {| fs := foldr (fun p files => <[p := Dir]> files) (fs w) dirs;
                  host := host w; trace := trace w |}).

Definition setManualPath (t : config_kind) (title : option string) : IO string :=
  try_catch
    (let manualPath :=
       open_dialog dialogs
         (if opt_truthy title then tpl title
          else "Select " +:+ kind_name t +:+ ".json file") in
     match manualPath with
     | Some (first :: _) => mret first
     | _ => throw TypeError
     end)
    (fun error => throw error).

(** [instance.activeProfileId = ...; instance.activeProfileName = ...] *)
Definition set_profile (instance : Inst) (i n : json num) : Inst :=
  {| appName := appName instance;
     activeProfileId := i;
     activeProfileName := n;
     globalState := globalState instance |}.

(** [context.globalState.update(key, value)]; the instance shares the
    context. *)
Definition update_globalState (instance : Inst) (key value : string)
  : Inst :=
  {| appName := appName instance;
     activeProfileId := activeProfileId instance;
     activeProfileName := activeProfileName instance;
     globalState := <[key := value]> (globalState instance) |}.

(** [SyncEverything.initialize]; [context] is the stored [globalState],
    [None] is [undefined]. *)
Definition initialize (envAppName : string) (context : gmap string string)
  : IO (option Inst) :=
  let appName := initialize_appName envAppName in
  let instance : Inst :=
                  {| appName := appName;
                     activeProfileId := JNull;
                     activeProfileName := JNull;
                     globalState := context |} in
  instance ←
    try_catch (A := Inst)
      (profileInfo ← getActiveProfileInfo env workspaceFolders appName;
       log Info ("Detected active profile: " +:+
                 to_js_string (info_name profileInfo) +:+ " (" +:+
                 to_js_string (info_id profileInfo) +:+ ")");;
       mret (set_profile instance (info_id profileInfo) (info_name profileInfo)))
      (fun error =>
         log Warn "Could not detect profile, using default";;
         mret (set_profile instance (JStr default_profile) (JStr "Default")));
  try_catch
    (findConfigFile env appName "settings.json" (activeProfileId instance);;
     findConfigFile env appName "keybindings.json" (activeProfileId instance);;
     mret (Some instance))
    (fun error =>
       log Error
         "Failed to automatically find configuration files - opening file picker";;
       try_catch
         (settingsPath ← setManualPath settings_file None;
          keybindingsPath ← setManualPath keybindings_file None;
          mret (Some (update_globalState
                        (update_globalState instance
                           "manualSettingsPath" settingsPath)
                        "manualKeybindingsPath" keybindingsPath)))
         (fun error =>
            log Error ("Configuration files are required for SyncEverything " +:+
                       "to work, please reactivate extension and select " +:+
                       "correct configuration files.");;
            mret None)).

(** [obj[key] = value] on the key list of a parsed object: an existing key
    keeps its place, a new key goes last. *)
Fixpoint set_prop (key : string) (value : json num)
    (kvs : list (string * json num)) : list (string * json num) :=
  match kvs with
  | [] => [(key, value)]
  | (k, v) :: others =>
      if String.eqb key k then (k, value) :: others
      else (k, v) :: set_prop key value others
  end.

Definition profile_entry (profileId profileName : string) : json num :=
  JObj [("location", JStr profileId); ("name", JStr profileName)].

(** [if (!storage.userDataProfiles) storage.userDataProfiles = [];
    storage.userDataProfiles.push({ location, name })], as seen by the
    serializer afterwards.  [null] has no properties; a primitive can hold
    none, so the [push] (or the assignment) raises; a property created on an
    array is not serialized; [push] exists on arrays only. *)
Definition push_profile (storage : json num) (profileId profileName : string)
  : Res (json num) :=
  let entry := profile_entry profileId profileName in
  match storage with
  | JNull | JBool _ | JNum _ | JStr _ => Throw TypeError
  | JArr xs => Ok (JArr xs)
  | JObj kvs =>
      match assoc "userDataProfiles" kvs with
      | Some (JArr xs) =>
          Ok (JObj (set_prop "userDataProfiles" (JArr (xs ++ [entry])) kvs))
      | Some v =>
          if truthy v then Throw TypeError
          else Ok (JObj (set_prop "userDataProfiles" (JArr [entry]) kvs))
      | None => Ok (JObj (set_prop "userDataProfiles" (JArr [entry]) kvs))
      end
  end.

Definition registerProfileInStorage (profileId profileName appName : string)
  : IO unit :=
  try_catch
    (let storagePath := getStoragePath env appName in
     content ← readFile storagePath;
     storage ← parse content;
     storage ← lift (push_profile storage profileId profileName);
     writeFile storagePath (JSON_stringify storage);;
     log Info ("Registered profile " +:+ quote +:+ profileName +:+ quote +:+
               " in storage.json"))
    (fun error =>
       log Warn ("Could not register profile in storage.json: " +:+
                 exn_message error)).

Definition new_profile_dir (appName profileId : string) : string :=
  let sep := separator env in
  baseFolder env +:+ sep +:+ appName +:+ sep +:+ "User" +:+ sep +:+
  "profiles" +:+ sep +:+ profileId.

(** [createNewProfileFromSync]; [envAppName] is [env.appName] and [random]
    the sequence of [Math.random] results. *)
Definition createNewProfileFromSync (envAppName : string) (random : nat -> Q)
    (profile : IProfile (num := num)) : IO unit :=
  let profileName := input_box dialogs "Enter name for the new profile" in
  if negb (opt_truthy profileName) then
    log Info "Profile creation cancelled by user"
  else
    try_catch
      (let profileId := generateProfileId random in
       let appName := create_appName envAppName in
       let sep := separator env in
       let profilePath := new_profile_dir appName profileId in
       createDirectory profilePath;;
       let settingsPath := profilePath +:+ sep +:+ "settings.json" in
       writeConfigFile settingsPath (settings profile);;
       let keybindingsPath := profilePath +:+ sep +:+ "keybindings.json" in
       writeConfigFile keybindingsPath (keybindings profile);;
       installExtensions configuration user (extensions profile);;
       registerProfileInStorage profileId (tpl profileName) appName;;
       log Info ("Created new profile: " +:+ tpl profileName +:+ " (" +:+
                 profileId +:+ ")");;
       emit (ShowInformation
               ("Profile " +:+ quote +:+ tpl profileName +:+ quote +:+
                " created! Switch to it in your editor settings.")))
      (fun error =>
         log Error "Failed to create new profile";;
         throw error).
End Activation.

(** ** Observations on a trace *)

(** The paths handed to [workspace.fs.stat], in call order. *)
Definition stats (evs : list event) : list string :=
  omap (fun e => match e with Stat p => Some p | _ => None end) evs.

Definition present {Host} (w : World Host) (path : string) : Prop :=
  is_Some (fs w !! path).

Definition not_found_log (file : string) : event :=
  Log Error ("Could not find " +:+ file +:+ " in any default location").

Definition not_found (file : string) : exn :=
  FileNotFound (file +:+ " does not exist in any of the configuration directories").

Definition detect_warning (e : exn) : event :=
  Log Warn ("Could not detect active profile, using default: " +:+ exn_message e).

(** Inputs on which the profile detector has nothing to report. *)
Section Degraded.
Context {num : Type} `{Number num} `{Json5 num}.
Context {Host : Type}.

Inductive degraded (env : Env) (wf : option (list Uri)) (app : string)
    (w : World Host) : Prop :=
| descriptor_absent :
    fs w !! getStoragePath env app = None → degraded env wf app w
| descriptor_unreadable :
    fs w !! getStoragePath env app = Some Dir → degraded env wf app w
| descriptor_unparsable content :
    fs w !! getStoragePath env app = Some (File content) →
    JSON5_parse content = None →
    degraded env wf app w
| lookup_raises content storage e :
    fs w !! getStoragePath env app = Some (File content) →
    JSON5_parse content = Some storage →
    workspace_profile storage wf = Throw e →
    degraded env wf app w
| no_workspace_open content storage :
    fs w !! getStoragePath env app = Some (File content) →
    JSON5_parse content = Some storage →
    workspaceUri wf = None →
    degraded env wf app w
| no_association_table content storage pa workspaces :
    fs w !! getStoragePath env app = Some (File content) →
    JSON5_parse content = Some storage →
    get_prop storage "profileAssociations" = Ok pa →
    opt_chain pa "workspaces" = Ok workspaces →
    val_truthy workspaces = false →
    degraded env wf app w
| workspace_not_associated content storage pa workspaces uri v :
    fs w !! getStoragePath env app = Some (File content) →
    JSON5_parse content = Some storage →
    get_prop storage "profileAssociations" = Ok pa →
    opt_chain pa "workspaces" = Ok workspaces →
    workspaceUri wf = Some uri →
    get_prop_val workspaces uri = Ok v →
    val_truthy v = false →
    degraded env wf app w.
End Degraded.

(** The commands handed to [commands.executeCommand], in call order. *)
Definition actions (evs : list event) : list (string * list string) :=
  omap (fun e => match e with Execute c a => Some (c, a) | _ => None end) evs.

(** The [increment] fields handed to [progress.report], in call order. *)
Definition increments (evs : list event) : list Q :=
  omap (fun e => match e with Progress _ q => Some q | _ => None end) evs.

Definition infos (evs : list event) : list string :=
  omap (fun e => match e with Log Info m => Some m | _ => None end) evs.

Definition errors (evs : list event) : list string :=
  omap (fun e => match e with Log Error m => Some m | _ => None end) evs.

Definition writes (evs : list event) : list (string * string) :=
  omap (fun e => match e with WriteFile p c => Some (p, c) | _ => None end) evs.

Definition uninstall_of (i : string) : string * list string := (uninstall_command, [i]).
Definition install_of (i : string) : string * list string := (install_command, [i]).

(** The batch the reconciler is meant to run: removals, then installations. *)
Definition batch_commands (toInstall toDelete : list string)
  : list (string * list string) :=
  (map uninstall_of toDelete ++ map install_of toInstall)%list.

(** The world after commands changed the host and calls were recorded. *)
Definition with_host {Host} (w : World Host) (h : Host) (evs : list event)
  : World Host :=
  {| fs := fs w; host := h; trace := (trace w ++ evs)%list |}.

(** Whether each of a sequence of commands completes when they are run one
    after the other, and the host they leave behind. *)
Fixpoint outcomes {Host} `{ExtensionHost Host} (h : Host)
    (cmds : list (string * list string)) : list bool * Host :=
  match cmds with
  | [] => ([], h)
  | (c, a) :: rest =>
      let '(h', ok) := executeCommand h c a in
      let '(oks, h'') := outcomes h' rest in
      (ok :: oks, h'')
  end.

Definition succeeded (oks : list bool) : nat := length (List.filter id oks).
Definition failed (oks : list bool) : nat := length (List.filter negb oks).

(** [s] occurs inside [t]. *)
Definition occurs (s t : string) : Prop := ∃ pre post, t = pre +:+ s +:+ post.

(** The [globalState] key under which a manually picked path is stored. *)
Definition manual_key (t : config_kind) : string :=
  "manual" +:+ capitalize (kind_name t) +:+ "Path".

(** The reconciler goes past the confirmation block. *)
Definition proceeds (cfg : Configuration) (user : User)
    (toInstall toDelete : list string) : Prop :=
  default true (confirmBeforeSync cfg) = false ∨
  answer_warning user (warning_message toInstall toDelete) = Some "Yes".

(** The storage descriptor records the profile [pid] for the first
    workspace folder. *)
Definition associated {num} `{Number num} (storage : json num)
    (wf : option (list Uri)) (pid : json num) : Prop :=
  ∃ pa ws folder others,
    get_prop storage "profileAssociations" = Ok (Some pa) ∧
    pa ≠ JNull ∧
    get_prop pa "workspaces" = Ok (Some ws) ∧
    truthy ws = true ∧
    wf = Some (folder :: others) ∧
    get_prop ws (uri_toString folder) = Ok (Some pid) ∧
    truthy pid = true.

(** A registry entry whose [location] is not [pid]. *)
Definition other_location {num} `{Number num} (pid p : json num) : Prop :=
  ∃ loc, get_prop p "location" = Ok loc ∧ val_strict_eq loc pid = false.

(** The world after files were written and calls were recorded. *)
Definition with_fs {Host} (w : World Host) (files : gmap string node)
    (evs : list event) : World Host :=
  {| fs := files; host := host w; trace := (trace w ++ evs)%list |}.

(** The text [writeConfigFile] hands to the file system for [data]. *)
Definition written_text {num} `{Json5 num} (data : json num) : string :=
  match data with JStr s => s | _ => JSON_stringify data end.

(** The calls of a locator run that finds its [i]-th candidate [p]. *)
Definition found_events (paths : list string) (i : nat) (p : string) : list event :=
  (map Stat (take i paths) ++ [Stat p; Log Info ("Found file at: " +:+ p)])%list.

(** The messages handed to [window.showInformationMessage] and to
    [window.showWarningMessage], in call order. *)
Definition shown (evs : list event) : list string :=
  omap (fun e => match e with ShowInformation m => Some m | _ => None end) evs.

Definition warnings (evs : list event) : list string :=
  omap (fun e => match e with ShowWarning m => Some m | _ => None end) evs.

(** The progress reports and the commands of a trace, in call order: the
    message of each [progress.report] and each command with its arguments. *)
Definition steps (evs : list event) : list (string + string * list string) :=
  omap (fun e => match e with
                 | Progress m _ => Some (inl m)
                 | Execute c a => Some (inr (c, a))
                 | _ => None
                 end) evs.

(** A removal, and an installation, each with the report that announces it. *)
Definition uninstall_steps (i : string) : list (string + string * list string) :=
  [inl ("Uninstalling " +:+ i +:+ "..."); inr (uninstall_of i)].

Definition install_steps (i : string) : list (string + string * list string) :=
  [inl ("Installing " +:+ i +:+ "..."); inr (install_of i)].

(** One of [0-9a-f]. *)
Definition hex_char (c : Ascii.ascii) : bool :=
  let n := Ascii.nat_of_ascii c in
  ((48 <=? n)%nat && (n <=? 57)%nat) || ((97 <=? n)%nat && (n <=? 102)%nat).

(** Whether a dialog answer carries a first file. *)
Definition picked (answer : option (list string)) : option string :=
  match answer with
  | Some (first :: _) => Some first
  | _ => None
  end.

(** The titles [initialize] gives to the two file pickers. *)
Definition settings_title : string := "Select settings.json file".
Definition keybindings_title : string := "Select keybindings.json file".

(** Both configuration files have an existing candidate. *)
Definition locatable {num} `{Number num} {Host} (env : Env) (app : string)
    (pid : json num) (w : World Host) : Prop :=
  is_Some (list_find (present w) (getConfigPaths env app "settings.json" pid)) ∧
  is_Some (list_find (present w) (getConfigPaths env app "keybindings.json" pid)).

Definition register_warning (e : exn) : event :=
  Log Warn ("Could not register profile in storage.json: " +:+ exn_message e).

(** ** A concrete instance of the interfaces, used to run the model *)

Module Demo.

#[export] Instance number_Z : Number Z := {|
  num_truthy := fun n => negb (n =? 0)%Z;
  num_strict_eq := Z.eqb;
  num_to_string := pretty
|}.

Definition storage_text : string :=
  "{profileAssociations:{workspaces:{'file:///w':'abc123'}}," +:+
  "userDataProfiles:[{location:'abc123',name:'Work'}]}".

Definition storage_doc : json Z :=
  JObj [ ("profileAssociations",
          JObj [ ("workspaces", JObj [ ("file:///w", JStr "abc123") ]) ]);
         ("userDataProfiles",
          JArr [ JObj [ ("location", JStr "abc123"); ("name", JStr "Work") ] ]) ].

(** A parser that knows four documents and rejects every other text. *)
Definition parse_known (s : string) : option (json Z) :=
  if String.eqb s "{}" then Some (JObj [])
  else if String.eqb s "[]" then Some (JArr [])
  else if String.eqb s "null" then Some JNull
  else if String.eqb s storage_text then Some storage_doc
  else None.

Definition stringify_known (v : json Z) : string :=
  match v with
  | JArr [] => "[]"
  | JObj [] => "{}"
  | _ => "null"
  end.

#[export] Instance json5_known : Json5 Z := {|
  JSON5_parse := parse_known;
  JSON_stringify := stringify_known
|}.

#[export] Instance uri_posix : UriLib := {| fsPath := fun p => p |}.

(** An extension host: the installed extensions and the identifiers the
    marketplace cannot deliver. *)
Record sim_host := {
  installed : list Extension;
  unavailable : list string
}.

Definition has_ext (h : sim_host) (i : string) : bool :=
  existsb (fun e => String.eqb (ext_id e) i) (installed h).

Definition run_command (h : sim_host) (command : string) (args : list string)
  : sim_host * bool :=
  match args with
  | [i] =>
      if String.eqb command uninstall_command then
        if has_ext h i then
          ({| installed :=
                List.filter (fun e => negb (String.eqb (ext_id e) i)) (installed h);
              unavailable := unavailable h |}, true)
        else (h, false)
      else if String.eqb command install_command then
        if existsb (String.eqb i) (unavailable h) then (h, false)
        else ({| installed := installed h ++ [{| ext_id := i; isBuiltin := false |}];
                 unavailable := unavailable h |}, true)
      else (h, false)
  | _ => (h, String.eqb command reload_command)
  end.

#[export] Instance host_demo : ExtensionHost sim_host := {|
  all_extensions := installed;
  executeCommand := run_command
|}.

Definition linux : Env := {|
  platform := "linux";
  APPDATA := None;
  USERPROFILE := None;
  HOME := Some "/home/u";
  XDG_CONFIG_HOME := None;
  homedir := "/home/u"
|}.

Definition ext (i : string) : Extension := {| ext_id := i; isBuiltin := false |}.

Definition always (answer : option string) : User := {|
  answer_warning := fun _ => answer;
  answer_reload := fun _ => Some "Later"
|}.

Definition config (exclude : list string) (ask : bool) : Configuration := {|
  excludeExtensions := Some exclude;
  confirmBeforeSync := Some ask
|}.

Definition world (files : gmap string node) (exts : list string)
    (broken : list string) : World sim_host := {|
  fs := files;
  host := {| installed := map ext exts; unavailable := broken |};
  trace := []
|}.

Definition instance (pid : json Z) (manual : gmap string string)
  : Instance (num := Z) := {|
  appName := "Code";
  activeProfileId := pid;
  activeProfileName := JNull;
  globalState := manual
|}.

End Demo.

Import Demo.

(** Shared concrete inputs for running the model. *)
Module Scenario.

Definition settings_path : string := "/home/u/.config/Code/User/settings.json".
Definition keybindings_path : string := "/home/u/.config/Code/User/keybindings.json".
Definition storage_path : string :=
  "/home/u/.config/Code/User/globalStorage/storage.json".

Definition home_files : gmap string node :=
  {[ settings_path := File "{}"; keybindings_path := File "[]" ]}.

Definition self0 : Instance (num := Z) := Demo.instance (JStr default_profile) ∅.

Definition profile0 : IProfile (num := Z) :=
  {| profileName := "p"; settings := JObj []; extensions := ["B"; "C"];
     keybindings := JArr [] |}.

Definition answers (files : option (list string)) (name : option string)
  : Dialogs :=
  {| open_dialog := fun _ => files; input_box := fun _ => name |}.

Definition eighths (i : nat) : Q := (Z.of_nat i # 8)%Q.

Definition workspace : option (list Uri) :=
  Some [{| scheme := "file"; rest := "///w" |}].

Definition association : json Z :=
  JObj [("workspaces", JObj [("file:///w", JStr "abc123")])].

(** A descriptor whose profile registry is an object instead of an array,
    and a parser that knows it besides the documents of [Demo]. *)
Definition malformed_text : string :=
  "{profileAssociations:{workspaces:{'file:///w':'abc123'}}," +:+
  "userDataProfiles:{}}".

Definition malformed_doc : json Z :=
  JObj [("profileAssociations", association); ("userDataProfiles", JObj [])].

Definition json5_more : Json5 Z := {|
  JSON5_parse := fun s =>
    if String.eqb s malformed_text then Some malformed_doc
    else Demo.parse_known s;
  JSON_stringify := Demo.stringify_known
|}.

End Scenario.

(** * Properties *)

(** ** Running monadic code *)

Section Running.
Context {Host : Type} `{ExtensionHost Host}.
Implicit Types (w : World Host) (evs : list event).

Lemma record_nil w : record w [] = w.
Proof. destruct w; unfold record; simpl. by rewrite app_nil_r. Qed.

Lemma record_record w evs1 evs2 :
  record (record w evs1) evs2 = record w (evs1 ++ evs2).
Proof. unfold record; simpl. by rewrite app_assoc. Qed.

Lemma fs_record w evs : fs (record w evs) = fs w.
Proof. done. Qed.

Lemma host_record w evs : host (record w evs) = host w.
Proof. done. Qed.

Lemma record_inj w evs1 evs2 : record w evs1 = record w evs2 → evs1 = evs2.
Proof.
  unfold record. intros Heq. injection Heq as Heq. by apply app_inv_head in Heq.
Qed.

Lemma run_bind {A B} (m : M A) (f : A → M B) w :
  (m ≫= f) w =
  match m w with
  | (Ok a, w') => f a w'
  | (Throw e, w') => (Throw e, w')
  end.
Proof. done. Qed.

Lemma run_ret {A} (a : A) w : (mret a : M A) w = (Ok a, w).
Proof. done. Qed.

Lemma run_emit e w : emit e w = (Ok (), record w [e]).
Proof. done. Qed.

Lemma run_log lvl msg w : log lvl msg w = (Ok (), record w [Log lvl msg]).
Proof. done. Qed.

Lemma run_stat path w :
  stat path w =
  (if bool_decide (is_Some (fs w !! path)) then Ok ()
   else Throw (FileNotFound path), record w [Stat path]).
Proof.
  unfold stat. rewrite run_bind, run_emit, fs_record.
  destruct (fs w !! path) eqn:Hp.
  - rewrite bool_decide_eq_true_2; [done | by eexists].
  - rewrite bool_decide_eq_false_2; [done | by intros [? ?]].
Qed.
End Running.

Section LocatorFacts.
Context {num : Type} `{Number num} `{Json5 num} `{UriLib}.
Context {Host : Type} `{ExtensionHost Host}.
Implicit Types (w : World Host) (evs : list event).

Lemma run_pathExists path w :
  pathExists path w =
  (Ok (bool_decide (present w path)),
   record w (if bool_decide (present w path)
             then [Stat path; Log Info ("Found file at: " +:+ path)]
             else [Stat path])).
Proof.
  unfold pathExists, try_catch, present.
  rewrite run_bind, run_stat.
  case_bool_decide; [|done].
  rewrite run_bind, run_log, run_ret. by rewrite record_record.
Qed.

(** The locator stats the candidates one by one, in list order, stops at the
    first that exists and returns it; if none exists every candidate has
    been tried and [FileNotFound] is raised.  Nothing but the trace changes. *)
Lemma find_first_spec file paths w :
  ∃ evs,
    (find_first file paths w).2 = record w evs ∧
    match list_find (present w) paths with
    | Some (i, path) =>
        (find_first file paths w).1 = Ok (fsPath path) ∧
        stats evs = take (S i) paths
    | None =>
        (find_first file paths w).1 = Throw (not_found file) ∧
        stats evs = paths
    end.
Proof.
  revert w. induction paths as [|path others IH]; intros w.
  - exists [not_found_log file]. done.
  - cbn [find_first]. rewrite run_bind, run_pathExists.
    cbn [list_find].
    destruct (decide (present w path)) as [Hp|Hp].
    + rewrite !bool_decide_eq_true_2 by done.
      eexists. split; [reflexivity|]. done.
    + rewrite !bool_decide_eq_false_2 by done.
      destruct (IH (record w [Stat path])) as (evs & Hw & Hres).
      exists (Stat path :: evs). split.
      { rewrite Hw, record_record. done. }
      assert (Hfind : list_find (present (record w [Stat path])) others
                      = list_find (present w) others) by done.
      rewrite Hfind in Hres.
      destruct (list_find (present w) others) as [[i q]|]; simpl.
      * destruct Hres as [-> ->]. done.
      * destruct Hres as [-> ->]. done.
Qed.
End LocatorFacts.

(** ** Config locator *)

Section LocatorClaims.
Context {num : Type} `{Number num} `{Json5 num} `{UriLib}.
Context {Host : Type} `{ExtensionHost Host}.
Implicit Types (w : World Host) (evs : list event).

Lemma getConfigPaths_profile env app file (p : string) :
  p ≠ "" → p ≠ default_profile →
  getConfigPaths env app file (JStr p : json num) =
  profile_path env app file (JStr p) :: default_paths env app file.
Proof.
  intros Hne Hdef. unfold getConfigPaths. cbn [truthy strict_eq].
  unfold str_truthy.
  apply String.eqb_neq in Hne as ->. apply String.eqb_neq in Hdef as ->.
  done.
Qed.

Lemma getConfigPaths_no_profile env app file (p : json num) :
  truthy p = false ∨ p = JStr default_profile →
  getConfigPaths env app file p = default_paths env app file.
Proof.
  intros [Hp | ->]; unfold getConfigPaths.
  - by rewrite Hp.
  - cbn [truthy strict_eq]. by rewrite String.eqb_refl, andb_false_r.
Qed.

(** C4 (amended): for every non-empty profile id [p] other than the default
    sentinel, the candidate list is the profile-scoped path followed by the
    platform defaults; [findConfigFile] stats the candidates in that order
    and stops at the first one that exists, returning it (so an existing
    profile-scoped path is returned after a single probe), and raises
    [FileNotFound] after trying all of them otherwise. *)
Theorem C4_profile_path_probed_first env app file (p : string) w :
  p ≠ "" → p ≠ default_profile →
  let paths := getConfigPaths env app file (JStr p : json num) in
  let run := findConfigFile env app file (JStr p : json num) w in
  paths = profile_path env app file (JStr p : json num)
            :: default_paths env app file ∧
  ∃ evs,
    run.2 = record w evs ∧
    match list_find (present w) paths with
    | Some (i, path) => run.1 = Ok (fsPath path) ∧ stats evs = take (S i) paths
    | None => run.1 = Throw (not_found file) ∧ stats evs = paths
    end ∧
    (present w (profile_path env app file (JStr p : json num)) →
     run.1 = Ok (fsPath (profile_path env app file (JStr p : json num))) ∧
     stats evs = [profile_path env app file (JStr p : json num)]).
Proof.
  intros Hne Hdef paths run.
  assert (Hpaths : paths = profile_path env app file (JStr p : json num)
                             :: default_paths env app file)
    by by apply getConfigPaths_profile.
  split; [done|].
  destruct (find_first_spec file paths w) as (evs & Hw & Hres).
  exists evs. split; [done|]. split; [done|].
  intros Hpresent. fold paths in Hres.
  rewrite Hpaths in Hres. cbn [list_find] in Hres.
  rewrite decide_True in Hres by done.
  destruct Hres as [Hr Hs]. rewrite <- Hpaths in Hr.
  split; [exact Hr|]. rewrite Hs. done.
Qed.
End LocatorClaims.

(** C4, witness: profile id [abc123] on Linux with only the default
    settings file on disk: the profile-scoped path is tried, then the first
    default, which is returned. *)
Lemma C4_profile_path_probed_first_witness :
  let w := Demo.world {[ "/home/u/.config/Code/User/settings.json" := File "{}" ]}
             [] [] in
  let paths := getConfigPaths Demo.linux "Code" "settings.json"
                 (JStr "abc123" : json Z) in
  let run := findConfigFile Demo.linux "Code" "settings.json"
               (JStr "abc123" : json Z) w in
  "abc123" ≠ "" ∧ "abc123" ≠ default_profile ∧
  paths = profile_path Demo.linux "Code" "settings.json" (JStr "abc123" : json Z)
            :: default_paths Demo.linux "Code" "settings.json" ∧
  run.1 = Ok "/home/u/.config/Code/User/settings.json" ∧
  ∃ evs,
    run.2 = record w evs ∧
    stats evs = [ "/home/u/.config/Code/User/profiles/abc123/settings.json";
                  "/home/u/.config/Code/User/settings.json" ].
Proof.
  intros w paths run.
  assert (Hne : "abc123" ≠ "") by discriminate.
  assert (Hdef : "abc123" ≠ default_profile) by discriminate.
  split; [exact Hne|]. split; [exact Hdef|].
  destruct (C4_profile_path_probed_first Demo.linux "Code" "settings.json"
              "abc123" w Hne Hdef) as (Hpaths & evs & Hw & Hres & _).
  split; [exact Hpaths|].
  assert (Hfind : list_find (present w) paths =
                  Some (1, "/home/u/.config/Code/User/settings.json")).
  { unfold paths. rewrite Hpaths. cbn [list_find].
    rewrite decide_False by (intros [n Hn]; vm_compute in Hn; discriminate Hn).
    unfold default_paths. cbn [is_win32 is_darwin platform Demo.linux String.eqb
      Ascii.eqb Bool.eqb list_find fmap option_fmap option_map].
    rewrite decide_True by (exists (File "{}"); vm_compute; reflexivity).
    reflexivity. }
  fold paths run in Hres. rewrite Hfind in Hres. destruct Hres as [Hr Hs].
  split; [exact Hr|]. exists evs. split; [exact Hw|].
  rewrite Hs. unfold paths. rewrite Hpaths. reflexivity.
Defined.

(** C4, counterexample: the empty string is a profile id that is neither
    [null] nor the default sentinel, yet no profile-scoped candidate is
    produced for it: the list consists of the platform defaults only. *)
Lemma C4_empty_profile_id_counterexample :
  "" ≠ default_profile ∧
  getConfigPaths Demo.linux "Code" "settings.json" (JStr "" : json Z) =
    default_paths Demo.linux "Code" "settings.json" ∧
  head (getConfigPaths Demo.linux "Code" "settings.json" (JStr "" : json Z)) ≠
    Some (profile_path Demo.linux "Code" "settings.json" (JStr "" : json Z)) ∧
  profile_path Demo.linux "Code" "settings.json" (JStr "" : json Z) ∉
    getConfigPaths Demo.linux "Code" "settings.json" (JStr "" : json Z).
Proof.
  split; [discriminate|]. split; [reflexivity|]. split; [discriminate|].
  intros Hin. vm_compute in Hin.
  repeat (apply elem_of_cons in Hin as [Hin|Hin]; [discriminate Hin|]).
  by apply elem_of_nil in Hin.
Qed.

(** ** Profile detector *)

Section DetectorClaims.
Context {num : Type} `{Number num} `{Json5 num} `{UriLib}.
Context {Host : Type} `{ExtensionHost Host}.
Implicit Types (w : World Host) (evs : list event).

Lemma run_readFile path w :
  readFile path w =
  (match fs w !! path with
   | Some (File content) => Ok content
   | _ => Throw (IOError path)
   end, record w [ReadFile path]).
Proof.
  unfold readFile. rewrite run_bind, run_emit, fs_record.
  by destruct (fs w !! path) as [[]|].
Qed.

Lemma run_parse content w :
  parse content w =
  (match JSON5_parse content with Some v => Ok v | None => Throw SyntaxError end, w).
Proof. unfold parse. by destruct (JSON5_parse content). Qed.

(** What one run of the detector does, by cases on the descriptor. *)
Lemma run_getActiveProfileInfo env wf app w :
  let sp := getStoragePath env app in
  let found := [Stat sp; Log Info ("Found file at: " +:+ sp); ReadFile sp] in
  getActiveProfileInfo env wf app w =
  match fs w !! sp with
  | None => (Ok default_info, record w [Stat sp])
  | Some Dir => (Ok default_info, record w (found ++ [detect_warning (IOError sp)]))
  | Some (File content) =>
      match JSON5_parse content with
      | None => (Ok default_info, record w (found ++ [detect_warning SyntaxError]))
      | Some storage =>
          match workspace_profile storage wf with
          | Throw e => (Ok default_info, record w (found ++ [detect_warning e]))
          | Ok (Some info) => (Ok info, record w found)
          | Ok None => (Ok default_info, record w found)
          end
      end
  end.
Proof.
  intros sp found. unfold getActiveProfileInfo, try_catch. fold sp.
  rewrite run_bind, run_pathExists. unfold present.
  destruct (fs w !! sp) as [n|] eqn:Hsp.
  - rewrite !bool_decide_eq_true_2 by by eexists. cbn [negb].
    rewrite run_bind, run_readFile, fs_record, Hsp, record_record.
    destruct n as [content|].
    + rewrite run_bind, run_parse.
      destruct (JSON5_parse content) as [storage|].
      * rewrite run_bind. unfold lift.
        destruct (workspace_profile storage wf) as [[info|]|e]; try done.
        by rewrite run_bind, run_log, run_ret, record_record.
      * by rewrite run_bind, run_log, run_ret, record_record.
    + by rewrite run_bind, run_log, run_ret, record_record.
  - rewrite !bool_decide_eq_false_2 by by intros [? ?]. done.
Qed.

(** The detector returns on every input, and only the trace grows. *)
Lemma getActiveProfileInfo_returns env wf app w :
  ∃ info evs, getActiveProfileInfo env wf app w = (Ok info, record w evs).
Proof.
  rewrite run_getActiveProfileInfo.
  destruct (fs w !! getStoragePath env app) as [[content|]|]; [|by eauto..].
  destruct (JSON5_parse content) as [storage|]; [|by eauto].
  destruct (workspace_profile storage wf) as [[info|]|e]; by eauto.
Qed.

(** C7: the detector always returns a profile identity and never raises,
    leaving files and extensions untouched; it returns the default sentinel
    whenever the storage descriptor is absent, unreadable or unparsable,
    when a lookup inside it raises, when no workspace is open, when the
    descriptor records no workspace associations, or none for the current
    workspace. *)
Theorem C7_detectActive_total_default env wf app w :
  let run := getActiveProfileInfo env wf app w in
  (∃ info evs, run = (Ok info, record w evs)) ∧
  (degraded env wf app w → run.1 = Ok default_info).
Proof.
  intros run. split; [apply getActiveProfileInfo_returns|].
  unfold run. rewrite run_getActiveProfileInfo.
  intros [Habs | Hdir | c Hc Hparse | c storage e Hc Hparse Hthrow
          | c storage Hc Hparse Hws | c storage pa ws Hc Hparse Hpa Hws Hfalsy
          | c storage pa ws uri v Hc Hparse Hpa Hws Huri Hv Hfalsy].
  - by rewrite Habs.
  - by rewrite Hdir.
  - by rewrite Hc, Hparse.
  - by rewrite Hc, Hparse, Hthrow.
  - rewrite Hc, Hparse.
    assert (Hnone : ∀ i, workspace_profile storage wf ≠ Ok (Some i)).
    { intros i. unfold workspace_profile. rewrite Hws.
      destruct (get_prop storage "profileAssociations") as [pa|]; [|done].
      destruct (opt_chain pa "workspaces") as [ws|]; [|done].
      by destruct (val_truthy ws). }
    destruct (workspace_profile storage wf) as [[info|]|e] eqn:Hwp; try done.
    by destruct (Hnone info).
  - rewrite Hc, Hparse. unfold workspace_profile. by rewrite Hpa, Hws, Hfalsy.
  - rewrite Hc, Hparse. unfold workspace_profile. rewrite Hpa, Hws, Huri.
    destruct (val_truthy ws); [|done].
    destruct (str_truthy uri); [|done].
    rewrite Hv. destruct v as [v|]; [|done].
    cbn [val_truthy] in Hfalsy. by rewrite Hfalsy.
Qed.
End DetectorClaims.

(** C7, witness: a fresh installation without a storage descriptor. *)
Lemma C7_detectActive_total_default_witness :
  let w := Demo.world ∅ [] [] in
  degraded Demo.linux None "Code" w ∧
  (getActiveProfileInfo Demo.linux None "Code" w).1 =
    Ok {| info_id := JStr "__default__profile__"; info_name := JStr "Default" |}.
Proof.
  intros w.
  assert (Hdeg : degraded Demo.linux None "Code" w)
    by (apply descriptor_absent; reflexivity).
  split; [exact Hdeg|].
  exact (proj2 (C7_detectActive_total_default Demo.linux None "Code" w) Hdeg).
Defined.

(** ** Extension reconciler: the batch *)

Section BatchFacts.
Context {Host : Type} `{ExtensionHost Host}.
Implicit Types (w : World Host) (evs : list event).

Lemma with_host_record w h evs1 evs2 :
  record (with_host w h evs1) evs2 = with_host w h (evs1 ++ evs2).
Proof. unfold record, with_host; simpl. by rewrite app_assoc. Qed.

Lemma with_host_with_host w h1 h2 evs1 evs2 :
  with_host (with_host w h1 evs1) h2 evs2 = with_host w h2 (evs1 ++ evs2).
Proof. unfold with_host; simpl. by rewrite app_assoc. Qed.

Lemma record_with_host w h evs1 evs2 :
  with_host (record w evs1) h evs2 = with_host w h (evs1 ++ evs2).
Proof. unfold record, with_host; simpl. by rewrite app_assoc. Qed.

Lemma with_host_same w evs : with_host w (host w) evs = record w evs.
Proof. done. Qed.

Lemma run_execute command args w :
  execute command args w =
  (if (executeCommand (host w) command args).2 then Ok ()
   else Throw (CommandFailed command),
   with_host w (executeCommand (host w) command args).1 [Execute command args]).
Proof.
  unfold execute. rewrite run_bind, run_emit. cbn [host record].
  destruct (executeCommand (host w) command args) as [h' []]; done.
Qed.

Lemma outcomes_app h cmds1 cmds2 :
  outcomes h (cmds1 ++ cmds2) =
  ((outcomes h cmds1).1 ++ (outcomes (outcomes h cmds1).2 cmds2).1,
   (outcomes (outcomes h cmds1).2 cmds2).2).
Proof.
  revert h. induction cmds1 as [|[c a] cmds1 IH]; intros h; cbn [outcomes app].
  - cbn. by destruct (outcomes h cmds2).
  - destruct (executeCommand h c a) as [h' ok]. rewrite IH.
    destruct (outcomes h' cmds1) as [oks1 h1]. cbn [fst snd].
    by destruct (outcomes h1 cmds2).
Qed.

Lemma outcomes_length h cmds : length (outcomes h cmds).1 = length cmds.
Proof.
  revert h. induction cmds as [|[c a] cmds IH]; intros h; cbn [outcomes]; [done|].
  destruct (executeCommand h c a) as [h' ok]. specialize (IH h').
  destruct (outcomes h' cmds). cbn [fst length] in *. by rewrite IH.
Qed.

Lemma succeeded_failed oks : succeeded oks + failed oks = length oks.
Proof.
  unfold succeeded, failed. induction oks as [|[] oks IH]; cbn; lia.
Qed.

Lemma succeeded_app oks1 oks2 :
  succeeded (oks1 ++ oks2) = succeeded oks1 + succeeded oks2.
Proof. unfold succeeded. by rewrite List.filter_app, length_app. Qed.

Lemma failed_app oks1 oks2 : failed (oks1 ++ oks2) = failed oks1 + failed oks2.
Proof. unfold failed. by rewrite List.filter_app, length_app. Qed.

Lemma omap_app_events {B} (f : event → option B) evs1 evs2 :
  omap f (evs1 ++ evs2) = omap f evs1 ++ omap f evs2.
Proof. apply omap_app. Qed.

Lemma actions_app evs1 evs2 : actions (evs1 ++ evs2) = actions evs1 ++ actions evs2.
Proof. apply omap_app. Qed.

(** One loop of the progress callback, for either kind of action. *)
Section Loop.
Variable command : string.
Variable step : nat → string → loop_state → M (Host := Host) loop_state.
Hypothesis run_step : ∀ total i st w,
  ∃ message logged,
    step total i st w =
    (Ok (S st.1, (executeCommand (host w) command [i]).2 || st.2),
     with_host w (executeCommand (host w) command [i]).1
       [ Progress message (percent (S st.1) total);
         Execute command [i];
         Log (if (executeCommand (host w) command [i]).2 then Info else Error)
           logged ]).

Lemma run_loop total ids st w :
  let cmds := map (fun i => (command, [i])) ids in
  let oks := (outcomes (host w) cmds).1 in
  ∃ evs,
    for_of ids (step total) st w =
      (Ok (st.1 + length ids, existsb id oks || st.2),
       with_host w (outcomes (host w) cmds).2 evs) ∧
    actions evs = cmds ∧
    increments evs =
      map (fun k => percent k total) (seq (S st.1) (length ids)) ∧
    length (infos evs) = succeeded oks ∧
    length (errors evs) = failed oks ∧
    writes evs = [].
Proof.
  revert st w. induction ids as [|i ids IH]; intros st w cmds oks.
  - exists []. subst cmds oks. cbn. rewrite Nat.add_0_r.
    rewrite with_host_same, record_nil. by destruct st.
  - subst cmds oks. cbn [for_of map outcomes length].
    destruct (run_step total i st w) as (message & logged & Hstep).
    rewrite run_bind, Hstep.
    destruct (executeCommand (host w) command [i]) as [h' ok] eqn:Hexec.
    cbn [fst snd].
    destruct (IH (S st.1, ok || st.2) (with_host w h'
                [Progress message (percent (S st.1) total);
                 Execute command [i];
                 Log (if ok then Info else Error) logged]))
      as (evs & Hrun & Hact & Hinc & Hinfo & Herr & Hwr).
    cbn [host with_host fst snd] in Hrun, Hinfo, Herr.
    destruct (outcomes h' (map (fun i => (command, [i])) ids)) as [oks h''].
    cbn [fst snd] in *.
    eexists. split.
    { rewrite Hrun, with_host_with_host.
      replace (st.1 + S (length ids)) with (S st.1 + length ids) by lia.
      cbn [existsb id]. by rewrite orb_assoc, (orb_comm _ ok). }
    unfold actions, increments, infos, errors, writes in *.
    rewrite !omap_app_events. rewrite Hact, Hinc, Hwr, !length_app, Hinfo, Herr.
    unfold succeeded, failed. destruct ok; cbn; done.
Qed.
End Loop.

Lemma run_uninstall_step total i st w :
  ∃ message logged,
    uninstall_step total i st w =
    (Ok (S st.1, (executeCommand (host w) uninstall_command [i]).2 || st.2),
     with_host w (executeCommand (host w) uninstall_command [i]).1
       [ Progress message (percent (S st.1) total);
         Execute uninstall_command [i];
         Log (if (executeCommand (host w) uninstall_command [i]).2
              then Info else Error) logged ]).
Proof.
  unfold uninstall_step, try_catch.
  rewrite run_bind, run_emit, run_bind, run_execute. cbn [host record].
  destruct (executeCommand (host w) uninstall_command [i]) as [h' []];
    cbn [fst snd orb].
  - do 2 eexists. rewrite run_bind, run_log, run_ret.
    rewrite with_host_record, record_with_host. done.
  - do 2 eexists. rewrite run_bind, run_log, run_ret.
    rewrite with_host_record, record_with_host. done.
Qed.

Lemma run_install_step total i st w :
  ∃ message logged,
    install_step total i st w =
    (Ok (S st.1, (executeCommand (host w) install_command [i]).2 || st.2),
     with_host w (executeCommand (host w) install_command [i]).1
       [ Progress message (percent (S st.1) total);
         Execute install_command [i];
         Log (if (executeCommand (host w) install_command [i]).2
              then Info else Error) logged ]).
Proof.
  unfold install_step, try_catch.
  rewrite run_bind, run_emit, run_bind, run_execute. cbn [host record].
  destruct (executeCommand (host w) install_command [i]) as [h' []];
    cbn [fst snd orb].
  - do 2 eexists. rewrite run_bind, run_log, run_ret.
    rewrite with_host_record, record_with_host. done.
  - do 2 eexists. rewrite run_bind, run_log, run_ret.
    rewrite with_host_record, record_with_host. done.
Qed.
End BatchFacts.

Section BatchClaims.
Context {Host : Type} `{ExtensionHost Host}.
Implicit Types (w : World Host) (evs : list event).

(** What the progress callback does: it never raises, issues exactly the
    removals and then the installations, reports the running percentage
    before each of them and logs one line per action. *)
Lemma run_sync_batch toInstall toDelete needsReload w :
  let cmds := batch_commands toInstall toDelete in
  let total := length toInstall + length toDelete in
  let oks := (outcomes (host w) cmds).1 in
  ∃ evs,
    sync_batch toInstall toDelete needsReload w =
      (Ok (total, existsb id oks || needsReload),
       with_host w (outcomes (host w) cmds).2 evs) ∧
    actions evs = cmds ∧
    increments evs = map (fun k => percent k total) (seq 1 total) ∧
    length (infos evs) = succeeded oks ∧
    length (errors evs) = failed oks ∧
    writes evs = [].
Proof.
  intros cmds total oks. unfold sync_batch. fold total.
  rewrite run_bind.
  destruct (run_loop uninstall_command uninstall_step run_uninstall_step
              total toDelete (0, needsReload) w)
    as (evs1 & Hrun1 & Hact1 & Hinc1 & Hinfo1 & Herr1 & Hwr1).
  rewrite Hrun1. cbn [fst snd] in *.
  set (w1 := with_host w _ evs1).
  destruct (run_loop install_command install_step run_install_step
              total toInstall
              (0 + length toDelete,
               existsb id (outcomes (host w) (map uninstall_of toDelete)).1
               || needsReload) w1)
    as (evs2 & Hrun2 & Hact2 & Hinc2 & Hinfo2 & Herr2 & Hwr2).
  unfold uninstall_of, install_of in *.
  rewrite Hrun2. cbn [fst snd] in *. subst w1. cbn [host with_host] in *.
  exists (evs1 ++ evs2).
  subst cmds oks. unfold batch_commands, uninstall_of, install_of.
  rewrite outcomes_app. cbn [fst snd].
  split.
  { rewrite with_host_with_host. unfold total.
    rewrite existsb_app, orb_assoc.
    rewrite (orb_comm (existsb id (outcomes (host w) _).1)).
    by rewrite (Nat.add_comm (length toInstall)). }
  unfold actions, increments, infos, errors, writes in *.
  rewrite !omap_app, Hact1, Hact2, Hinc1, Hinc2, Hwr1, Hwr2, !length_app.
  rewrite Hinfo1, Hinfo2, Herr1, Herr2, succeeded_app, failed_app.
  repeat split; try done.
  unfold total. rewrite (Nat.add_comm (length toInstall)).
  by rewrite seq_app, map_app.
Qed.

(** C6: in a batch of N actions of which exactly one fails, the callback
    still returns normally having counted all N actions, every one of the N
    commands was issued, the failure was logged once, and the other N-1
    actions were logged as done. *)
Theorem C6_one_failure_does_not_abort toInstall toDelete needsReload w :
  let cmds := batch_commands toInstall toDelete in
  let N := length cmds in
  failed (outcomes (host w) cmds).1 = 1 →
  ∃ evs reload,
    sync_batch toInstall toDelete needsReload w =
      (Ok (N, reload), with_host w (outcomes (host w) cmds).2 evs) ∧
    actions evs = cmds ∧
    length (errors evs) = 1 ∧
    length (infos evs) = N - 1 ∧
    succeeded (outcomes (host w) cmds).1 = N - 1.
Proof.
  intros cmds N Hone.
  destruct (run_sync_batch toInstall toDelete needsReload w)
    as (evs & Hrun & Hact & _ & Hinfo & Herr & _).
  fold cmds in Hrun, Hact, Hinfo, Herr.
  pose proof (succeeded_failed (outcomes (host w) cmds).1) as Hsum.
  rewrite outcomes_length in Hsum. fold N in Hsum.
  exists evs, (existsb id (outcomes (host w) cmds).1 || needsReload).
  split.
  { rewrite Hrun. do 3 f_equal. unfold N, cmds, batch_commands.
    rewrite length_app, !length_map. lia. }
  split; [done|]. split; [lia|]. split; lia.
Qed.
End BatchClaims.

(** C6, witness: removing [A] works, installing [C] is refused by the
    marketplace, installing [D] works. *)
Lemma C6_one_failure_does_not_abort_witness :
  let w := Demo.world ∅ ["A"; "B"] ["C"] in
  let cmds := batch_commands ["C"; "D"] ["A"] in
  failed (outcomes (host w) cmds).1 = 1 ∧
  ∃ evs reload,
    sync_batch ["C"; "D"] ["A"] false w =
      (Ok (3, reload), with_host w (outcomes (host w) cmds).2 evs) ∧
    actions evs = cmds ∧
    length (errors evs) = 1 ∧
    length (infos evs) = 2 ∧
    succeeded (outcomes (host w) cmds).1 = 2.
Proof.
  intros w cmds.
  assert (Hone : failed (outcomes (host w) cmds).1 = 1) by reflexivity.
  split; [exact Hone|].
  exact (C6_one_failure_does_not_abort ["C"; "D"] ["A"] false w Hone).
Defined.

(** ** Extension reconciler: the delta and the confirmation *)

Section StringFacts.
Lemma string_app_nil_r s : s +:+ "" = s.
Proof.
  induction s as [|a s IH]; [done|].
  change (String a (s +:+ "") = String a s). by rewrite IH.
Qed.

Lemma string_app_assoc s t u : s +:+ (t +:+ u) = (s +:+ t) +:+ u.
Proof.
  induction s as [|a s IH]; [done|].
  change (String a (s +:+ (t +:+ u)) = String a ((s +:+ t) +:+ u)).
  by rewrite IH.
Qed.

Lemma occurs_refl s : occurs s s.
Proof. exists "", "". by rewrite string_app_nil_r. Qed.

Lemma occurs_app_l s t u : occurs s t → occurs s (t +:+ u).
Proof.
  intros (pre & post & ->). exists pre, (post +:+ u).
  by rewrite <- !string_app_assoc.
Qed.

Lemma occurs_app_r s t u : occurs s u → occurs s (t +:+ u).
Proof.
  intros (pre & post & ->). exists (t +:+ pre), post.
  by rewrite <- !string_app_assoc.
Qed.

Lemma occurs_join sep i xs : i ∈ xs → occurs i (join sep xs).
Proof.
  induction xs as [|x rest IH]; intros Hin.
  - by apply elem_of_nil in Hin.
  - apply elem_of_cons in Hin as [->|Hin].
    + destruct rest; cbn [join]; [apply occurs_refl|].
      apply occurs_app_l, occurs_refl.
    + destruct rest as [|y rest]; [by apply elem_of_nil in Hin|].
      change (occurs i (x +:+ sep +:+ join sep (y :: rest))).
      by apply occurs_app_r, occurs_app_r, IH.
Qed.
End StringFacts.

Section FilterFacts.
Context {A : Type}.

Lemma elem_of_List_filter (f : A → bool) (l : list A) (x : A) :
  x ∈ List.filter f l ↔ x ∈ l ∧ f x = true.
Proof. rewrite !list_elem_of_In. apply filter_In. Qed.

Lemma List_filter_sublist (f : A → bool) (l : list A) :
  List.filter f l `sublist_of` l.
Proof.
  induction l as [|x l IH]; cbn; [constructor|].
  destruct (f x); by constructor.
Qed.

Lemma List_filter_nil (f : A → bool) (l : list A) :
  List.filter f l = [] ↔ ∀ x, x ∈ l → f x = false.
Proof.
  split.
  - intros Hnil x Hx. destruct (f x) eqn:Hfx; [|done].
    assert (Hin : x ∈ List.filter f l) by by apply elem_of_List_filter.
    rewrite Hnil in Hin. by apply elem_of_nil in Hin.
  - intros Hall. induction l as [|x l IH]; [done|]. cbn.
    rewrite (Hall x) by by left. apply IH. intros y Hy. apply Hall. by right.
Qed.
End FilterFacts.

Section ReconcilerClaims.
Context {Host : Type} `{ExtensionHost Host}.
Implicit Types (w : World Host) (evs : list event).
Implicit Types (localList remoteList : list string).

Lemma elem_of_toInstall localList remoteList i :
  i ∈ toInstall_of localList remoteList ↔ i ∈ remoteList ∧ i ∉ localList.
Proof.
  unfold toInstall_of. rewrite elem_of_List_filter, negb_true_iff.
  rewrite bool_decide_eq_false, elem_of_list_to_set. done.
Qed.

Lemma elem_of_toDelete localList remoteList i :
  i ∈ toDelete_of localList remoteList ↔ i ∈ localList ∧ i ∉ remoteList.
Proof.
  unfold toDelete_of. rewrite elem_of_List_filter, negb_true_iff.
  rewrite bool_decide_eq_false, elem_of_list_to_set. done.
Qed.

Lemma toInstall_set localList remoteList :
  list_to_set (toInstall_of localList remoteList) =@{gset string}
  list_to_set remoteList ∖ list_to_set localList.
Proof.
  apply set_eq. intros i.
  rewrite elem_of_difference, !elem_of_list_to_set. apply elem_of_toInstall.
Qed.

Lemma toDelete_set localList remoteList :
  list_to_set (toDelete_of localList remoteList) =@{gset string}
  list_to_set localList ∖ list_to_set remoteList.
Proof.
  apply set_eq. intros i.
  rewrite elem_of_difference, !elem_of_list_to_set. apply elem_of_toDelete.
Qed.

Lemma delta_empty_iff localList remoteList :
  toInstall_of localList remoteList = [] ∧ toDelete_of localList remoteList = []
  ↔ list_to_set localList =@{gset string} list_to_set remoteList.
Proof.
  split.
  - intros [Hi Hd]. apply set_eq. intros i. rewrite !elem_of_list_to_set.
    split; intros Hin.
    + destruct (decide (i ∈ remoteList)) as [|Hn]; [done|].
      assert (Hx : i ∈ toDelete_of localList remoteList)
        by by apply elem_of_toDelete.
      rewrite Hd in Hx. by apply elem_of_nil in Hx.
    + destruct (decide (i ∈ localList)) as [|Hn]; [done|].
      assert (Hx : i ∈ toInstall_of localList remoteList)
        by by apply elem_of_toInstall.
      rewrite Hi in Hx. by apply elem_of_nil in Hx.
  - intros Heq.
    assert (Hiff : ∀ i, i ∈ localList ↔ i ∈ remoteList).
    { intros i. by rewrite <- !(elem_of_list_to_set (C := gset string)), Heq. }
    split; apply List_filter_nil; intros i Hin; apply negb_false_iff,
      bool_decide_eq_true, elem_of_list_to_set; by apply Hiff.
Qed.

Lemma run_getExtensions cfg w :
  getExtensions cfg w = (Ok (installed_ids cfg (host w)), w).
Proof. done. Qed.

Lemma run_confirm cfg user toInstall toDelete w :
  let message := warning_message toInstall toDelete in
  confirm cfg user toInstall toDelete w =
  if default true (confirmBeforeSync cfg) then
    if bool_decide (answer_warning user message = Some "Show Details") then
      (Ok false,
       record w [ShowWarning message;
                 ShowInformation (details_message toInstall toDelete)])
    else
      (Ok (bool_decide (answer_warning user message = Some "Yes")),
       record w [ShowWarning message])
  else (Ok true, w).
Proof.
  intros message. unfold confirm. fold message.
  destruct (default true (confirmBeforeSync cfg)); [|done].
  rewrite run_bind, run_emit.
  case_bool_decide.
  - by rewrite run_bind, run_emit, run_ret, record_record.
  - by case_bool_decide.
Qed.

End ReconcilerClaims.

Section ReconcilerRuns.
Context {Host : Type} `{ExtensionHost Host}.
Implicit Types (w : World Host) (evs : list event).
Implicit Types (localList remoteList : list string).

Lemma includes_true xs x : includes xs x = true ↔ x ∈ xs.
Proof.
  unfold includes. rewrite existsb_exists. split.
  - intros (y & Hy & Heq). apply String.eqb_eq in Heq as ->.
    by apply list_elem_of_In.
  - intros Hx. exists x. split; [by apply list_elem_of_In | apply String.eqb_refl].
Qed.

Lemma delta_nonempty localList remoteList :
  (length (toInstall_of localList remoteList) =? 0)%nat &&
  (length (toDelete_of localList remoteList) =? 0)%nat = false ↔
  toInstall_of localList remoteList ≠ [] ∨ toDelete_of localList remoteList ≠ [].
Proof.
  destruct (toInstall_of localList remoteList), (toDelete_of localList remoteList);
    cbn; split; intros Hx; try done; auto; by destruct Hx.
Qed.

(** A run that gets past the confirmation: the events are the prompt (if
    confirmation is on), then those of the progress callback, then the
    reload prompt (if some action worked) and the reload (if accepted). *)
Lemma run_installExtensions_proceeds cfg user remoteList w :
  let localList := installed_ids cfg (host w) in
  let toInstall := toInstall_of localList remoteList in
  let toDelete := toDelete_of localList remoteList in
  let cmds := batch_commands toInstall toDelete in
  let total := length toInstall + length toDelete in
  toInstall ≠ [] ∨ toDelete ≠ [] →
  proceeds cfg user toInstall toDelete →
  ∃ pre evs post h',
    (installExtensions cfg user remoteList w).2 =
      with_host w h' (pre ++ evs ++ post) ∧
    (pre = [] ∨ pre = [ShowWarning (warning_message toInstall toDelete)]) ∧
    actions evs = cmds ∧
    increments evs = map (fun k => percent k total) (seq 1 total) ∧
    length (infos evs) = succeeded (outcomes (host w) cmds).1 ∧
    length (errors evs) = failed (outcomes (host w) cmds).1 ∧
    (post = [] ∨ post = [ShowInformation reload_message] ∨
     post = [ShowInformation reload_message; Execute reload_command []]).
Proof.
  intros localList toInstall toDelete cmds total Hdelta Hgo.
  apply delta_nonempty in Hdelta.
  unfold installExtensions. rewrite run_bind, run_getExtensions.
  cbv beta iota zeta. fold localList. rewrite Hdelta.
  fold toInstall. fold toDelete.
  rewrite run_bind, run_confirm.
  set (message := warning_message toInstall toDelete).
  assert (Hconfirm : ∃ pre,
    (if default true (confirmBeforeSync cfg)
     then if bool_decide (answer_warning user message = Some "Show Details")
          then (Ok false, record w [ShowWarning message;
                  ShowInformation (details_message toInstall toDelete)])
          else (Ok (bool_decide (answer_warning user message = Some "Yes")),
                record w [ShowWarning message])
     else (Ok true, w)) = (Ok true, record w pre) ∧
    (pre = [] ∨ pre = [ShowWarning message])).
  { destruct Hgo as [-> | Hyes].
    - exists []. rewrite record_nil. by split; [|left].
    - fold message in Hyes. destruct (default true (confirmBeforeSync cfg)).
      + exists [ShowWarning message]. rewrite Hyes.
        rewrite bool_decide_eq_false_2 by discriminate.
        rewrite bool_decide_eq_true_2 by done. by split; [|right].
      + exists []. rewrite record_nil. by split; [|left]. }
  destruct Hconfirm as (pre & -> & Hpre). cbn [negb].
  rewrite run_bind.
  destruct (run_sync_batch toInstall toDelete false (record w pre))
    as (evs & Hrun & Hact & Hinc & Hinfo & Herr & _).
  rewrite Hrun. cbn [host record] in *. cbn [snd].
  rewrite record_with_host.
  set (h1 := (outcomes (host w) (batch_commands toInstall toDelete)).2).
  destruct (existsb id _ || false).
  - rewrite run_bind, run_emit, with_host_record.
    case_bool_decide.
    + rewrite run_execute. cbn [snd host with_host].
      exists pre, evs, [ShowInformation reload_message; Execute reload_command []],
        (executeCommand h1 reload_command []).1.
      rewrite with_host_with_host, <- !app_assoc. cbn [app].
      repeat split; try done. by right; right.
    + exists pre, evs, [ShowInformation reload_message], h1.
      rewrite run_ret. cbn [snd]. rewrite <- !app_assoc.
      repeat split; try done. by right; left.
  - exists pre, evs, [], h1. rewrite run_ret. cbn [snd]. rewrite app_nil_r.
    repeat split; try done. by left.
Qed.

(** The commands of a run that goes ahead: the batch, then at most the
    window reload. *)
Lemma installExtensions_actions cfg user remoteList w :
  let localList := installed_ids cfg (host w) in
  let toInstall := toInstall_of localList remoteList in
  let toDelete := toDelete_of localList remoteList in
  proceeds cfg user toInstall toDelete →
  ∃ evs h' tail,
    (installExtensions cfg user remoteList w).2 = with_host w h' evs ∧
    actions evs = map uninstall_of toDelete ++ map install_of toInstall ++ tail ∧
    (tail = [] ∨ tail = [(reload_command, [])]).
Proof.
  intros localList toInstall toDelete Hgo.
  destruct (decide (toInstall = [] ∧ toDelete = [])) as [[Hi Hd]|Hne].
  - exists [ShowInformation "Extensions are already in sync"], (host w), [].
    unfold installExtensions. rewrite run_bind, run_getExtensions.
    cbv beta iota zeta. fold localList. fold toInstall. fold toDelete.
    rewrite Hi, Hd. cbn. repeat split; auto.
  - assert (Hdelta : toInstall ≠ [] ∨ toDelete ≠ []).
    { destruct (decide (toInstall = [])) as [Hi|Hi]; [|by left].
      right. intros Hd. by apply Hne. }
    destruct (run_installExtensions_proceeds cfg user remoteList w Hdelta Hgo)
      as (pre & evs & post & h' & Hrun & Hpre & Hact & _ & _ & _ & Hpost).
    exists (pre ++ evs ++ post), h', (actions post).
    split; [exact Hrun|]. split.
    + rewrite !actions_app, Hact.
      destruct Hpre as [-> | ->]; unfold batch_commands;
        by rewrite <- app_assoc.
    + destruct Hpost as [-> | [-> | ->]]; cbn; auto.
Qed.

(** Which identifiers a command list installs and removes. *)
Lemma install_of_in_batch toInstall toDelete tail i :
  tail = [] ∨ tail = [(reload_command, [])] →
  install_of i ∈ map uninstall_of toDelete ++ map install_of toInstall ++ tail
  ↔ i ∈ toInstall.
Proof.
  intros Htail. rewrite !elem_of_app, !list_elem_of_fmap. split.
  - intros [(j & Hj & _) | [(j & Hj & Hin) | Hin]].
    + discriminate Hj.
    + by injection Hj as ->.
    + destruct Htail as [-> | ->]; [by apply elem_of_nil in Hin|].
      apply list_elem_of_singleton in Hin. discriminate Hin.
  - intros Hin. right; left. by exists i.
Qed.

Lemma uninstall_of_in_batch toInstall toDelete tail i :
  tail = [] ∨ tail = [(reload_command, [])] →
  uninstall_of i ∈ map uninstall_of toDelete ++ map install_of toInstall ++ tail
  ↔ i ∈ toDelete.
Proof.
  intros Htail. rewrite !elem_of_app, !list_elem_of_fmap. split.
  - intros [(j & Hj & Hin) | [(j & Hj & _) | Hin]].
    + by injection Hj as ->.
    + discriminate Hj.
    + destruct Htail as [-> | ->]; [by apply elem_of_nil in Hin|].
      apply list_elem_of_singleton in Hin. discriminate Hin.
  - intros Hin. left. by exists i.
Qed.

(** C1: the reconciler's [toInstall] is the set difference remote - local
    and its [toDelete] the set difference local - remote, where local is the
    list [getExtensions] returns; both are empty exactly when the two lists
    are equal as sets, and then the reconciler only shows "Extensions are
    already in sync": no command is issued and no confirmation is asked.
    The two differences are what the reconciler acts on: a run that goes
    ahead issues an installation for an identifier exactly when it is remote
    and not local, and a removal exactly when it is local and not remote. *)
Theorem C1_delta_and_in_sync_noop cfg user remoteList w :
  let localList := installed_ids cfg (host w) in
  let toInstall := toInstall_of localList remoteList in
  let toDelete := toDelete_of localList remoteList in
  (getExtensions cfg w).1 = Ok localList ∧
  list_to_set toInstall =@{gset string}
    list_to_set remoteList ∖ list_to_set localList ∧
  list_to_set toDelete =@{gset string}
    list_to_set localList ∖ list_to_set remoteList ∧
  (toInstall = [] ∧ toDelete = []
   ↔ list_to_set localList =@{gset string} list_to_set remoteList) ∧
  (list_to_set localList =@{gset string} list_to_set remoteList →
   installExtensions cfg user remoteList w =
     (Ok (), record w [ShowInformation "Extensions are already in sync"])) ∧
  (proceeds cfg user toInstall toDelete →
   ∃ evs h',
     (installExtensions cfg user remoteList w).2 = with_host w h' evs ∧
     (∀ i, install_of i ∈ actions evs ↔ i ∈ remoteList ∧ i ∉ localList) ∧
     (∀ i, uninstall_of i ∈ actions evs ↔ i ∈ localList ∧ i ∉ remoteList) ∧
     length (actions evs) ≥ length toInstall + length toDelete).
Proof.
  intros localList toInstall toDelete.
  split; [done|].
  split; [apply toInstall_set|]. split; [apply toDelete_set|].
  split; [apply delta_empty_iff|]. split.
  - intros Heq. apply delta_empty_iff in Heq as [Hi Hd].
    unfold installExtensions. rewrite run_bind, run_getExtensions.
    cbv beta iota zeta. unfold localList in Hi, Hd. by rewrite Hi, Hd.
  - intros Hgo.
    destruct (installExtensions_actions cfg user remoteList w Hgo)
      as (evs & h' & tail & Hrun & Hact & Htail).
    exists evs, h'. split; [exact Hrun|]. rewrite Hact.
    split; [|split].
    + intros i. rewrite (install_of_in_batch _ _ _ _ Htail).
      apply elem_of_toInstall.
    + intros i. rewrite (uninstall_of_in_batch _ _ _ _ Htail).
      apply elem_of_toDelete.
    + unfold toInstall, toDelete, localList.
      rewrite !length_app, !length_map. lia.
Qed.

(** C5: when the reconciler goes ahead, the commands it issues are, in this
    order, one removal per element of [toDelete], then one installation per
    element of [toInstall], and after them at most the window reload;
    [toDelete] keeps the order of the local list and [toInstall] that of the
    remote list. *)
Theorem C5_uninstalls_before_installs cfg user remoteList w :
  let localList := installed_ids cfg (host w) in
  let toInstall := toInstall_of localList remoteList in
  let toDelete := toDelete_of localList remoteList in
  proceeds cfg user toInstall toDelete →
  ∃ evs h' tail,
    (installExtensions cfg user remoteList w).2 = with_host w h' evs ∧
    actions evs = map uninstall_of toDelete ++ map install_of toInstall ++ tail ∧
    (tail = [] ∨ tail = [(reload_command, [])]) ∧
    toDelete `sublist_of` localList ∧
    toInstall `sublist_of` remoteList.
Proof.
  intros localList toInstall toDelete Hgo.
  assert (Hsub : toDelete `sublist_of` localList ∧ toInstall `sublist_of` remoteList)
    by (split; apply List_filter_sublist).
  destruct (decide (toInstall = [] ∧ toDelete = [])) as [[Hi Hd]|Hne].
  - exists [ShowInformation "Extensions are already in sync"], (host w), [].
    unfold installExtensions. rewrite run_bind, run_getExtensions.
    cbv beta iota zeta. fold localList. fold toInstall. fold toDelete.
    rewrite Hi, Hd. cbn. repeat split; auto using sublist_nil_l.
  - assert (Hdelta : toInstall ≠ [] ∨ toDelete ≠ []).
    { destruct (decide (toInstall = [])) as [Hi|Hi]; [|by left].
      right. intros Hd. by apply Hne. }
    destruct (run_installExtensions_proceeds cfg user remoteList w Hdelta Hgo)
      as (pre & evs & post & h' & Hrun & Hpre & Hact & _ & _ & _ & Hpost).
    exists (pre ++ evs ++ post), h', (actions post).
    split; [exact Hrun|]. split.
    + rewrite !actions_app, Hact.
      destruct Hpre as [-> | ->]; unfold batch_commands;
        by rewrite <- app_assoc.
    + split; [|done]. destruct Hpost as [-> | [-> | ->]]; cbn; auto.
Qed.
End ReconcilerRuns.

(** C1, witness: the same three extensions listed in a different order;
    and local [A, B], remote [B, C] with the confirmation accepted. *)
Lemma C1_delta_and_in_sync_noop_witness :
  let cfg := Demo.config [] true in
  let w := Demo.world ∅ ["A"; "B"; "C"] [] in
  let w' := Demo.world ∅ ["A"; "B"] [] in
  let user := Demo.always (Some "Yes") in
  (list_to_set (installed_ids cfg (host w)) =@{gset string}
     list_to_set ["C"; "A"; "B"; "A"] ∧
   installExtensions cfg (Demo.always None) ["C"; "A"; "B"; "A"] w =
     (Ok (), record w [ShowInformation "Extensions are already in sync"])) ∧
  (proceeds cfg user (toInstall_of (installed_ids cfg (host w')) ["B"; "C"])
     (toDelete_of (installed_ids cfg (host w')) ["B"; "C"]) ∧
   ∃ evs h',
     (installExtensions cfg user ["B"; "C"] w').2 = with_host w' h' evs ∧
     (∀ i, install_of i ∈ actions evs ↔
           i ∈ ["B"; "C"] ∧ i ∉ installed_ids cfg (host w')) ∧
     (∀ i, uninstall_of i ∈ actions evs ↔
           i ∈ installed_ids cfg (host w') ∧ i ∉ ["B"; "C"]) ∧
     length (actions evs) ≥
       length (toInstall_of (installed_ids cfg (host w')) ["B"; "C"]) +
       length (toDelete_of (installed_ids cfg (host w')) ["B"; "C"])).
Proof.
  intros cfg w w' user.
  assert (Heq : list_to_set (installed_ids cfg (host w))
                =@{gset string} list_to_set ["C"; "A"; "B"; "A"]).
  { vm_compute. reflexivity. }
  assert (Hgo : proceeds cfg user
                  (toInstall_of (installed_ids cfg (host w')) ["B"; "C"])
                  (toDelete_of (installed_ids cfg (host w')) ["B"; "C"]))
    by (right; reflexivity).
  split.
  - split; [exact Heq|].
    exact (proj1 (proj2 (proj2 (proj2 (proj2 (C1_delta_and_in_sync_noop cfg
             (Demo.always None) ["C"; "A"; "B"; "A"] w))))) Heq).
  - split; [exact Hgo|].
    exact (proj2 (proj2 (proj2 (proj2 (proj2 (C1_delta_and_in_sync_noop cfg
             user ["B"; "C"] w'))))) Hgo).
Defined.

(** C5, witness: local [A, B, C], remote [C, D, E], confirmation accepted. *)
Lemma C5_uninstalls_before_installs_witness :
  let w := Demo.world ∅ ["A"; "B"; "C"] [] in
  let cfg := Demo.config [] true in
  let user := Demo.always (Some "Yes") in
  proceeds cfg user ["D"; "E"] ["A"; "B"] ∧
  ∃ evs h' tail,
    (installExtensions cfg user ["C"; "D"; "E"] w).2 = with_host w h' evs ∧
    actions evs =
      map uninstall_of ["A"; "B"] ++ map install_of ["D"; "E"] ++ tail ∧
    (tail = [] ∨ tail = [(reload_command, [])]) ∧
    ["A"; "B"] `sublist_of` ["A"; "B"; "C"] ∧
    ["D"; "E"] `sublist_of` ["C"; "D"; "E"].
Proof.
  intros w cfg user.
  assert (Hgo : proceeds cfg user ["D"; "E"] ["A"; "B"]) by (right; reflexivity).
  split; [exact Hgo|].
  exact (C5_uninstalls_before_installs cfg user ["C"; "D"; "E"] w Hgo).
Defined.

Section ExclusionAndConfirmation.
Context {Host : Type} `{ExtensionHost Host}.
Implicit Types (w : World Host) (evs : list event).
Implicit Types (localList remoteList : list string).

(** The exclusion list is applied by [getExtensions] alone: an excluded
    identifier is dropped from the local list, hence never appears in
    [toDelete], while nothing removes it from the remote list. *)
Lemma exclusion_filters_local_list cfg (h : Host) remoteList e :
  e ∈ default [] (excludeExtensions cfg) →
  let localList := installed_ids cfg h in
  (e ∉ localList) ∧
  (e ∉ toDelete_of localList remoteList) ∧
  (e ∈ toInstall_of localList remoteList ↔ e ∈ remoteList).
Proof.
  intros Hex localList.
  assert (Hlocal : e ∉ localList).
  { unfold localList, installed_ids. rewrite elem_of_List_filter.
    intros [_ Hinc]. apply negb_true_iff in Hinc.
    apply includes_true in Hex. congruence. }
  split; [done|]. split.
  - rewrite elem_of_toDelete. by intros [? _].
  - rewrite elem_of_toInstall. split; [by intros [? _] | by intros ?].
Qed.

Lemma str_truthy_app_l s t : str_truthy s = true → str_truthy (s +:+ t) = true.
Proof. by destruct s. Qed.

Lemma details_lists_every_id toInstall toDelete i :
  i ∈ toInstall ++ toDelete → occurs i (details_message toInstall toDelete).
Proof.
  intros Hin. unfold details_message.
  set (a := ("To Install:" +:+ nl +:+ join nl toInstall)).
  set (b := ("To Remove:" +:+ nl +:+ join nl toDelete)).
  assert (Ha : i ∈ toInstall → occurs i a).
  { intros Hi. by apply occurs_app_r, occurs_app_r, occurs_join. }
  assert (Hb : i ∈ toDelete → occurs i b).
  { intros Hi. by apply occurs_app_r, occurs_app_r, occurs_join. }
  destruct toInstall as [|x xs], toDelete as [|y ys].
  - by apply elem_of_nil in Hin.
  - cbn [length Nat.ltb Nat.leb app] in *. change (occurs i b). by apply Hb.
  - rewrite app_nil_r in Hin. cbn [length Nat.ltb Nat.leb].
    change (occurs i a). by apply Ha.
  - cbn [length Nat.ltb Nat.leb].
    change (occurs i (a +:+ (nl +:+ nl) +:+ b)).
    apply elem_of_app in Hin as [Hi|Hi].
    + by apply occurs_app_l, Ha.
    + by apply occurs_app_r, occurs_app_r, Hb.
Qed.

(** C8: with confirmation enabled, any answer other than "Yes" ends the
    reconciliation at the prompt: the call returns normally, no command has
    been issued and neither the extension host nor the file system has
    changed.  After "Show Details" the only further event is one message
    that contains every identifier of [toInstall] and [toDelete]. *)
Theorem C8_no_mutation_without_yes cfg user remoteList w :
  let localList := installed_ids cfg (host w) in
  let toInstall := toInstall_of localList remoteList in
  let toDelete := toDelete_of localList remoteList in
  let message := warning_message toInstall toDelete in
  default true (confirmBeforeSync cfg) = true →
  answer_warning user message ≠ Some "Yes" →
  ∃ evs,
    installExtensions cfg user remoteList w = (Ok (), record w evs) ∧
    host (installExtensions cfg user remoteList w).2 = host w ∧
    fs (installExtensions cfg user remoteList w).2 = fs w ∧
    actions evs = [] ∧
    (answer_warning user message = Some "Show Details" →
     toInstall ≠ [] ∨ toDelete ≠ [] →
     evs = [ShowWarning message;
            ShowInformation (details_message toInstall toDelete)] ∧
     ∀ i, i ∈ toInstall ++ toDelete →
          occurs i (details_message toInstall toDelete)).
Proof.
  intros localList toInstall toDelete message Hon Hno.
  assert (Hrun : ∃ evs,
    installExtensions cfg user remoteList w = (Ok (), record w evs) ∧
    actions evs = [] ∧
    (answer_warning user message = Some "Show Details" →
     toInstall ≠ [] ∨ toDelete ≠ [] →
     evs = [ShowWarning message;
            ShowInformation (details_message toInstall toDelete)])).
  { unfold installExtensions. rewrite run_bind, run_getExtensions.
    cbv beta iota zeta. fold localList.
    destruct ((length (toInstall_of localList remoteList) =? 0)%nat &&
              (length (toDelete_of localList remoteList) =? 0)%nat) eqn:Hsync.
    - eexists. split; [reflexivity|]. split; [done|].
      intros _ Hdelta. apply delta_nonempty in Hdelta. congruence.
    - fold toInstall. fold toDelete.
      rewrite run_bind, run_confirm. fold message. rewrite Hon.
      case_bool_decide as Hdetails.
      + eexists. split; [reflexivity|]. done.
      + rewrite bool_decide_eq_false_2 by done.
        eexists. split; [reflexivity|]. split; [done|]. done. }
  destruct Hrun as (evs & Hrun & Hact & Hdet).
  exists evs. rewrite Hrun. repeat split; try done.
  - by apply Hdet.
  - intros i. apply details_lists_every_id.
Qed.
End ExclusionAndConfirmation.

(** C3: evaluation at the failing input.  [X] is on the exclusion list, is
    installed, and is in the remote list; the installed extensions are
    exactly the remote list.  [getExtensions] drops [X] from the local list
    while the remote list is compared as given, so [X] lands in [toInstall]
    and the reconciler issues an install command for it. *)
Theorem C3_excluded_id_is_installed_again :
  let cfg := Demo.config ["X"] false in
  let w := Demo.world ∅ ["X"; "A"] [] in
  let remoteList := ["X"; "A"] in
  let localList := installed_ids cfg (host w) in
  let run := installExtensions cfg (Demo.always None) remoteList w in
  "X" ∈ default [] (excludeExtensions cfg) ∧
  map ext_id (all_extensions (host w)) = remoteList ∧
  localList = ["A"] ∧
  toInstall_of localList remoteList = ["X"] ∧
  toDelete_of localList remoteList = [] ∧
  actions (trace run.2) = [install_of "X"].
Proof.
  intros cfg w remoteList localList run.
  split; [cbn; left|].
  repeat split; vm_compute; reflexivity.
Qed.

(** C8, witness: local [A, B], remote [B, C], the user picks
    "Show Details". *)
Lemma C8_no_mutation_without_yes_witness :
  let cfg := Demo.config [] true in
  let user := Demo.always (Some "Show Details") in
  let w := Demo.world ∅ ["A"; "B"] [] in
  let toInstall := toInstall_of (installed_ids cfg (host w)) ["B"; "C"] in
  let toDelete := toDelete_of (installed_ids cfg (host w)) ["B"; "C"] in
  let message := warning_message toInstall toDelete in
  default true (confirmBeforeSync cfg) = true ∧
  answer_warning user message ≠ Some "Yes" ∧
  ∃ evs,
    installExtensions cfg user ["B"; "C"] w = (Ok (), record w evs) ∧
    host (installExtensions cfg user ["B"; "C"] w).2 = host w ∧
    fs (installExtensions cfg user ["B"; "C"] w).2 = fs w ∧
    actions evs = [] ∧
    (answer_warning user message = Some "Show Details" →
     toInstall ≠ [] ∨ toDelete ≠ [] →
     evs = [ShowWarning message;
            ShowInformation (details_message toInstall toDelete)] ∧
     ∀ i, i ∈ toInstall ++ toDelete →
          occurs i (details_message toInstall toDelete)).
Proof.
  intros cfg user w toInstall toDelete message.
  assert (Hon : default true (confirmBeforeSync cfg) = true) by reflexivity.
  assert (Hno : answer_warning user message ≠ Some "Yes") by discriminate.
  split; [exact Hon|]. split; [exact Hno|].
  exact (C8_no_mutation_without_yes cfg user ["B"; "C"] w Hon Hno).
Defined.

(** C9: evaluation at the failing input.  Local [A, B], remote [B, C],
    confirmation accepted: two actions, so each increment should be 50 and
    the increments should add up to 100; the reported increments are the
    running percentages 50 and 100, which add up to 150. *)
Theorem C9_increments_are_running_percentages :
  let w := Demo.world ∅ ["A"; "B"] [] in
  let run := installExtensions (Demo.config [] true)
               (Demo.always (Some "Yes")) ["B"; "C"] w in
  actions (trace run.2) = [uninstall_of "A"; install_of "C"] ∧
  increments (trace run.2) = [percent 1 2; percent 2 2] ∧
  (percent 1 2 == 50)%Q ∧
  (percent 2 2 == 100)%Q ∧
  ¬ (percent 2 2 == 100 / 2)%Q ∧
  (percent 1 2 + percent 2 2 == 150)%Q ∧
  ¬ (percent 1 2 + percent 2 2 == 100)%Q.
Proof.
  intros w run.
  split; [vm_compute; reflexivity|]. split; [vm_compute; reflexivity|].
  repeat split; try (vm_compute; reflexivity); vm_compute; discriminate.
Qed.

(** ** Snapshot capture and application *)

Section SnapshotClaims.
Context {num : Type} `{Number num} `{Json5 num} `{UriLib}.
Context {Host : Type} `{ExtensionHost Host}.
Implicit Types (w : World Host) (evs : list event).

(** The locator only stats and logs. *)
Lemma find_first_quiet file paths w :
  ∃ r evs,
    find_first file paths w = (r, record w evs) ∧
    writes evs = [] ∧ actions evs = [].
Proof.
  revert w. induction paths as [|path others IH]; intros w.
  - by exists (Throw (not_found file)), [not_found_log file].
  - cbn [find_first]. rewrite run_bind, run_pathExists.
    case_bool_decide.
    + by eexists _, _.
    + destruct (IH (record w [Stat path])) as (r & evs & -> & Hwr & Hact).
      exists r, (Stat path :: evs). by rewrite record_record.
Qed.

Lemma find_first_absent file paths w :
  (∀ p, p ∈ paths → fs w !! p = None) →
  (find_first file paths w).1 = Throw (not_found file).
Proof.
  intros Habsent.
  destruct (find_first_spec file paths w) as (evs & _ & Hres).
  assert (Hnone : list_find (present w) paths = None).
  { apply list_find_None, Forall_forall. intros p Hp [n Hn].
    rewrite (Habsent p Hp) in Hn. discriminate. }
  rewrite Hnone in Hres. by destruct Hres.
Qed.

(** With a recorded manual path the reader goes straight to that file: the
    locator is not called (no [stat] at all). *)
Lemma run_readConfigFile_manual env self t w path :
  globalState self !! manual_key t = Some path → path ≠ "" →
  readConfigFile env self t w =
  match fs w !! path with
  | Some (File content) =>
      match JSON5_parse content with
      | Some v => (Ok (Some v), record w [ReadFile path])
      | None =>
          (Ok None,
           record w [ReadFile path;
                     Log Error ("Failed to read " +:+ kind_name t +:+ " file: "
                                +:+ path)])
      end
  | _ =>
      (Ok None,
       record w [ReadFile path;
                 Log Error ("Failed to read " +:+ kind_name t +:+ " file: "
                            +:+ path)])
  end.
Proof.
  intros Hkey Hne. unfold readConfigFile, manual_key in *.
  rewrite run_bind. unfold try_catch at 1. rewrite Hkey.
  change (tpl (Some path)) with path.
  cbn [opt_truthy]. unfold str_truthy.
  apply String.eqb_neq in Hne as ->. cbn [negb]. rewrite run_ret.
  unfold try_catch. rewrite run_bind, run_readFile.
  destruct (fs w !! path) as [[content|]|]; cbv beta match.
  - rewrite run_bind, run_parse.
    destruct (JSON5_parse content); cbv beta match; [done|].
    by rewrite run_bind, run_log, run_ret, record_record.
  - by rewrite run_bind, run_log, run_ret, record_record.
  - by rewrite run_bind, run_log, run_ret, record_record.
Qed.

(** Reading a configuration file never raises: every failure is turned into
    [undefined]. *)
Lemma readConfigFile_returns env self t w :
  ∃ v evs, readConfigFile env self t w = (Ok v, record w evs).
Proof.
  unfold readConfigFile. rewrite run_bind. unfold try_catch at 1.
  destruct (opt_truthy (globalState self !! _)) eqn:Hmanual.
  - rewrite run_ret. unfold try_catch.
    rewrite run_bind, run_readFile.
    destruct (fs w !! _) as [[content|]|]; cbv beta match.
    + rewrite run_bind, run_parse.
      destruct (JSON5_parse content); cbv beta match.
      * by eexists _, _.
      * rewrite run_bind, run_log, run_ret, record_record. by eexists _, _.
    + rewrite run_bind, run_log, run_ret, record_record. by eexists _, _.
    + rewrite run_bind, run_log, run_ret, record_record. by eexists _, _.
  - rewrite run_bind. unfold findConfigFile.
    destruct (find_first_quiet (kind_name t +:+ ".json")
                (getConfigPaths env (appName self) (kind_name t +:+ ".json")
                   (activeProfileId self)) w) as (r & evs & -> & _ & _).
    destruct r as [path|e]; cbv beta match.
    + rewrite run_ret. unfold try_catch.
      rewrite run_bind, run_readFile, fs_record, record_record.
      destruct (fs w !! _) as [[content|]|]; cbv beta match.
      * rewrite run_bind, run_parse.
        destruct (JSON5_parse content); cbv beta match.
        -- by eexists _, _.
        -- rewrite run_bind, run_log, run_ret, record_record. by eexists _, _.
      * rewrite run_bind, run_log, run_ret, record_record. by eexists _, _.
      * rewrite run_bind, run_log, run_ret, record_record. by eexists _, _.
    + rewrite run_bind, run_log, run_ret, record_record. by eexists _, _.
Qed.

(** Capture: the instance after re-detection keeps its application name and
    its stored manual paths; the snapshot's settings and keybindings are
    whatever the two reads returned, [undefined] included. *)
Lemma run_getActiveProfile env wf cfg self w :
  ∃ self' evs0 settings evs1 keybinds evs2,
    appName self' = appName self ∧
    globalState self' = globalState self ∧
    getActiveProfileInfo env wf (appName self) w =
      (Ok {| info_id := activeProfileId self';
             info_name := activeProfileName self' |}, record w evs0) ∧
    readConfigFile env self' settings_file
      (record w (evs0 ++ [Log Info ("Current active profile: " +:+
                   to_js_string (activeProfileName self') +:+ " (" +:+
                   to_js_string (activeProfileId self') +:+ ")")])) =
      (Ok settings, record w evs1) ∧
    readConfigFile env self' keybindings_file (record w evs1) =
      (Ok keybinds, record w evs2) ∧
    getActiveProfile env wf cfg self w =
      (Ok (self',
           {| snap_settings := settings;
              snap_extensions := installed_ids cfg (host w);
              snap_keybindings := keybinds;
              sourceAppName := appName self;
              sourceProfileId := activeProfileId self';
              sourceProfileName := activeProfileName self' |}),
       record w evs2).
Proof.
  destruct (getActiveProfileInfo_returns env wf (appName self) w)
    as (info & evs0 & Hinfo).
  set (self' := {| appName := appName self;
                   activeProfileId := info_id info;
                   activeProfileName := info_name info;
                   globalState := globalState self |}).
  set (w0 := record w (evs0 ++ [Log Info ("Current active profile: " +:+
                   to_js_string (info_name info) +:+ " (" +:+
                   to_js_string (info_id info) +:+ ")")])).
  destruct (readConfigFile_returns env self' settings_file w0)
    as (settings & e1 & Hs).
  destruct (readConfigFile_returns env self' keybindings_file
              (record w0 e1)) as (keybinds & e2 & Hk).
  unfold w0 in Hs, Hk. rewrite !record_record in Hs. rewrite !record_record in Hk.
  eexists self', evs0, settings, _, keybinds, _.
  split; [done|]. split; [done|].
  split; [rewrite Hinfo; by destruct info|].
  split; [exact Hs|]. split; [exact Hk|].
  unfold getActiveProfile. rewrite run_bind. unfold try_catch.
  rewrite run_bind, Hinfo, run_bind, run_log, run_ret, record_record.
  fold self'. rewrite run_bind, Hs, run_bind, Hk.
  by rewrite run_bind, run_getExtensions, run_ret.
Qed.
End SnapshotClaims.

Section ManualOverride.
Context {num : Type} `{Number num} `{Json5 num} `{UriLib}.
Context {Host : Type} `{ExtensionHost Host}.
Implicit Types (w : World Host) (evs : list event).

(** Capture never raises and always hands back a snapshot, whatever the two
    reads produced. *)
Lemma getActiveProfile_always_returns env wf cfg self w :
  ∃ self' snap evs,
    getActiveProfile env wf cfg self w = (Ok (self', snap), record w evs).
Proof.
  destruct (run_getActiveProfile env wf cfg self w)
    as (self' & ? & ? & ? & ? & evs & _ & _ & _ & _ & _ & ->).
  by eexists _, _, _.
Qed.

(** C10: with manually selected settings and keybindings files recorded in
    [globalState], readable and parsable, [readConfigFile] reads the manual
    path without consulting the locator, so capture returns a snapshot
    holding both parsed files; [updateLocalProfile] asks the locator only,
    so when no candidate path for [settings.json] exists it raises the
    locator's [FileNotFound] before any write or command, leaving the file
    system and the extension host as they were. *)
Theorem C10_manual_path_used_by_capture_only
    env wf cfg user self profile w ms ks cs ck vs vk :
  globalState self !! "manualSettingsPath" = Some ms → ms ≠ "" →
  globalState self !! "manualKeybindingsPath" = Some ks → ks ≠ "" →
  fs w !! ms = Some (File cs) → JSON5_parse cs = Some vs →
  fs w !! ks = Some (File ck) → JSON5_parse ck = Some vk →
  (∀ p, p ∈ getConfigPaths env (appName self) "settings.json"
              (activeProfileId self) → fs w !! p = None) →
  readConfigFile env self settings_file w =
    (Ok (Some vs), record w [ReadFile ms]) ∧
  (∃ self' snap evs,
     getActiveProfile env wf cfg self w = (Ok (self', snap), record w evs) ∧
     snap_settings snap = Some vs ∧
     snap_keybindings snap = Some vk) ∧
  (∃ evs,
     updateLocalProfile env cfg user self profile w =
       (Throw (not_found "settings.json"), record w evs) ∧
     writes evs = [] ∧ actions evs = []).
Proof.
  intros Hms Hmsne Hks Hksne Hfs Hps Hfk Hpk Habsent.
  split; [|split].
  - rewrite (run_readConfigFile_manual env self settings_file w ms) by done.
    by rewrite Hfs, Hps.
  - destruct (run_getActiveProfile env wf cfg self w)
      as (self' & evs0 & settings & evs1 & keybinds & evs2
          & _ & Hgs & _ & Hs & Hk & ->).
    rewrite (run_readConfigFile_manual env self' settings_file _ ms) in Hs
      by (by rewrite ?Hgs).
    rewrite (run_readConfigFile_manual env self' keybindings_file _ ks) in Hk
      by (by rewrite ?Hgs).
    rewrite fs_record, Hfs, Hps in Hs. rewrite fs_record, Hfk, Hpk in Hk.
    injection Hs as <- _. injection Hk as <- _.
    by eexists _, _, _.
  - unfold updateLocalProfile, findConfigFile. rewrite run_bind.
    pose proof (find_first_absent "settings.json" _ w Habsent) as Hthrow.
    destruct (find_first_quiet "settings.json"
                (getConfigPaths env (appName self) "settings.json"
                   (activeProfileId self)) w) as (r & evs & Hrun & Hwr & Hact).
    rewrite Hrun in Hthrow |- *. cbn [fst] in Hthrow. subst r.
    by exists evs.
Qed.
End ManualOverride.

(** C10, witness: both files were picked by hand under [/data]; none of the
    default locations holds a [settings.json]. *)
Lemma C10_manual_path_used_by_capture_only_witness :
  let w := Demo.world {[ "/data/settings.json" := File "{}";
                         "/data/keybindings.json" := File "[]" ]} ["A"] [] in
  let self := Demo.instance (JStr default_profile)
                {[ "manualSettingsPath" := "/data/settings.json";
                   "manualKeybindingsPath" := "/data/keybindings.json" ]} in
  let cfg := Demo.config [] true in
  let user := Demo.always (Some "Yes") in
  let profile := {| profileName := "p"; settings := JObj [];
                    extensions := ["A"; "B"]; keybindings := JArr [] |} in
  readConfigFile Demo.linux self settings_file w =
    (Ok (Some (JObj [])), record w [ReadFile "/data/settings.json"]) ∧
  (∃ self' snap evs,
     getActiveProfile Demo.linux None cfg self w =
       (Ok (self', snap), record w evs) ∧
     snap_settings snap = Some (JObj []) ∧
     snap_keybindings snap = Some (JArr [])) ∧
  (∃ evs,
     updateLocalProfile Demo.linux cfg user self profile w =
       (Throw (not_found "settings.json"), record w evs) ∧
     writes evs = [] ∧ actions evs = []).
Proof.
  intros w self cfg user profile.
  apply (C10_manual_path_used_by_capture_only Demo.linux None cfg user self
           profile w "/data/settings.json" "/data/keybindings.json"
           "{}" "[]" (JObj []) (JArr []));
    try reflexivity; try discriminate.
  intros p Hp. vm_compute in Hp.
  repeat (apply elem_of_cons in Hp as [->|Hp]; [vm_compute; reflexivity|]).
  by apply elem_of_nil in Hp.
Defined.

(** C2: evaluation at the failing input.  [settings.json] exists but its
    text is rejected by the parser; [keybindings.json] is fine.  The failure
    is logged, and capture still returns a snapshot, whose [settings] field
    is [undefined]. *)
Theorem C2_capture_returns_snapshot_without_settings :
  let w := Demo.world
             {[ "/home/u/.config/Code/User/settings.json" := File "{ broken";
                "/home/u/.config/Code/User/keybindings.json" := File "[]" ]}
             ["A"] [] in
  let self := Demo.instance JNull ∅ in
  ∃ self' snap w',
    getActiveProfile Demo.linux None (Demo.config [] true) self w =
      (Ok (self', snap), w') ∧
    snap_settings snap = None ∧
    snap_keybindings snap = Some (JArr []) ∧
    snap_extensions snap = ["A"] ∧
    errors (trace w') =
      ["Failed to read settings file: /home/u/.config/Code/User/settings.json"].
Proof.
  intros w self. eexists _, _, _.
  split; [vm_compute; reflexivity|].
  repeat split.
Qed.

(** * Further properties *)

(** ** Config locator *)

Section LocatorMore.
Context {num : Type} `{Number num} `{Json5 num} `{UriLib}.
Context {Host : Type} `{ExtensionHost Host}.
Implicit Types (w : World Host) (evs : list event).

Lemma run_find_first_absent file paths w :
  (∀ p, p ∈ paths → fs w !! p = None) →
  find_first file paths w =
    (Throw (not_found file), record w (map Stat paths ++ [not_found_log file])).
Proof.
  revert w. induction paths as [|path others IH]; intros w Habsent.
  - done.
  - cbn [find_first]. rewrite run_bind, run_pathExists.
    rewrite !bool_decide_eq_false_2
      by (intros [n Hn]; rewrite (Habsent path) in Hn by (by left); discriminate).
    rewrite (IH (record w [Stat path])), record_record; [done|].
    intros p Hp. rewrite fs_record. apply Habsent. by right.
Qed.

(** X1: when none of the candidate paths exists, [findConfigFile] stats
    every candidate exactly once, in list order, logs one error and raises
    [FileNotFound] naming the file; nothing else happens. *)
Theorem X1_locator_not_found env app file (profileId : json num) w :
  (∀ p, p ∈ getConfigPaths env app file profileId → fs w !! p = None) →
  findConfigFile env app file profileId w =
    (Throw (FileNotFound
              (file +:+ " does not exist in any of the configuration directories")),
     record w (map Stat (getConfigPaths env app file profileId) ++
               [Log Error ("Could not find " +:+ file +:+
                           " in any default location")])).
Proof. intros Habsent. by apply run_find_first_absent. Qed.

(** X2: [findConfigFile] returns a path exactly when some candidate exists,
    and the path returned is [fsPath] of the first existing candidate: every
    candidate listed before it is absent. *)
Theorem X2_locator_returns_first_existing env app file (profileId : json num) w :
  let paths := getConfigPaths env app file profileId in
  let run := findConfigFile env app file profileId w in
  ((∃ r, run.1 = Ok r) ↔ ∃ p, p ∈ paths ∧ present w p) ∧
  (∀ r, run.1 = Ok r →
        ∃ i p, paths !! i = Some p ∧ present w p ∧ r = fsPath p ∧
               ∀ j q, paths !! j = Some q → j < i → ¬ present w q).
Proof.
  intros paths run.
  destruct (find_first_spec file paths w) as (evs & _ & Hres).
  assert (Hrun : run = find_first file paths w) by done.
  rewrite Hrun. clear Hrun run.
  destruct (list_find (present w) paths) as [[i p]|] eqn:Hfind.
  - destruct Hres as [Hr _]. apply list_find_Some in Hfind as (Hi & Hp & Hbefore).
    split.
    + split; [|by eauto]. intros _. exists p. split; [|done].
      by eapply list_elem_of_lookup_2.
    + intros r Hok. rewrite Hr in Hok. injection Hok as <-.
      exists i, p. split; [done|]. split; [done|]. split; [done|].
      intros j q Hj Hlt. by eapply Hbefore.
  - destruct Hres as [Hr _]. apply list_find_None in Hfind.
    split.
    + split.
      * intros [r Hok]. rewrite Hr in Hok. discriminate.
      * intros (p & Hin & Hp). rewrite Forall_forall in Hfind.
        by destruct (Hfind p Hin).
    + intros r Hok. rewrite Hr in Hok. discriminate.
Qed.

(** X3: a profile id that is [null], empty, or the default sentinel gives
    the platform defaults as the only candidates, so the locator behaves the
    same for all of them. *)
Theorem X3_default_profile_uses_defaults_only env app file (profileId : json num) w :
  truthy profileId = false ∨ profileId = JStr default_profile →
  getConfigPaths env app file profileId = default_paths env app file ∧
  findConfigFile env app file profileId w =
    findConfigFile env app file JNull w.
Proof.
  intros Hid.
  pose proof (getConfigPaths_no_profile env app file profileId Hid) as Hp.
  assert (Hn : getConfigPaths env app file (JNull : json num)
               = default_paths env app file)
    by (apply getConfigPaths_no_profile; by left).
  split; [exact Hp|]. unfold findConfigFile. by rewrite Hp, Hn.
Qed.
End LocatorMore.

Lemma X1_locator_not_found_witness :
  let w := Demo.world ∅ [] [] in
  (∀ p, p ∈ getConfigPaths Demo.linux "Code" "settings.json" (JStr "abc123" : json Z)
        → fs w !! p = None) ∧
  findConfigFile Demo.linux "Code" "settings.json" (JStr "abc123" : json Z) w =
    (Throw (FileNotFound
              ("settings.json" +:+
               " does not exist in any of the configuration directories")),
     record w (map Stat (getConfigPaths Demo.linux "Code" "settings.json"
                           (JStr "abc123" : json Z)) ++
               [Log Error ("Could not find " +:+ "settings.json" +:+
                           " in any default location")])).
Proof.
  intros w.
  assert (Habsent : ∀ p, p ∈ getConfigPaths Demo.linux "Code" "settings.json"
                               (JStr "abc123" : json Z) → fs w !! p = None)
    by (intros p _; reflexivity).
  split; [exact Habsent|].
  exact (X1_locator_not_found Demo.linux "Code" "settings.json"
           (JStr "abc123") w Habsent).
Defined.

Lemma X3_default_profile_uses_defaults_only_witness :
  let w := Demo.world ∅ [] [] in
  (truthy (JStr "" : json Z) = false ∨ (JStr "" : json Z) = JStr default_profile) ∧
  getConfigPaths Demo.linux "Code" "settings.json" (JStr "" : json Z) =
    default_paths Demo.linux "Code" "settings.json" ∧
  findConfigFile Demo.linux "Code" "settings.json" (JStr "" : json Z) w =
    findConfigFile Demo.linux "Code" "settings.json" JNull w.
Proof.
  intros w.
  assert (Hid : truthy (JStr "" : json Z) = false
                ∨ (JStr "" : json Z) = JStr default_profile) by (left; reflexivity).
  split; [exact Hid|].
  exact (X3_default_profile_uses_defaults_only Demo.linux "Code" "settings.json"
           (JStr "") w Hid).
Defined.

(** ** Profile detector *)

Section DetectorMore.
Context {num : Type} `{Number num} `{Json5 num} `{UriLib}.
Context {Host : Type} `{ExtensionHost Host}.
Implicit Types (w : World Host) (evs : list event).

Lemma uri_toString_truthy u : str_truthy (uri_toString u) = true.
Proof. unfold uri_toString. by destruct (scheme u). Qed.

Lemma workspace_profile_associated (storage : json num) wf pid :
  associated storage wf pid →
  workspace_profile storage wf =
  match find_profile storage pid with
  | Throw e => Throw e
  | Ok profile =>
      match profile_name profile pid with
      | Throw e => Throw e
      | Ok n => Ok (Some {| info_id := pid; info_name := n |})
      end
  end.
Proof.
  intros (pa & ws & folder & others & Hpa & Hnn & Hws & Hwt & -> & Hpid & Hpt).
  unfold workspace_profile. rewrite Hpa.
  assert (Hchain : opt_chain (Some pa) "workspaces" = Ok (Some ws)).
  { destruct pa; try done. }
  rewrite Hchain. cbn [val_truthy workspaceUri get_prop_val].
  by rewrite Hwt, uri_toString_truthy, Hpid, Hpt.
Qed.

Lemma find_location_first_match (pid : json num) before entry after loc :
  Forall (other_location pid) before →
  get_prop entry "location" = Ok (Some loc) → strict_eq loc pid = true →
  find_location pid (before ++ entry :: after) = Ok (Some entry).
Proof.
  intros Hbefore Hloc Heq.
  induction Hbefore as [|p before (l & Hl & Hne) _ IH]; cbn [app find_location].
  - by rewrite Hloc; cbn [val_strict_eq]; rewrite Heq.
  - by rewrite Hl, Hne.
Qed.

Lemma find_location_no_match (pid : json num) xs :
  Forall (other_location pid) xs → find_location pid xs = Ok None.
Proof.
  induction 1 as [|p xs (l & Hl & Hne) _ IH]; cbn [find_location]; [done|].
  by rewrite Hl, Hne.
Qed.

(** X4: when the descriptor associates the first workspace folder with a
    profile id and the registry array has an entry with that [location], the
    detector returns that id together with the [name] of the first such
    entry (entries before it having other locations). *)
Theorem X4_detector_resolves_registered_name
    env wf app w content (storage pid : json num) before entry after loc n :
  fs w !! getStoragePath env app = Some (File content) →
  JSON5_parse content = Some storage →
  associated storage wf pid →
  get_prop storage "userDataProfiles" = Ok (Some (JArr (before ++ entry :: after))) →
  Forall (other_location pid) before →
  get_prop entry "location" = Ok (Some loc) → strict_eq loc pid = true →
  get_prop entry "name" = Ok (Some n) → truthy n = true →
  (getActiveProfileInfo env wf app w).1 =
    Ok {| info_id := pid; info_name := n |}.
Proof.
  intros Hfs Hparse Hassoc Hreg Hbefore Hloc Heq Hname Hn.
  rewrite run_getActiveProfileInfo. cbv zeta. rewrite Hfs, Hparse.
  rewrite (workspace_profile_associated storage wf pid Hassoc).
  unfold find_profile. rewrite Hreg.
  rewrite (find_location_first_match pid before entry after loc) by done.
  unfold profile_name.
  assert (Hchain : opt_chain (Some entry) "name" = Ok (Some n)).
  { destruct entry; try done. }
  by rewrite Hchain, Hn.
Qed.

(** X5: when the workspace is associated with a profile id but the registry
    is missing, [null], or an array without an entry for that id, the
    detector returns the id as the profile name as well. *)
Theorem X5_detector_name_falls_back_to_id
    env wf app w content (storage pid : json num) registry :
  fs w !! getStoragePath env app = Some (File content) →
  JSON5_parse content = Some storage →
  associated storage wf pid →
  get_prop storage "userDataProfiles" = Ok registry →
  (registry = None ∨ registry = Some JNull ∨
   ∃ xs, registry = Some (JArr xs) ∧ Forall (other_location pid) xs) →
  (getActiveProfileInfo env wf app w).1 =
    Ok {| info_id := pid; info_name := pid |}.
Proof.
  intros Hfs Hparse Hassoc Hreg Hcases.
  rewrite run_getActiveProfileInfo. cbv zeta. rewrite Hfs, Hparse.
  rewrite (workspace_profile_associated storage wf pid Hassoc).
  unfold find_profile. rewrite Hreg.
  destruct Hcases as [-> | [-> | (xs & -> & Hxs)]]; try done.
  by rewrite (find_location_no_match pid xs Hxs).
Qed.

(** X6: when the workspace is associated with a profile id but the registry
    is present and not an array, or holds [null] before any matching entry,
    the lookup raises inside the detector, which logs one warning (ending
    in the text of the error) and returns the default sentinel instead of the
    associated id. *)
Theorem X6_detector_malformed_registry_gives_default
    env wf app w content (storage pid : json num) registry :
  fs w !! getStoragePath env app = Some (File content) →
  JSON5_parse content = Some storage →
  associated storage wf pid →
  get_prop storage "userDataProfiles" = Ok (Some registry) →
  (match registry with
   | JNull => False
   | JArr xs => ∃ before after,
       xs = before ++ JNull :: after ∧ Forall (other_location pid) before
   | _ => True
   end) →
  let sp := getStoragePath env app in
  ∃ reason,
    getActiveProfileInfo env wf app w =
      (Ok default_info,
       record w [Stat sp; Log Info ("Found file at: " +:+ sp); ReadFile sp;
                 Log Warn ("Could not detect active profile, using default: "
                           +:+ reason)]).
Proof.
  intros Hfs Hparse Hassoc Hreg Hbad sp. exists (exn_message TypeError).
  rewrite run_getActiveProfileInfo. cbv zeta. rewrite Hfs, Hparse.
  rewrite (workspace_profile_associated storage wf pid Hassoc).
  assert (Hfind : find_profile storage pid = Throw TypeError).
  { unfold find_profile. rewrite Hreg.
    destruct registry as [| | | |xs|]; try done.
    destruct Hbad as (before & after & -> & Hbefore). clear Hreg.
    induction Hbefore as [|p before (l & Hl & Hne) _ IH];
      cbn [List.app find_location]; [done|].
    by rewrite Hl, Hne. }
  by rewrite Hfind.
Qed.
End DetectorMore.

Lemma X4_detector_resolves_registered_name_witness :
  let w := Demo.world
             {[ "/home/u/.config/Code/User/globalStorage/storage.json" :=
                  File Demo.storage_text ]} [] [] in
  let wf := Some [{| scheme := "file"; rest := "///w" |}] in
  (getActiveProfileInfo Demo.linux wf "Code" w).1 =
    Ok {| info_id := JStr "abc123"; info_name := JStr "Work" |}.
Proof.
  intros w wf.
  apply (X4_detector_resolves_registered_name Demo.linux wf "Code" w
           Demo.storage_text Demo.storage_doc (JStr "abc123") []
           (JObj [("location", JStr "abc123"); ("name", JStr "Work")]) []
           (JStr "abc123") (JStr "Work")); try reflexivity.
  - exists (JObj [("workspaces", JObj [("file:///w", JStr "abc123")])]),
      (JObj [("file:///w", JStr "abc123")]),
      {| scheme := "file"; rest := "///w" |}, [].
    repeat split; try reflexivity. discriminate.
  - constructor.
Defined.

Lemma X5_detector_name_falls_back_to_id_witness :
  let doc : json Z :=
    JObj [("profileAssociations",
           JObj [("workspaces", JObj [("file:///w", JStr "abc123")])])] in
  let parser : Json5 Z :=
    {| JSON5_parse := fun _ => Some doc; JSON_stringify := fun _ => "" |} in
  let w := Demo.world
             {[ "/home/u/.config/Code/User/globalStorage/storage.json" :=
                  File "{}" ]} [] [] in
  let wf := Some [{| scheme := "file"; rest := "///w" |}] in
  (getActiveProfileInfo (H0 := parser) Demo.linux wf "Code" w).1 =
    Ok {| info_id := JStr "abc123"; info_name := JStr "abc123" |}.
Proof.
  intros doc parser w wf.
  apply (X5_detector_name_falls_back_to_id (H0 := parser) Demo.linux wf "Code" w
           "{}" doc (JStr "abc123") None); try reflexivity.
  - exists (JObj [("workspaces", JObj [("file:///w", JStr "abc123")])]),
      (JObj [("file:///w", JStr "abc123")]),
      {| scheme := "file"; rest := "///w" |}, [].
    repeat split; try reflexivity. discriminate.
  - by left.
Defined.

Lemma X6_detector_malformed_registry_gives_default_witness :
  let sp := "/home/u/.config/Code/User/globalStorage/storage.json" in
  let w := Demo.world {[ sp := File Scenario.malformed_text ]} [] [] in
  fs w !! getStoragePath Demo.linux "Code" = Some (File Scenario.malformed_text) ∧
  JSON5_parse (Json5 := Scenario.json5_more) Scenario.malformed_text =
    Some Scenario.malformed_doc ∧
  associated Scenario.malformed_doc Scenario.workspace (JStr "abc123") ∧
  get_prop Scenario.malformed_doc "userDataProfiles" = Ok (Some (JObj [])) ∧
  ∃ reason,
    getActiveProfileInfo (H0 := Scenario.json5_more) Demo.linux
      Scenario.workspace "Code" w =
      (Ok default_info,
       record w [Stat sp; Log Info ("Found file at: " +:+ sp); ReadFile sp;
                 Log Warn ("Could not detect active profile, using default: "
                           +:+ reason)]).
Proof.
  intros sp w.
  assert (H1 : fs w !! getStoragePath Demo.linux "Code" =
               Some (File Scenario.malformed_text)) by (vm_compute; reflexivity).
  assert (H2 : JSON5_parse (Json5 := Scenario.json5_more) Scenario.malformed_text =
               Some Scenario.malformed_doc) by (vm_compute; reflexivity).
  assert (H3 : associated Scenario.malformed_doc Scenario.workspace (JStr "abc123")).
  { exists Scenario.association, (JObj [("file:///w", JStr "abc123")]),
      {| scheme := "file"; rest := "///w" |}, [].
    repeat split; try reflexivity. discriminate. }
  assert (H4 : get_prop Scenario.malformed_doc "userDataProfiles" =
               Ok (Some (JObj []))) by reflexivity.
  split; [exact H1|]. split; [exact H2|]. split; [exact H3|]. split; [exact H4|].
  exact (X6_detector_malformed_registry_gives_default (H0 := Scenario.json5_more)
           Demo.linux Scenario.workspace "Code" w Scenario.malformed_text
           Scenario.malformed_doc (JStr "abc123") (JObj []) H1 H2 H3 H4 I).
Defined.

(** ** Reading and writing configuration files *)

Section ReaderWriterMore.
Context {num : Type} `{Number num} `{Json5 num} `{UriLib}.
Context {Host : Type} `{ExtensionHost Host}.
Implicit Types (w : World Host) (evs : list event).

Lemma run_find_first_found file paths w i p :
  list_find (present w) paths = Some (i, p) →
  find_first file paths w = (Ok (fsPath p), record w (found_events paths i p)).
Proof.
  revert w i. induction paths as [|path others IH]; intros w i Hfind; [done|].
  cbn [list_find] in Hfind. cbn [find_first].
  rewrite run_bind, run_pathExists.
  destruct (decide (present w path)) as [Hp|Hp].
  - injection Hfind as <- <-. by rewrite !bool_decide_eq_true_2.
  - rewrite !bool_decide_eq_false_2 by done.
    destruct (list_find (present w) others) as [[j q]|] eqn:Hothers; [|done].
    injection Hfind as <- <-.
    rewrite (IH (record w [Stat path]) j), record_record; done.
Qed.

Lemma list_find_present_ext (w w' : World Host) paths :
  (∀ q, q ∈ paths → (present w q ↔ present w' q)) →
  list_find (present w') paths = list_find (present w) paths.
Proof.
  induction paths as [|path others IH]; intros Hext; [done|].
  cbn [list_find]. rewrite IH by (intros q Hq; apply Hext; by right).
  destruct (decide (present w path)) as [Hp|Hp].
  - rewrite decide_True; [done|]. apply (Hext path); [by left | done].
  - rewrite decide_False; [done|]. intros Hp'. apply Hp, (Hext path); [by left | done].
Qed.

Lemma run_writeFile path content w :
  writeFile path content w =
  match fs w !! path with
  | Some Dir => (Throw (IOError path), record w [WriteFile path content])
  | _ => (Ok (), with_fs w (<[path := File content]> (fs w))
                   [WriteFile path content])
  end.
Proof.
  unfold writeFile. rewrite run_bind, run_emit. cbv beta match.
  rewrite fs_record. by destruct (fs w !! path) as [[]|].
Qed.

Lemma with_fs_record w files evs1 evs2 :
  record (with_fs w files evs1) evs2 = with_fs w files (evs1 ++ evs2).
Proof. unfold record, with_fs; simpl. by rewrite app_assoc. Qed.

Lemma record_with_fs w files evs1 evs2 :
  with_fs (record w evs1) files evs2 = with_fs w files (evs1 ++ evs2).
Proof. unfold record, with_fs; simpl. by rewrite app_assoc. Qed.

Lemma with_fs_with_fs w files1 files2 evs1 evs2 :
  with_fs (with_fs w files1 evs1) files2 evs2 = with_fs w files2 (evs1 ++ evs2).
Proof. unfold with_fs; simpl. by rewrite app_assoc. Qed.

Lemma run_writeConfigFile path (data : json num) w :
  writeConfigFile path data w =
  match fs w !! path with
  | Some Dir =>
      (Throw (IOError path),
       record w [WriteFile path (written_text data);
                 Log Error ("Failed to write settings file: " +:+ path)])
  | _ =>
      (Ok (),
       with_fs w (<[path := File (written_text data)]> (fs w))
         [WriteFile path (written_text data);
          Log Info ("Configuration file updated: " +:+ path)])
  end.
Proof.
  unfold writeConfigFile, try_catch. fold (written_text data).
  rewrite run_bind, run_writeFile.
  destruct (fs w !! path) as [[c|]|]; cbv beta match.
  - by rewrite run_log, with_fs_record.
  - by rewrite run_bind, run_log, record_record.
  - by rewrite run_log, with_fs_record.
Qed.

(** X7: without a usable manual path (none stored, or the empty string),
    [readConfigFile] asks the locator and returns the parsed content of the
    first existing candidate; the candidates before it were probed and
    nothing after it. *)
Theorem X7_reader_uses_first_existing_candidate
    env (self : Instance) t w i p content v :
  opt_truthy (globalState self !! manual_key t) = false →
  list_find (present w)
    (getConfigPaths env (appName self) (kind_name t +:+ ".json")
       (activeProfileId self)) = Some (i, p) →
  fs w !! fsPath p = Some (File content) →
  JSON5_parse content = Some v →
  ∃ evs,
    readConfigFile env self t w =
      (Ok (Some v), record w (evs ++ [ReadFile (fsPath p)])) ∧
    stats evs =
      take (S i) (getConfigPaths env (appName self) (kind_name t +:+ ".json")
                    (activeProfileId self)).
Proof.
  intros Hmanual Hfind Hfs Hparse.
  set (paths := getConfigPaths env (appName self) (kind_name t +:+ ".json")
                  (activeProfileId self)) in *.
  exists (found_events paths i p). split.
  - unfold readConfigFile, manual_key in *. rewrite run_bind.
    unfold try_catch at 1. rewrite Hmanual.
    rewrite run_bind. unfold findConfigFile. cbv zeta. fold paths.
    rewrite (run_find_first_found _ paths w i p Hfind). cbv beta match.
    rewrite run_ret. unfold try_catch.
    rewrite run_bind, run_readFile, fs_record, Hfs, record_record.
    cbv beta match. by rewrite run_bind, run_parse, Hparse.
  - apply list_find_Some in Hfind as (Hi & _ & _).
    unfold found_events, stats. rewrite omap_app.
    rewrite (take_S_r paths i p Hi).
    f_equal. induction (take i paths) as [|q qs IH]; [done|].
    cbn. by rewrite IH.
Qed.

(** X8: a stored manual path whose file is gone shadows the default
    locations: [readConfigFile] logs the failure and returns [undefined]
    without probing any candidate, whether or not one exists. *)
Theorem X8_stale_manual_path_is_not_rescued env (self : Instance) t w path :
  globalState self !! manual_key t = Some path → path ≠ "" →
  fs w !! path = None →
  readConfigFile env self t w =
    (Ok None,
     record w [ReadFile path;
               Log Error ("Failed to read " +:+ kind_name t +:+ " file: "
                          +:+ path)]).
Proof.
  intros Hkey Hne Hgone.
  rewrite (run_readConfigFile_manual env self t w path Hkey Hne).
  by rewrite Hgone.
Qed.

(** X9: what the writer puts into a located configuration file is what the
    reader gets back.  With no manual path stored and the locator's first
    existing candidate being a file, [writeConfigFile] on the located path
    succeeds and replaces the content; the locator then finds the same
    candidate, and [readConfigFile] returns exactly what the parser makes of
    the written text ([undefined] if the parser rejects it): the string
    itself was written for string data, the serialization otherwise. *)
Theorem X9_write_then_read_back
    env (self : Instance) t w i p old (data : json num) :
  let paths := getConfigPaths env (appName self) (kind_name t +:+ ".json")
                 (activeProfileId self) in
  opt_truthy (globalState self !! manual_key t) = false →
  list_find (present w) paths = Some (i, p) →
  fs w !! fsPath p = Some (File old) →
  ∃ w1 w2,
    (findConfigFile env (appName self) (kind_name t +:+ ".json")
       (activeProfileId self) w).1 = Ok (fsPath p) ∧
    writeConfigFile (fsPath p) data w = (Ok (), w1) ∧
    readConfigFile env self t w1 =
      (Ok (JSON5_parse (match data with
                        | JStr s => s
                        | _ => JSON_stringify data
                        end)), w2) ∧
    fs w2 = <[fsPath p := File (written_text data)]> (fs w) ∧
    host w2 = host w.
Proof.
  intros paths Hmanual Hfind Hfs.
  fold (written_text data).
  rewrite run_writeConfigFile, Hfs.
  set (w1 := with_fs w (<[fsPath p := File (written_text data)]> (fs w))
               [WriteFile (fsPath p) (written_text data);
                Log Info ("Configuration file updated: " +:+ fsPath p)]).
  assert (Hfind1 : list_find (present w1) paths = Some (i, p)).
  { rewrite (list_find_present_ext w w1); [done|].
    intros q _. unfold present, w1. cbn [fs with_fs].
    destruct (decide (q = fsPath p)) as [->|Hq].
    - rewrite lookup_insert_eq, Hfs. split; intros _; by eexists.
    - by rewrite lookup_insert_ne. }
  assert (Hread : ∃ evs,
    readConfigFile env self t w1 =
      (Ok (JSON5_parse (written_text data)), record w1 evs)).
  { unfold readConfigFile, manual_key in *. rewrite run_bind.
    unfold try_catch at 1. rewrite Hmanual.
    rewrite run_bind. unfold findConfigFile. cbv zeta. fold paths.
    rewrite (run_find_first_found _ paths w1 i p Hfind1). cbv beta match.
    rewrite run_ret. unfold try_catch.
    rewrite run_bind, run_readFile, fs_record.
    assert (Hfs1 : fs w1 !! fsPath p = Some (File (written_text data)))
      by (unfold w1; cbn [fs with_fs]; by rewrite lookup_insert_eq).
    rewrite Hfs1, record_record. cbv beta match.
    rewrite run_bind, run_parse.
    destruct (JSON5_parse (written_text data)) as [v|]; cbv beta match.
    - by eexists.
    - rewrite run_bind, run_log, run_ret, record_record. by eexists. }
  destruct Hread as (evs & Hread).
  exists w1, (record w1 evs). split.
  { unfold findConfigFile. cbv zeta. fold paths.
    by rewrite (run_find_first_found _ paths w i p Hfind). }
  split; [done|]. split; [exact Hread|]. done.
Qed.

(** X10: writing to a path that is a directory fails: the error is logged,
    the same error is raised again to the caller, and the file system is
    unchanged. *)
Theorem X10_write_to_directory_fails path (data : json num) w :
  fs w !! path = Some Dir →
  writeConfigFile path data w =
    (Throw (IOError path),
     record w [WriteFile path (written_text data);
               Log Error ("Failed to write settings file: " +:+ path)]).
Proof. intros Hdir. by rewrite run_writeConfigFile, Hdir. Qed.
End ReaderWriterMore.

(** ** Applying a snapshot *)

Section ApplyMore.
Context {num : Type} `{Number num} `{Json5 num} `{UriLib}.
Context {Host : Type} `{ExtensionHost Host}.
Implicit Types (w : World Host) (evs : list event).

Lemma writes_app evs1 evs2 : writes (evs1 ++ evs2) = writes evs1 ++ writes evs2.
Proof. apply omap_app. Qed.

Lemma writes_map_Stat paths : writes (map Stat paths) = [].
Proof. by induction paths. Qed.

Lemma actions_map_Stat paths : actions (map Stat paths) = [].
Proof. by induction paths. Qed.

Lemma writes_found_events paths i p : writes (found_events paths i p) = [].
Proof.
  unfold found_events. rewrite writes_app. cbn.
  rewrite app_nil_r. by induction (take i paths).
Qed.

Lemma actions_found_events paths i p : actions (found_events paths i p) = [].
Proof.
  unfold found_events. rewrite actions_app. cbn.
  rewrite app_nil_r. by induction (take i paths).
Qed.

Lemma stats_found_events paths i p :
  paths !! i = Some p → stats (found_events paths i p) = take (S i) paths.
Proof.
  intros Hi. unfold found_events, stats. rewrite omap_app.
  rewrite (take_S_r paths i p Hi). f_equal.
  induction (take i paths) as [|q qs IH]; [done|]. cbn. by rewrite IH.
Qed.

(** X11: [updateLocalProfile] does not roll back.  If [settings.json] is
    located and written but no [keybindings.json] candidate exists, the call
    raises the locator's [FileNotFound] for the keybindings: the settings
    file already holds the snapshot's settings, and no extension command was
    issued. *)
Theorem X11_settings_written_before_keybindings_fail
    env cfg user (self : Instance) (profile : IProfile) w i ps :
  list_find (present w)
    (getConfigPaths env (appName self) "settings.json" (activeProfileId self))
    = Some (i, ps) →
  fs w !! fsPath ps ≠ Some Dir →
  (∀ q, q ∈ getConfigPaths env (appName self) "keybindings.json"
              (activeProfileId self) → q ≠ fsPath ps ∧ fs w !! q = None) →
  ∃ evs,
    updateLocalProfile env cfg user self profile w =
      (Throw (not_found "keybindings.json"),
       with_fs w (<[fsPath ps := File (written_text (settings profile))]> (fs w))
         evs) ∧
    writes evs = [(fsPath ps, written_text (settings profile))] ∧
    actions evs = [].
Proof.
  intros Hfind Hnd Hkeys.
  set (spaths := getConfigPaths env (appName self) "settings.json"
                   (activeProfileId self)) in *.
  set (kpaths := getConfigPaths env (appName self) "keybindings.json"
                   (activeProfileId self)) in *.
  set (text := written_text (settings profile)).
  set (files := <[fsPath ps := File text]> (fs w)).
  unfold updateLocalProfile, findConfigFile. cbv zeta. fold spaths kpaths.
  rewrite run_bind, (run_find_first_found _ spaths w i ps Hfind). cbv beta match.
  rewrite run_bind, run_writeConfigFile, fs_record. fold text.
  assert (Hwrite :
    match fs w !! fsPath ps with
    | Some Dir =>
        (Throw (IOError (fsPath ps)),
         record (record w (found_events spaths i ps))
           [WriteFile (fsPath ps) text;
            Log Error ("Failed to write settings file: " +:+ fsPath ps)])
    | _ =>
        (Ok (),
         with_fs (record w (found_events spaths i ps))
           (<[fsPath ps:=File text]> (fs w))
           [WriteFile (fsPath ps) text;
            Log Info ("Configuration file updated: " +:+ fsPath ps)])
    end =
    (Ok (), with_fs w files
              (found_events spaths i ps ++
               [WriteFile (fsPath ps) text;
                Log Info ("Configuration file updated: " +:+ fsPath ps)]))).
  { rewrite record_with_fs. by destruct (fs w !! fsPath ps) as [[c|]|]. }
  rewrite Hwrite. cbv beta match. rewrite run_bind.
  rewrite run_find_first_absent.
  2:{ intros q Hq. destruct (Hkeys q Hq) as [Hne Hq']. cbn [fs with_fs].
      unfold files. by rewrite lookup_insert_ne. }
  rewrite with_fs_record. eexists. split; [reflexivity|].
  rewrite !writes_app, !actions_app, writes_found_events, actions_found_events.
  rewrite writes_map_Stat, actions_map_Stat. by split.
Qed.

(** X12: the locator only checks that a candidate exists.  If the first
    existing [settings.json] candidate is a directory, the write is refused:
    [updateLocalProfile] raises that error, the file system is unchanged,
    the keybindings are never looked for, and no extension command is
    issued. *)
Theorem X12_settings_candidate_is_directory
    env cfg user (self : Instance) (profile : IProfile) w i ps :
  list_find (present w)
    (getConfigPaths env (appName self) "settings.json" (activeProfileId self))
    = Some (i, ps) →
  fs w !! fsPath ps = Some Dir →
  ∃ evs,
    updateLocalProfile env cfg user self profile w =
      (Throw (IOError (fsPath ps)), record w evs) ∧
    stats evs =
      take (S i) (getConfigPaths env (appName self) "settings.json"
                    (activeProfileId self)) ∧
    actions evs = [].
Proof.
  intros Hfind Hdir.
  set (spaths := getConfigPaths env (appName self) "settings.json"
                   (activeProfileId self)) in *.
  unfold updateLocalProfile, findConfigFile. cbv zeta. fold spaths.
  rewrite run_bind, (run_find_first_found _ spaths w i ps Hfind). cbv beta match.
  rewrite run_bind, run_writeConfigFile, fs_record, Hdir, record_record.
  eexists. split; [reflexivity|].
  apply list_find_Some in Hfind as (Hi & _ & _).
  unfold stats. rewrite omap_app. fold (stats (found_events spaths i ps)).
  rewrite (stats_found_events spaths i ps Hi), actions_app, actions_found_events.
  cbn. by rewrite app_nil_r.
Qed.

(** X13: when both files are located at paths that already hold files,
    [updateLocalProfile] overwrites the settings file and then the
    keybindings file with the snapshot's content, and only then runs the
    reconciler on the snapshot's extension list. *)
Theorem X13_both_files_written_then_reconcile
    env cfg user (self : Instance) (profile : IProfile) w i ps j pk olds oldk :
  list_find (present w)
    (getConfigPaths env (appName self) "settings.json" (activeProfileId self))
    = Some (i, ps) →
  list_find (present w)
    (getConfigPaths env (appName self) "keybindings.json" (activeProfileId self))
    = Some (j, pk) →
  fs w !! fsPath ps = Some (File olds) →
  fs w !! fsPath pk = Some (File oldk) →
  ∃ evs,
    updateLocalProfile env cfg user self profile w =
      installExtensions cfg user (extensions profile)
        (with_fs w
           (<[fsPath pk := File (written_text (keybindings profile))]>
              (<[fsPath ps := File (written_text (settings profile))]> (fs w)))
           evs) ∧
    writes evs = [(fsPath ps, written_text (settings profile));
                  (fsPath pk, written_text (keybindings profile))] ∧
    actions evs = [].
Proof.
  intros Hs Hk Hfs Hfk.
  set (spaths := getConfigPaths env (appName self) "settings.json"
                   (activeProfileId self)) in *.
  set (kpaths := getConfigPaths env (appName self) "keybindings.json"
                   (activeProfileId self)) in *.
  set (ts := written_text (settings profile)).
  set (tk := written_text (keybindings profile)).
  unfold updateLocalProfile, findConfigFile. cbv zeta. fold spaths kpaths.
  rewrite run_bind, (run_find_first_found _ spaths w i ps Hs). cbv beta match.
  rewrite run_bind, run_writeConfigFile, fs_record, Hfs, record_with_fs.
  fold ts. cbv beta match. rewrite run_bind.
  set (w1 := with_fs w (<[fsPath ps:=File ts]> (fs w)) _).
  assert (Hk1 : list_find (present w1) kpaths = Some (j, pk)).
  { rewrite <- Hk. apply list_find_present_ext. intros q _.
    unfold present, w1. cbn [fs with_fs].
    destruct (decide (q = fsPath ps)) as [->|Hne].
    - rewrite lookup_insert_eq, Hfs. split; by eauto.
    - by rewrite lookup_insert_ne. }
  rewrite (run_find_first_found _ kpaths w1 j pk Hk1). cbv beta match.
  rewrite run_bind, run_writeConfigFile, fs_record.
  assert (Hfk1 : fs w1 !! fsPath pk ≠ Some Dir).
  { unfold w1. cbn [fs with_fs].
    destruct (decide (fsPath pk = fsPath ps)) as [->|Hne].
    - by rewrite lookup_insert_eq.
    - rewrite lookup_insert_ne by done. by rewrite Hfk. }
  fold tk.
  assert (Hwrite : ∀ (a : Res () * World Host) b,
    match fs w1 !! fsPath pk with
    | Some Dir => a
    | _ => b
    end = b).
  { intros a b. by destruct (fs w1 !! fsPath pk) as [[c|]|]. }
  rewrite Hwrite. cbv beta match.
  unfold w1. rewrite with_fs_record, with_fs_with_fs. cbn [fs with_fs].
  eexists. split; [reflexivity|].
  rewrite !writes_app, !actions_app, !writes_found_events, !actions_found_events.
  by cbn.
Qed.
End ApplyMore.

(** ** Extension reconciler: prompts, reload and the delta *)

Section ReconcilerMore.
Context {Host : Type} `{ExtensionHost Host}.
Implicit Types (w : World Host) (evs : list event).
Implicit Types (localList remoteList : list string).

Lemma with_host_inj w h1 h2 evs1 evs2 :
  with_host w h1 evs1 = with_host w h2 evs2 → evs1 = evs2.
Proof.
  unfold with_host. intros Heq. injection Heq as _ Heq.
  by apply app_inv_head in Heq.
Qed.

Lemma shown_app evs1 evs2 : shown (evs1 ++ evs2) = shown evs1 ++ shown evs2.
Proof. apply omap_app. Qed.

Lemma warnings_app evs1 evs2 :
  warnings (evs1 ++ evs2) = warnings evs1 ++ warnings evs2.
Proof. apply omap_app. Qed.

Lemma increments_app evs1 evs2 :
  increments (evs1 ++ evs2) = increments evs1 ++ increments evs2.
Proof. apply omap_app. Qed.

(** The progress callback shows no message of its own. *)
Section QuietLoop.
Variable command : string.
Variable step : nat → string → loop_state → M (Host := Host) loop_state.
Hypothesis run_step : ∀ total i st w,
  ∃ message logged,
    step total i st w =
    (Ok (S st.1, (executeCommand (host w) command [i]).2 || st.2),
     with_host w (executeCommand (host w) command [i]).1
       [ Progress message (percent (S st.1) total);
         Execute command [i];
         Log (if (executeCommand (host w) command [i]).2 then Info else Error)
           logged ]).

Lemma run_loop_quiet total ids st w :
  ∃ r h evs,
    for_of ids (step total) st w = (r, with_host w h evs) ∧
    shown evs = [] ∧ warnings evs = [].
Proof.
  revert st w. induction ids as [|i ids IH]; intros st w.
  - exists (Ok st), (host w), []. cbn. by rewrite with_host_same, record_nil.
  - cbn [for_of]. destruct (run_step total i st w) as (message & logged & Hstep).
    rewrite run_bind, Hstep.
    destruct (IH (S st.1, (executeCommand (host w) command [i]).2 || st.2)
                (with_host w (executeCommand (host w) command [i]).1
                   [Progress message (percent (S st.1) total);
                    Execute command [i];
                    Log (if (executeCommand (host w) command [i]).2
                         then Info else Error) logged]))
      as (r & h & evs & Hrun & Hshown & Hwarn).
    rewrite Hrun, with_host_with_host.
    eexists r, h, _. split; [reflexivity|].
    rewrite shown_app, warnings_app, Hshown, Hwarn. by split.
Qed.
End QuietLoop.

Lemma sync_batch_quiet toInstall toDelete needsReload w :
  ∃ r h evs,
    sync_batch toInstall toDelete needsReload w = (r, with_host w h evs) ∧
    shown evs = [] ∧ warnings evs = [].
Proof.
  unfold sync_batch. rewrite run_bind.
  destruct (run_loop uninstall_command uninstall_step run_uninstall_step
              (length toInstall + length toDelete) toDelete (0, needsReload) w)
    as (evs0 & Hok & _).
  destruct (run_loop_quiet uninstall_command uninstall_step run_uninstall_step
              (length toInstall + length toDelete) toDelete (0, needsReload) w)
    as (r1 & h1 & evs1 & Hrun1 & Hs1 & Hw1).
  rewrite Hrun1 in Hok |- *. destruct r1 as [st1|e]; [|discriminate Hok].
  clear Hok. cbv beta match.
  destruct (run_loop_quiet install_command install_step run_install_step
              (length toInstall + length toDelete) toInstall st1
              (with_host w h1 evs1))
    as (r2 & h2 & evs2 & Hrun2 & Hs2 & Hw2).
  rewrite Hrun2, with_host_with_host.
  eexists r2, h2, _. split; [reflexivity|].
  rewrite shown_app, warnings_app, Hs1, Hs2, Hw1, Hw2. by split.
Qed.

(** A run that gets past the confirmation, event by event. *)
Lemma run_installExtensions_go cfg user remoteList w :
  let localList := installed_ids cfg (host w) in
  let toInstall := toInstall_of localList remoteList in
  let toDelete := toDelete_of localList remoteList in
  let cmds := batch_commands toInstall toDelete in
  let total := length toInstall + length toDelete in
  let oks := (outcomes (host w) cmds).1 in
  let h1 := (outcomes (host w) cmds).2 in
  let pre := if default true (confirmBeforeSync cfg)
             then [ShowWarning (warning_message toInstall toDelete)] else [] in
  toInstall ≠ [] ∨ toDelete ≠ [] →
  proceeds cfg user toInstall toDelete →
  ∃ evs,
    actions evs = cmds ∧ shown evs = [] ∧ warnings evs = [] ∧
    increments evs = map (fun k => percent k total) (seq 1 total) ∧
    installExtensions cfg user remoteList w =
      if existsb id oks then
        if bool_decide (answer_reload user reload_message = Some "Reload") then
          (if (executeCommand h1 reload_command []).2 then Ok ()
           else Throw (CommandFailed reload_command),
           with_host w (executeCommand h1 reload_command []).1
             (pre ++ evs ++ [ShowInformation reload_message;
                             Execute reload_command []]))
        else (Ok (), with_host w h1 (pre ++ evs ++ [ShowInformation reload_message]))
      else (Ok (), with_host w h1 (pre ++ evs)).
Proof.
  intros localList toInstall toDelete cmds total oks h1 pre Hdelta Hgo.
  apply delta_nonempty in Hdelta.
  unfold installExtensions. rewrite run_bind, run_getExtensions.
  cbv beta iota zeta. fold localList. rewrite Hdelta.
  fold toInstall. fold toDelete.
  rewrite run_bind, run_confirm.
  set (message := warning_message toInstall toDelete).
  assert (Hconfirm :
    (if default true (confirmBeforeSync cfg)
     then if bool_decide (answer_warning user message = Some "Show Details")
          then (Ok false, record w [ShowWarning message;
                  ShowInformation (details_message toInstall toDelete)])
          else (Ok (bool_decide (answer_warning user message = Some "Yes")),
                record w [ShowWarning message])
     else (Ok true, w)) = (Ok true, record w pre)).
  { unfold pre. fold message. destruct Hgo as [-> | Hyes].
    - by rewrite record_nil.
    - fold message in Hyes. destruct (default true (confirmBeforeSync cfg)).
      + rewrite Hyes. rewrite bool_decide_eq_false_2 by discriminate.
        by rewrite bool_decide_eq_true_2.
      + by rewrite record_nil. }
  rewrite Hconfirm. cbn [negb]. rewrite run_bind.
  destruct (run_sync_batch toInstall toDelete false (record w pre))
    as (evs & Hrun & Hact & Hinc & _ & _ & _).
  destruct (sync_batch_quiet toInstall toDelete false (record w pre))
    as (r' & h' & evs' & Hrun' & Hshown & Hwarn).
  rewrite Hrun in Hrun'. apply (f_equal snd) in Hrun'. cbn [snd] in Hrun'.
  apply with_host_inj in Hrun' as <-.
  rewrite Hrun. cbn [host record] in *. cbn [snd].
  rewrite record_with_host. fold cmds oks h1 total in Hact, Hinc |- *.
  exists evs. split; [done|]. split; [done|]. split; [done|]. split; [done|].
  rewrite orb_false_r.
  destruct (existsb id oks).
  - rewrite run_bind, run_emit, with_host_record.
    destruct (bool_decide (answer_reload user reload_message = Some "Reload")).
    + rewrite run_execute. cbn [host with_host].
      by rewrite with_host_with_host, <- !app_assoc.
    + by rewrite run_ret, <- !app_assoc.
  - by rewrite run_ret.
Qed.

(** X14: on a run that goes ahead, the reload prompt is shown exactly when
    at least one action succeeded, and the window-reload command is issued
    exactly when, in addition, the user answers "Reload"; the reload is the
    last command, after all removals and installations. *)
Theorem X14_reload_is_offered_never_forced cfg user remoteList w :
  let localList := installed_ids cfg (host w) in
  let toInstall := toInstall_of localList remoteList in
  let toDelete := toDelete_of localList remoteList in
  let cmds := batch_commands toInstall toDelete in
  let oks := (outcomes (host w) cmds).1 in
  toInstall ≠ [] ∨ toDelete ≠ [] →
  proceeds cfg user toInstall toDelete →
  ∃ h' evs,
    (installExtensions cfg user remoteList w).2 = with_host w h' evs ∧
    shown evs = (if existsb id oks then [reload_message] else []) ∧
    actions evs =
      cmds ++ (if existsb id oks &&
                  bool_decide (answer_reload user reload_message = Some "Reload")
               then [(reload_command, [])] else []).
Proof.
  intros localList toInstall toDelete cmds oks Hdelta Hgo.
  destruct (run_installExtensions_go cfg user remoteList w Hdelta Hgo)
    as (evs & Hact & Hshown & _ & _ & Hrun).
  fold localList toInstall toDelete cmds oks in Hact, Hrun.
  rewrite Hrun.
  assert (Hpre : ∀ pre : list event,
    pre = (if default true (confirmBeforeSync cfg)
           then [ShowWarning (warning_message toInstall toDelete)] else []) →
    shown pre = [] ∧ actions pre = []).
  { intros pre ->. by destruct (default true (confirmBeforeSync cfg)). }
  destruct (Hpre _ eq_refl) as [Hps Hpa].
  destruct (existsb id oks);
    [destruct (bool_decide (answer_reload user reload_message = Some "Reload"))|];
    cbn [snd andb];
    eexists _, _; (split; [reflexivity|]);
    rewrite ?shown_app, ?actions_app, Hps, Hpa, Hshown, Hact; cbn;
    by rewrite ?app_nil_r.
Qed.

(** X15: whenever there is something to reconcile, the confirmation prompt
    is shown exactly once if [confirmBeforeSync] is on or unset, carrying
    the two counts, and not at all if it is off. *)
Theorem X15_confirmation_follows_setting cfg user remoteList w :
  let localList := installed_ids cfg (host w) in
  let toInstall := toInstall_of localList remoteList in
  let toDelete := toDelete_of localList remoteList in
  toInstall ≠ [] ∨ toDelete ≠ [] →
  ∃ h' evs,
    (installExtensions cfg user remoteList w).2 = with_host w h' evs ∧
    warnings evs =
      match confirmBeforeSync cfg with
      | Some false => []
      | _ => [warning_message toInstall toDelete]
      end.
Proof.
  intros localList toInstall toDelete Hdelta.
  assert (Hsetting :
    (if default true (confirmBeforeSync cfg)
     then [warning_message toInstall toDelete] else []) =
    match confirmBeforeSync cfg with
    | Some false => []
    | _ => [warning_message toInstall toDelete]
    end) by by destruct (confirmBeforeSync cfg) as [[]|].
  rewrite <- Hsetting. clear Hsetting.
  destruct (decide (proceeds cfg user toInstall toDelete)) as [Hgo|Hstop].
  - destruct (run_installExtensions_go cfg user remoteList w Hdelta Hgo)
      as (evs & _ & _ & Hwarn & _ & Hrun).
    fold localList toInstall toDelete in Hrun. rewrite Hrun.
    destruct (existsb id _);
      [destruct (bool_decide (answer_reload user reload_message = Some "Reload"))|];
      cbn [snd];
      eexists _, _; (split; [reflexivity|]);
      rewrite ?warnings_app, Hwarn;
      by destruct (default true (confirmBeforeSync cfg)).
  - assert (Hon : default true (confirmBeforeSync cfg) = true).
    { destruct (default true (confirmBeforeSync cfg)) eqn:Hd; [done|].
      destruct Hstop. by left. }
    assert (Hno : answer_warning user (warning_message toInstall toDelete)
                  ≠ Some "Yes").
    { intros Hyes. apply Hstop. by right. }
    apply delta_nonempty in Hdelta.
    unfold installExtensions. rewrite run_bind, run_getExtensions.
    cbv beta iota zeta. fold localList. rewrite Hdelta.
    fold toInstall. fold toDelete.
    rewrite run_bind, run_confirm, Hon.
    exists (host w). case_bool_decide.
    + eexists. split; [reflexivity|]. done.
    + rewrite bool_decide_eq_false_2 by done. eexists. split; [reflexivity|]. done.
Qed.
End ReconcilerMore.

Section DeltaMore.
Context {Host : Type} `{ExtensionHost Host}.
Implicit Types (w : World Host) (evs : list event).
Implicit Types (localList remoteList : list string).

(** X16: the local list is made of exactly the identifiers of installed
    extensions that are not built in and not on the exclusion list, in the
    order in which the host lists them. *)
Theorem X16_local_list_membership cfg (h : Host) i :
  (i ∈ installed_ids cfg h ↔
   (∃ e, e ∈ all_extensions h ∧ ext_id e = i ∧ isBuiltin e = false) ∧
   i ∉ default [] (excludeExtensions cfg)) ∧
  installed_ids cfg h `sublist_of` map ext_id (all_extensions h).
Proof.
  unfold installed_ids. split.
  - rewrite elem_of_List_filter, negb_true_iff, list_elem_of_fmap.
    rewrite <- not_true_iff_false, includes_true.
    split.
    + intros [(e & -> & He) Hex]. apply elem_of_List_filter in He as [He Hb].
      apply negb_true_iff in Hb. split; [by exists e | done].
    + intros [(e & He & <- & Hb) Hex]. split; [|done].
      exists e. split; [done|]. apply elem_of_List_filter.
      by rewrite Hb.
  - etrans; [apply List_filter_sublist|].
    apply (fmap_sublist ext_id), List_filter_sublist.
Qed.

(** X17: the delta turns the local set into the remote set: removing
    [toDelete] from the local identifiers and adding [toInstall] gives
    exactly the remote identifiers; nothing is both installed and removed,
    nothing installed is already local, nothing removed is remote. *)
Theorem X17_delta_reaches_remote localList remoteList :
  let toInstall := toInstall_of localList remoteList in
  let toDelete := toDelete_of localList remoteList in
  (list_to_set localList ∖ list_to_set toDelete) ∪ list_to_set toInstall
    =@{gset string} list_to_set remoteList ∧
  (∀ i, i ∈ toInstall → i ∉ toDelete) ∧
  (∀ i, i ∈ toInstall → i ∉ localList) ∧
  (∀ i, i ∈ toDelete → i ∉ remoteList).
Proof.
  intros toInstall toDelete. split; [|split; [|split]].
  - apply set_eq. intros i.
    rewrite elem_of_union, elem_of_difference, !elem_of_list_to_set.
    unfold toInstall, toDelete. rewrite elem_of_toInstall, elem_of_toDelete.
    destruct (decide (i ∈ localList)), (decide (i ∈ remoteList)); tauto.
  - intros i Hi Hd. apply elem_of_toInstall in Hi as [_ Hi].
    apply elem_of_toDelete in Hd as [Hd _]. done.
  - intros i Hi. by apply elem_of_toInstall in Hi as [_ Hi].
  - intros i Hd. by apply elem_of_toDelete in Hd as [_ Hd].
Qed.

Lemma NoDup_fmap_command (command : string) (ids : list string) :
  NoDup ids → NoDup (map (fun i => (command, [i])) ids).
Proof.
  intros Hnd.
  assert (Hinj : Inj (=) (=) (fun i : string => (command, [i])))
    by (intros i j Heq; by injection Heq).
  exact (NoDup_fmap_2 (fun i : string => (command, [i])) ids Hnd).
Qed.

Lemma installed_ids_NoDup cfg (h : Host) :
  NoDup (map ext_id (all_extensions h)) → NoDup (installed_ids cfg h).
Proof.
  intros Hnd. apply (sublist_NoDup _ (map ext_id (all_extensions h))); [done|].
  unfold installed_ids. etrans; [apply List_filter_sublist|].
  apply (fmap_sublist ext_id), List_filter_sublist.
Qed.

(** A run stopped at the confirmation issues no command. *)
Lemma installExtensions_declined cfg user remoteList w :
  let localList := installed_ids cfg (host w) in
  let toInstall := toInstall_of localList remoteList in
  let toDelete := toDelete_of localList remoteList in
  default true (confirmBeforeSync cfg) = true →
  answer_warning user (warning_message toInstall toDelete) ≠ Some "Yes" →
  ∃ evs,
    installExtensions cfg user remoteList w = (Ok (), record w evs) ∧
    actions evs = [].
Proof.
  intros localList toInstall toDelete Hon Hno.
  unfold installExtensions. rewrite run_bind, run_getExtensions.
  cbv beta iota zeta. fold localList.
  destruct ((length (toInstall_of localList remoteList) =? 0)%nat &&
            (length (toDelete_of localList remoteList) =? 0)%nat).
  - eexists. split; [reflexivity|]. done.
  - fold toInstall. fold toDelete.
    rewrite run_bind, run_confirm. rewrite Hon.
    destruct (bool_decide (answer_warning user
                (warning_message toInstall toDelete) = Some "Show Details")).
    + eexists. split; [reflexivity|]. done.
    + rewrite bool_decide_eq_false_2 by done.
      eexists. split; [reflexivity|]. done.
Qed.

(** X18: if the host lists no extension twice and the remote list repeats
    no identifier, no run of the reconciler issues the same command twice,
    whatever the user answers and whichever commands fail. *)
Theorem X18_no_action_twice cfg user remoteList w :
  NoDup (map ext_id (all_extensions (host w))) → NoDup remoteList →
  ∃ h' evs,
    (installExtensions cfg user remoteList w).2 = with_host w h' evs ∧
    NoDup (actions evs).
Proof.
  intros Hhost Hr.
  set (localList := installed_ids cfg (host w)).
  set (toInstall := toInstall_of localList remoteList).
  set (toDelete := toDelete_of localList remoteList).
  assert (Hl : NoDup localList) by by apply installed_ids_NoDup.
  assert (Hi : NoDup toInstall)
    by (apply (sublist_NoDup _ remoteList); [done | apply List_filter_sublist]).
  assert (Hd : NoDup toDelete)
    by (apply (sublist_NoDup _ localList); [done | apply List_filter_sublist]).
  destruct (default true (confirmBeforeSync cfg)) eqn:Hon;
    [destruct (decide (answer_warning user (warning_message toInstall toDelete)
                       = Some "Yes")) as [Hyes|Hno]|].
  2:{ destruct (installExtensions_declined cfg user remoteList w Hon Hno)
        as (evs & Hrun & Hact).
      exists (host w), evs. rewrite Hrun, Hact. split; [done|]. constructor. }
  all: assert (Hgo : proceeds cfg user toInstall toDelete)
         by (unfold proceeds; auto).
  all: destruct (installExtensions_actions cfg user remoteList w Hgo)
         as (evs & h' & tail & Hrun & Hact & Htail).
  all: exists h', evs; split; [exact Hrun|].
  all: rewrite Hact; fold localList toInstall toDelete.
  all: unfold uninstall_of, install_of.
  all: apply NoDup_app; split; [by apply NoDup_fmap_command|].
  all: split.
  all: try (apply NoDup_app; split; [by apply NoDup_fmap_command|]; split;
            [|destruct Htail as [-> | ->];
              [constructor | apply NoDup_singleton]]).
  all: intros c Hc Hc'; apply list_elem_of_fmap in Hc as (i & -> & _).
  all: try (apply elem_of_app in Hc' as [Hc'|Hc'];
            [apply list_elem_of_fmap in Hc' as (j & Heq & _); discriminate Heq|]).
  all: destruct Htail as [-> | ->];
         [by apply elem_of_nil in Hc'
         |apply list_elem_of_singleton in Hc'; discriminate Hc'].
Qed.

Lemma percent_full total : total ≠ 0 → (percent total total == 100)%Q.
Proof.
  intros Hne. unfold percent.
  assert (Hnz : ¬ (inject_Z (Z.of_nat total) == 0)%Q).
  { unfold Qeq. cbn. lia. }
  field. exact Hnz.
Qed.

Lemma steps_app evs1 evs2 : steps (evs1 ++ evs2) = steps evs1 ++ steps evs2.
Proof. apply omap_app. Qed.

Lemma run_uninstall_step_exact total i st w :
  ∃ logged,
    uninstall_step total i st w =
    (Ok (S st.1, (executeCommand (host w) uninstall_command [i]).2 || st.2),
     with_host w (executeCommand (host w) uninstall_command [i]).1
       [ Progress ("Uninstalling " +:+ i +:+ "...") (percent (S st.1) total);
         Execute uninstall_command [i];
         Log (if (executeCommand (host w) uninstall_command [i]).2
              then Info else Error) logged ]).
Proof.
  unfold uninstall_step, try_catch.
  rewrite run_bind, run_emit, run_bind, run_execute. cbn [host record].
  destruct (executeCommand (host w) uninstall_command [i]) as [h' []];
    cbn [fst snd orb].
  - eexists. rewrite run_bind, run_log, run_ret.
    rewrite with_host_record, record_with_host. done.
  - eexists. rewrite run_bind, run_log, run_ret.
    rewrite with_host_record, record_with_host. done.
Qed.

Lemma run_install_step_exact total i st w :
  ∃ logged,
    install_step total i st w =
    (Ok (S st.1, (executeCommand (host w) install_command [i]).2 || st.2),
     with_host w (executeCommand (host w) install_command [i]).1
       [ Progress ("Installing " +:+ i +:+ "...") (percent (S st.1) total);
         Execute install_command [i];
         Log (if (executeCommand (host w) install_command [i]).2
              then Info else Error) logged ]).
Proof.
  unfold install_step, try_catch.
  rewrite run_bind, run_emit, run_bind, run_execute. cbn [host record].
  destruct (executeCommand (host w) install_command [i]) as [h' []];
    cbn [fst snd orb].
  - eexists. rewrite run_bind, run_log, run_ret.
    rewrite with_host_record, record_with_host. done.
  - eexists. rewrite run_bind, run_log, run_ret.
    rewrite with_host_record, record_with_host. done.
Qed.

(** One loop of the progress callback, report by report. *)
Section StepsLoop.
Variable command : string.
Variable message : string → string.
Variable step : nat → string → loop_state → M (Host := Host) loop_state.
Hypothesis run_step : ∀ total i st w,
  ∃ logged,
    step total i st w =
    (Ok (S st.1, (executeCommand (host w) command [i]).2 || st.2),
     with_host w (executeCommand (host w) command [i]).1
       [ Progress (message i) (percent (S st.1) total);
         Execute command [i];
         Log (if (executeCommand (host w) command [i]).2 then Info else Error)
           logged ]).

Lemma run_loop_steps total ids st w :
  ∃ r h evs,
    for_of ids (step total) st w = (r, with_host w h evs) ∧
    steps evs = flat_map (fun i => [inl (message i); inr (command, [i])]) ids.
Proof.
  revert st w. induction ids as [|i ids IH]; intros st w.
  - exists (Ok st), (host w), []. cbn. by rewrite with_host_same, record_nil.
  - cbn [for_of flat_map]. destruct (run_step total i st w) as (logged & Hstep).
    rewrite run_bind, Hstep.
    destruct (IH (S st.1, (executeCommand (host w) command [i]).2 || st.2)
                (with_host w (executeCommand (host w) command [i]).1
                   [Progress (message i) (percent (S st.1) total);
                    Execute command [i];
                    Log (if (executeCommand (host w) command [i]).2
                         then Info else Error) logged]))
      as (r & h & evs & Hrun & Hsteps).
    rewrite Hrun, with_host_with_host.
    eexists r, h, _. split; [reflexivity|].
    rewrite steps_app, Hsteps. done.
Qed.
End StepsLoop.

Lemma sync_batch_steps toInstall toDelete needsReload w :
  ∃ r h evs,
    sync_batch toInstall toDelete needsReload w = (r, with_host w h evs) ∧
    steps evs = flat_map uninstall_steps toDelete ++
                flat_map install_steps toInstall.
Proof.
  unfold sync_batch. rewrite run_bind.
  destruct (run_loop uninstall_command uninstall_step run_uninstall_step
              (length toInstall + length toDelete) toDelete (0, needsReload) w)
    as (evs0 & Hok & _).
  destruct (run_loop_steps uninstall_command
              (fun i => "Uninstalling " +:+ i +:+ "...")
              uninstall_step run_uninstall_step_exact
              (length toInstall + length toDelete) toDelete (0, needsReload) w)
    as (r1 & h1 & evs1 & Hrun1 & Hs1).
  rewrite Hrun1 in Hok |- *. destruct r1 as [st1|e]; [|discriminate Hok].
  clear Hok. cbv beta match.
  destruct (run_loop_steps install_command
              (fun i => "Installing " +:+ i +:+ "...")
              install_step run_install_step_exact
              (length toInstall + length toDelete) toInstall st1
              (with_host w h1 evs1))
    as (r2 & h2 & evs2 & Hrun2 & Hs2).
  rewrite Hrun2, with_host_with_host.
  eexists r2, h2, _. split; [reflexivity|].
  by rewrite steps_app, Hs1, Hs2.
Qed.

(** A run that gets past the confirmation, report by report. *)
Lemma run_installExtensions_steps cfg user remoteList w :
  let localList := installed_ids cfg (host w) in
  let toInstall := toInstall_of localList remoteList in
  let toDelete := toDelete_of localList remoteList in
  let total := length toInstall + length toDelete in
  toInstall ≠ [] ∨ toDelete ≠ [] →
  proceeds cfg user toInstall toDelete →
  ∃ h' pre evs post,
    (installExtensions cfg user remoteList w).2 =
      with_host w h' (pre ++ evs ++ post) ∧
    steps pre = [] ∧ increments pre = [] ∧
    steps evs = flat_map uninstall_steps toDelete ++
                flat_map install_steps toInstall ∧
    increments evs = map (fun k => percent k total) (seq 1 total) ∧
    (post = [] ∨ post = [ShowInformation reload_message] ∨
     post = [ShowInformation reload_message; Execute reload_command []]).
Proof.
  intros localList toInstall toDelete total Hdelta Hgo.
  apply delta_nonempty in Hdelta.
  unfold installExtensions. rewrite run_bind, run_getExtensions.
  cbv beta iota zeta. fold localList. rewrite Hdelta.
  fold toInstall. fold toDelete.
  rewrite run_bind, run_confirm.
  set (message := warning_message toInstall toDelete).
  set (pre := if default true (confirmBeforeSync cfg)
              then [ShowWarning message] else []).
  assert (Hconfirm :
    (if default true (confirmBeforeSync cfg)
     then if bool_decide (answer_warning user message = Some "Show Details")
          then (Ok false, record w [ShowWarning message;
                  ShowInformation (details_message toInstall toDelete)])
          else (Ok (bool_decide (answer_warning user message = Some "Yes")),
                record w [ShowWarning message])
     else (Ok true, w)) = (Ok true, record w pre)).
  { unfold pre. destruct Hgo as [-> | Hyes].
    - by rewrite record_nil.
    - fold message in Hyes. destruct (default true (confirmBeforeSync cfg)).
      + rewrite Hyes. rewrite bool_decide_eq_false_2 by discriminate.
        by rewrite bool_decide_eq_true_2.
      + by rewrite record_nil. }
  rewrite Hconfirm. cbn [negb]. rewrite run_bind.
  destruct (run_sync_batch toInstall toDelete false (record w pre))
    as (evs & Hrun & _ & Hinc & _ & _ & _).
  destruct (sync_batch_steps toInstall toDelete false (record w pre))
    as (r' & h' & evs' & Hrun' & Hsteps).
  rewrite Hrun in Hrun'. apply (f_equal snd) in Hrun'. cbn [snd] in Hrun'.
  apply with_host_inj in Hrun' as <-.
  rewrite Hrun. cbn [host record] in *. cbn [snd].
  rewrite record_with_host. fold total in Hinc.
  set (h1 := (outcomes (host w) (batch_commands toInstall toDelete)).2).
  assert (Hpre : steps pre = [] ∧ increments pre = [])
    by (unfold pre; by destruct (default true (confirmBeforeSync cfg))).
  destruct Hpre as [Hpre1 Hpre2].
  destruct (existsb id _ || false).
  - rewrite run_bind, run_emit, with_host_record.
    destruct (bool_decide (answer_reload user reload_message = Some "Reload")).
    + rewrite run_execute. cbn [snd host with_host].
      exists (executeCommand h1 reload_command []).1, pre, evs,
        [ShowInformation reload_message; Execute reload_command []].
      rewrite with_host_with_host, <- !app_assoc. cbn [List.app].
      repeat split; try done. by right; right.
    + exists h1, pre, evs, [ShowInformation reload_message].
      rewrite run_ret. cbn [snd]. rewrite <- !app_assoc.
      repeat split; try done. by right; left.
  - exists h1, pre, evs, []. rewrite run_ret. cbn [snd]. rewrite app_nil_r.
    repeat split; try done. by left.
Qed.

(** X19: on a run that goes ahead, every command of the batch is preceded
    by its own progress report - "Uninstalling <id>..." for the removals,
    then "Installing <id>..." for the installations - and nothing else is
    reported or issued but a final window reload.  There is one report per
    action, whether or not the action succeeds, and the last report carries
    an increment of 100: the counter has reached the total. *)
Theorem X19_one_report_before_each_command cfg user remoteList w :
  let localList := installed_ids cfg (host w) in
  let toInstall := toInstall_of localList remoteList in
  let toDelete := toDelete_of localList remoteList in
  let total := length toInstall + length toDelete in
  toInstall ≠ [] ∨ toDelete ≠ [] →
  proceeds cfg user toInstall toDelete →
  ∃ h' evs tail,
    (installExtensions cfg user remoteList w).2 = with_host w h' evs ∧
    steps evs = flat_map uninstall_steps toDelete ++
                flat_map install_steps toInstall ++ tail ∧
    (tail = [] ∨ tail = [inr (reload_command, [])]) ∧
    length (increments evs) = total ∧
    (∃ q, last (increments evs) = Some q ∧ (q == 100)%Q).
Proof.
  intros localList toInstall toDelete total Hdelta Hgo.
  destruct (run_installExtensions_steps cfg user remoteList w Hdelta Hgo)
    as (h' & pre & evs & post & Hrun & Hpre1 & Hpre2 & Hsteps & Hinc & Hpost).
  fold localList toInstall toDelete total in Hsteps, Hinc.
  assert (Hpos : total ≠ 0).
  { unfold total. destruct Hdelta as [Hd|Hd].
    - destruct toInstall; [done | cbn; lia].
    - destruct toDelete; [done | cbn; lia]. }
  assert (Hq : increments post = [] ∧
               (steps post = [] ∨ steps post = [inr (reload_command, [])]))
    by (destruct Hpost as [-> | [-> | ->]]; cbn; auto).
  destruct Hq as [Hq1 Hq2].
  exists h', (pre ++ evs ++ post), (steps post).
  split; [exact Hrun|].
  rewrite !steps_app, !increments_app, Hpre1, Hpre2, Hq1, Hsteps, Hinc.
  rewrite app_nil_r. cbn [List.app].
  split; [by rewrite <- app_assoc|]. split; [exact Hq2|].
  split; [by rewrite length_map, length_seq|].
  destruct total as [|n]; [done|].
  exists (percent (S n) (S n)). split; [|by apply percent_full].
  replace (S n) with (n + 1) at 1 by lia.
  rewrite seq_app, map_app. cbn [seq map]. by rewrite last_snoc.
Qed.
End DeltaMore.

(** ** Snapshot capture *)

Section CaptureMore.
Context {num : Type} `{Number num} `{Json5 num} `{UriLib}.
Context {Host : Type} `{ExtensionHost Host}.
Implicit Types (w : World Host) (evs : list event).

Lemma getActiveProfileInfo_quiet env wf app w :
  ∃ info evs,
    getActiveProfileInfo env wf app w = (Ok info, record w evs) ∧
    writes evs = [] ∧ actions evs = [].
Proof.
  rewrite run_getActiveProfileInfo. cbv zeta.
  destruct (fs w !! getStoragePath env app) as [[content|]|]; [|by eauto..].
  destruct (JSON5_parse content) as [storage|]; [|by eauto].
  destruct (workspace_profile storage wf) as [[info|]|e]; by eauto.
Qed.

Lemma readConfigFile_quiet env (self : Instance) t w :
  ∃ v evs,
    readConfigFile env self t w = (Ok v, record w evs) ∧
    writes evs = [] ∧ actions evs = [].
Proof.
  unfold readConfigFile. rewrite run_bind. unfold try_catch at 1.
  destruct (opt_truthy (globalState self !! _)) eqn:Hmanual.
  - rewrite run_ret. unfold try_catch.
    rewrite run_bind, run_readFile.
    destruct (fs w !! _) as [[content|]|]; cbv beta match.
    + rewrite run_bind, run_parse.
      destruct (JSON5_parse content); cbv beta match.
      * by eexists _, _.
      * rewrite run_bind, run_log, run_ret, record_record. by eexists _, _.
    + rewrite run_bind, run_log, run_ret, record_record. by eexists _, _.
    + rewrite run_bind, run_log, run_ret, record_record. by eexists _, _.
  - rewrite run_bind. unfold findConfigFile.
    destruct (find_first_quiet (kind_name t +:+ ".json")
                (getConfigPaths env (appName self) (kind_name t +:+ ".json")
                   (activeProfileId self)) w) as (r & evs & -> & Hwr & Hact).
    destruct r as [path|e]; cbv beta match.
    + rewrite run_ret. unfold try_catch.
      rewrite run_bind, run_readFile, fs_record, record_record.
      destruct (fs w !! _) as [[content|]|]; cbv beta match.
      * rewrite run_bind, run_parse.
        destruct (JSON5_parse content); cbv beta match.
        -- eexists _, _. split; [reflexivity|].
           rewrite writes_app, actions_app, Hwr, Hact. done.
        -- rewrite run_bind, run_log, run_ret, record_record.
           eexists _, _. split; [reflexivity|].
           rewrite !writes_app, !actions_app, Hwr, Hact. done.
      * rewrite run_bind, run_log, run_ret, record_record.
        eexists _, _. split; [reflexivity|].
        rewrite !writes_app, !actions_app, Hwr, Hact. done.
      * rewrite run_bind, run_log, run_ret, record_record.
        eexists _, _. split; [reflexivity|].
        rewrite !writes_app, !actions_app, Hwr, Hact. done.
    + rewrite run_bind, run_log, run_ret, record_record.
      eexists _, _. split; [reflexivity|].
      rewrite !writes_app, !actions_app, Hwr, Hact. done.
Qed.

(** X20: capture re-detects the active profile and ignores the cached one:
    two instances that differ only in their cached profile id and name give
    the same snapshot, the same updated instance and the same calls.
    Capture only reads: it writes no file, issues no command and leaves the
    file system and the extension host as they were. *)
Theorem X20_capture_ignores_cached_profile env wf cfg (self1 self2 : Instance) w :
  appName self1 = appName self2 →
  globalState self1 = globalState self2 →
  getActiveProfile env wf cfg self1 w = getActiveProfile env wf cfg self2 w ∧
  ∃ self' snap evs,
    getActiveProfile env wf cfg self1 w = (Ok (self', snap), record w evs) ∧
    writes evs = [] ∧ actions evs = [] ∧
    sourceProfileId snap = activeProfileId self' ∧
    (getActiveProfileInfo env wf (appName self1) w).1 =
      Ok {| info_id := activeProfileId self';
            info_name := activeProfileName self' |}.
Proof.
  intros Happ Hgs. split.
  - unfold getActiveProfile. rewrite !run_bind. unfold try_catch.
    rewrite !run_bind, Happ, Hgs.
    destruct (getActiveProfileInfo_quiet env wf (appName self2) w)
      as (info & evs & -> & _ & _).
    cbv beta match. by rewrite !run_bind, !run_log, !run_ret.
  - destruct (getActiveProfileInfo_quiet env wf (appName self1) w)
      as (info & evs0 & Hinfo & Hw0 & Ha0).
    set (self' := {| appName := appName self1;
                     activeProfileId := info_id info;
                     activeProfileName := info_name info;
                     globalState := globalState self1 |}).
    set (w0 := record w (evs0 ++ [Log Info ("Current active profile: " +:+
                   to_js_string (info_name info) +:+ " (" +:+
                   to_js_string (info_id info) +:+ ")")])).
    destruct (readConfigFile_quiet env self' settings_file w0)
      as (settings & e1 & Hs & Hw1 & Ha1).
    destruct (readConfigFile_quiet env self' keybindings_file (record w0 e1))
      as (keybinds & e2 & Hk & Hw2 & Ha2).
    unfold getActiveProfile. rewrite run_bind. unfold try_catch.
    rewrite run_bind, Hinfo, run_bind, run_log, run_ret, record_record.
    fold self' w0. rewrite run_bind, Hs, run_bind, Hk.
    rewrite run_bind, run_getExtensions, run_ret.
    unfold w0. rewrite !record_record.
    eexists _, _, _. split; [reflexivity|].
    rewrite !writes_app, !actions_app, Hw0, Ha0, Hw1, Ha1, Hw2, Ha2.
    repeat split; try done. by destruct info.
Qed.
End CaptureMore.

(** ** Activation *)

Section ActivationMore.
Context {num : Type} `{Number num} `{Json5 num} `{UriLib}.
Context {Host : Type} `{ExtensionHost Host}.
Implicit Types (w : World Host) (evs : list event).

Lemma run_find_first_none file paths w :
  list_find (present w) paths = None →
  find_first file paths w =
    (Throw (not_found file), record w (map Stat paths ++ [not_found_log file])).
Proof.
  intros Hnone. apply run_find_first_absent. intros p Hp.
  apply list_find_None in Hnone. rewrite Forall_forall in Hnone.
  apply eq_None_not_Some. exact (Hnone p Hp).
Qed.

Lemma run_setManualPath dialogs t w :
  setManualPath dialogs t None w =
  (match picked (open_dialog dialogs ("Select " +:+ kind_name t +:+ ".json file")) with
   | Some p => Ok p
   | None => Throw TypeError
   end, w).
Proof.
  unfold setManualPath, try_catch, picked. cbn [opt_truthy].
  by destruct (open_dialog dialogs _) as [[|p ps]|].
Qed.

(** The two validation probes of [initialize], run one after the other. *)
Lemma run_validation {A} (x : A) env app (pid : json num) w :
  ∃ evs,
    (findConfigFile env app "settings.json" pid;;
     findConfigFile env app "keybindings.json" pid;;
     mret x : M A) w =
    (if bool_decide (locatable env app pid w) then Ok x
     else Throw (not_found
                   (if bool_decide
                         (is_Some (list_find (present w)
                            (getConfigPaths env app "settings.json" pid)))
                    then "keybindings.json" else "settings.json")),
     record w evs) ∧
    writes evs = [] ∧ actions evs = [].
Proof.
  unfold findConfigFile, locatable. cbv zeta.
  set (spaths := getConfigPaths env app "settings.json" pid).
  set (kpaths := getConfigPaths env app "keybindings.json" pid).
  rewrite run_bind.
  destruct (list_find (present w) spaths) as [[i ps]|] eqn:Hs.
  - rewrite (run_find_first_found _ spaths w i ps Hs). cbv beta match.
    rewrite run_bind.
    assert (Hk' : list_find (present (record w (found_events spaths i ps))) kpaths
                  = list_find (present w) kpaths) by done.
    destruct (list_find (present w) kpaths) as [[j pk]|] eqn:Hk.
    + rewrite (run_find_first_found _ kpaths _ j pk Hk'). cbv beta match.
      rewrite run_ret, record_record.
      rewrite bool_decide_eq_true_2 by (split; by eexists).
      eexists. split; [reflexivity|].
      by rewrite writes_app, actions_app, !writes_found_events,
        !actions_found_events.
    + rewrite (run_find_first_none _ kpaths _ Hk'), record_record.
      rewrite bool_decide_eq_false_2 by (intros [_ [? ?]]; done).
      rewrite bool_decide_eq_true_2 by by eexists.
      eexists. split; [reflexivity|].
      rewrite !writes_app, !actions_app, writes_found_events,
        actions_found_events, writes_map_Stat, actions_map_Stat. done.
  - rewrite (run_find_first_none _ spaths _ Hs).
    rewrite bool_decide_eq_false_2 by (intros [[? ?] _]; done).
    rewrite bool_decide_eq_false_2 by (intros [? ?]; done).
    eexists. split; [reflexivity|].
    rewrite !writes_app, !actions_app, writes_map_Stat, actions_map_Stat. done.
Qed.

(** [initialize], by cases on whether the files are located and on what the
    two pickers return. *)
Lemma run_initialize env wf n ctx w info evs0 :
  let app := initialize_appName n in
  let instance : Instance :=
    {| appName := app; activeProfileId := info_id info;
       activeProfileName := info_name info; globalState := ctx |} in
  getActiveProfileInfo env wf app w = (Ok info, record w evs0) →
  ∃ evs,
    writes evs = [] ∧ actions evs = [] ∧
    ∀ dialogs,
      initialize env wf dialogs n ctx w =
      (if bool_decide (locatable env app (info_id info) w) then Ok (Some instance)
       else
         match picked (open_dialog dialogs settings_title),
               picked (open_dialog dialogs keybindings_title) with
         | Some s, Some k =>
             Ok (Some {| appName := app; activeProfileId := info_id info;
                         activeProfileName := info_name info;
                         globalState :=
                           <["manualKeybindingsPath" := k]>
                             (<["manualSettingsPath" := s]> ctx) |})
         | _, _ => Ok None
         end,
       record w
         (evs ++
          if bool_decide (locatable env app (info_id info) w) then []
          else
            Log Error
              "Failed to automatically find configuration files - opening file picker"
            :: match picked (open_dialog dialogs settings_title),
                     picked (open_dialog dialogs keybindings_title) with
               | Some s, Some k => []
               | _, _ =>
                   [Log Error
                      ("Configuration files are required for SyncEverything " +:+
                       "to work, please reactivate extension and select " +:+
                       "correct configuration files.")]
               end)).
Proof.
  intros app instance Hinfo.
  set (w0 := record w (evs0 ++ [Log Info ("Detected active profile: " +:+
                 to_js_string (info_name info) +:+ " (" +:+
                 to_js_string (info_id info) +:+ ")")])).
  destruct (run_validation (Some instance) env app (info_id info) w0)
    as (evs1 & Hval & Hw1 & Ha1).
  destruct (getActiveProfileInfo_quiet env wf app w)
    as (info' & evs0' & Hinfo' & Hw0 & Ha0).
  rewrite Hinfo in Hinfo'. injection Hinfo' as <- Heq.
  apply app_inv_head in Heq as <-.
  eexists. split; [|split]; [| |intros dialogs].
  3:{ unfold initialize. fold app. rewrite run_bind. unfold try_catch at 1.
      rewrite run_bind, Hinfo. cbv beta match.
      rewrite run_bind, run_log, run_ret, record_record. fold w0.
      unfold set_profile. cbn [appName globalState activeProfileId].
      fold instance. unfold try_catch at 1. rewrite Hval.
      assert (Hloc : bool_decide (locatable env app (info_id info) w0)
                     = bool_decide (locatable env app (info_id info) w)) by done.
      rewrite Hloc.
      destruct (bool_decide (locatable env app (info_id info) w)).
      - unfold w0. rewrite record_record, app_nil_r. reflexivity.
      - rewrite run_bind, run_log, record_record. unfold try_catch.
        rewrite run_bind, run_setManualPath.
        change ("Select " +:+ kind_name settings_file +:+ ".json file")
          with settings_title.
        destruct (picked (open_dialog dialogs settings_title)) as [s|];
          cbv beta match.
        + rewrite run_bind, run_setManualPath.
          change ("Select " +:+ kind_name keybindings_file +:+ ".json file")
            with keybindings_title.
          destruct (picked (open_dialog dialogs keybindings_title)) as [k|];
            cbv beta match.
          * rewrite run_ret. unfold w0. rewrite !record_record, <- !app_assoc.
            reflexivity.
          * rewrite run_bind, run_log, run_ret.
            unfold w0. rewrite !record_record, <- !app_assoc. reflexivity.
        + rewrite run_bind, run_log, run_ret.
          unfold w0. rewrite !record_record, <- !app_assoc. reflexivity. }
  - rewrite !writes_app, Hw0, Hw1. done.
  - rewrite !actions_app, Ha0, Ha1. done.
Qed.

End ActivationMore.

Section ActivationClaims.
Context {num : Type} `{Number num} `{Json5 num} `{UriLib}.
Context {Host : Type} `{ExtensionHost Host}.
Implicit Types (w : World Host) (evs : list event).

(** X21: [initialize] and [createNewProfileFromSync] derive the application
    name from [env.appName] by the same tests except for Insiders builds:
    the two names differ exactly when the name mentions "Code" and
    "Insiders" but neither "Antigravity" nor "Trae", and then [initialize]
    says "Code - Insiders" while the new profile is created under "Code". *)
Theorem X21_new_profile_app_name_ignores_insiders (n : string) :
  (initialize_appName n ≠ create_appName n ↔
   str_includes n "Antigravity" = false ∧ str_includes n "Trae" = false ∧
   str_includes n "Code" = true ∧ str_includes n "Insiders" = true) ∧
  (initialize_appName n ≠ create_appName n →
   initialize_appName n = "Code - Insiders" ∧ create_appName n = "Code").
Proof.
  unfold initialize_appName, create_appName.
  destruct (str_includes n "Antigravity"), (str_includes n "Trae"),
    (str_includes n "Code"), (str_includes n "Insiders");
    (split; [split; [intros Hne; try done; by destruct Hne
                    | intros (? & ? & ? & ?); try done]
            | intros Hne; try done; by destruct Hne]).
Qed.

(** X22: when both configuration files are located for the detected
    profile, [initialize] returns an instance carrying the derived
    application name and the detected profile, leaves the stored
    [globalState] as it was, opens no picker (its result does not depend on
    what the pickers would answer) and writes nothing. *)
Theorem X22_initialize_without_picker env wf dialogs n ctx w info evs0 :
  let app := initialize_appName n in
  getActiveProfileInfo env wf app w = (Ok info, record w evs0) →
  locatable env app (info_id info) w →
  ∃ evs,
    initialize env wf dialogs n ctx w =
      (Ok (Some {| appName := app; activeProfileId := info_id info;
                   activeProfileName := info_name info; globalState := ctx |}),
       record w evs) ∧
    writes evs = [] ∧ actions evs = [] ∧
    ∀ dialogs',
      initialize env wf dialogs' n ctx w = initialize env wf dialogs n ctx w.
Proof.
  intros app Hinfo Hloc.
  destruct (run_initialize env wf n ctx w info evs0 Hinfo)
    as (evs & Hwr & Hact & Hrun).
  fold app in Hrun.
  assert (Heach : ∀ d, initialize env wf d n ctx w =
    (Ok (Some {| appName := app; activeProfileId := info_id info;
                 activeProfileName := info_name info; globalState := ctx |}),
     record w evs)).
  { intros d. rewrite Hrun, bool_decide_eq_true_2 by done. by rewrite app_nil_r. }
  exists evs. split; [apply Heach|]. split; [done|]. split; [done|].
  intros d. by rewrite !Heach.
Qed.

(** X23: when a configuration file cannot be located and the user picks a
    file in each of the two pickers, [initialize] returns the instance with
    the two picked paths stored under [manualSettingsPath] and
    [manualKeybindingsPath]; nothing is written to disk. *)
Theorem X23_initialize_stores_picked_paths env wf dialogs n ctx w info evs0 s k :
  let app := initialize_appName n in
  getActiveProfileInfo env wf app w = (Ok info, record w evs0) →
  ¬ locatable env app (info_id info) w →
  picked (open_dialog dialogs settings_title) = Some s →
  picked (open_dialog dialogs keybindings_title) = Some k →
  ∃ instance evs,
    initialize env wf dialogs n ctx w = (Ok (Some instance), record w evs) ∧
    appName instance = app ∧
    activeProfileId instance = info_id info ∧
    globalState instance !! "manualSettingsPath" = Some s ∧
    globalState instance !! "manualKeybindingsPath" = Some k ∧
    (∀ key, key ≠ "manualSettingsPath" → key ≠ "manualKeybindingsPath" →
            globalState instance !! key = ctx !! key) ∧
    writes evs = [] ∧ actions evs = [].
Proof.
  intros app Hinfo Hloc Hs Hk.
  destruct (run_initialize env wf n ctx w info evs0 Hinfo)
    as (evs & Hwr & Hact & Hrun).
  fold app in Hrun. specialize (Hrun dialogs).
  rewrite bool_decide_eq_false_2, Hs, Hk in Hrun by done.
  eexists _, _. split; [exact Hrun|]. cbn [appName activeProfileId globalState].
  split; [done|]. split; [done|].
  split; [by rewrite lookup_insert_ne, lookup_insert_eq|].
  split; [by rewrite lookup_insert_eq|].
  split; [intros key H1' H2'; by rewrite !lookup_insert_ne|].
  rewrite writes_app, actions_app, Hwr, Hact. done.
Qed.

(** X24: when a configuration file cannot be located and the user dismisses
    either picker, [initialize] returns [undefined]: no instance is
    created, and nothing is stored or written. *)
Theorem X24_initialize_gives_up_without_files env wf dialogs n ctx w info evs0 :
  let app := initialize_appName n in
  getActiveProfileInfo env wf app w = (Ok info, record w evs0) →
  ¬ locatable env app (info_id info) w →
  picked (open_dialog dialogs settings_title) = None ∨
  picked (open_dialog dialogs keybindings_title) = None →
  ∃ evs,
    initialize env wf dialogs n ctx w = (Ok None, record w evs) ∧
    writes evs = [] ∧ actions evs = [].
Proof.
  intros app Hinfo Hloc Hnone.
  destruct (run_initialize env wf n ctx w info evs0 Hinfo)
    as (evs & Hwr & Hact & Hrun).
  fold app in Hrun. specialize (Hrun dialogs).
  rewrite bool_decide_eq_false_2 in Hrun by done.
  assert (Hmatch : ∀ (A B : Type) (a : string → string → A) (b : A),
    match picked (open_dialog dialogs settings_title),
          picked (open_dialog dialogs keybindings_title) with
    | Some s, Some k => a s k
    | _, _ => b
    end = b).
  { intros A B a b. destruct Hnone as [-> | ->]; [done|].
    by destruct (picked (open_dialog dialogs settings_title)). }
  rewrite (Hmatch _ unit), (Hmatch _ unit) in Hrun.
  eexists. split; [exact Hrun|].
  rewrite writes_app, actions_app, Hwr, Hact. done.
Qed.

(** X25: activation and capture compose.  If the files cannot be located
    and the user picks two readable, parsable files, the instance returned
    by [initialize] captures a snapshot whose settings and keybindings are
    the parsed contents of the picked files. *)
Theorem X25_picked_files_are_captured
    env wf cfg dialogs n ctx w info evs0 s k cs ck vs vk :
  let app := initialize_appName n in
  getActiveProfileInfo env wf app w = (Ok info, record w evs0) →
  ¬ locatable env app (info_id info) w →
  picked (open_dialog dialogs settings_title) = Some s → s ≠ "" →
  picked (open_dialog dialogs keybindings_title) = Some k → k ≠ "" →
  fs w !! s = Some (File cs) → JSON5_parse cs = Some vs →
  fs w !! k = Some (File ck) → JSON5_parse ck = Some vk →
  ∃ instance w1 instance' snap w2,
    initialize env wf dialogs n ctx w = (Ok (Some instance), w1) ∧
    getActiveProfile env wf cfg instance w1 = (Ok (instance', snap), w2) ∧
    snap_settings snap = Some vs ∧
    snap_keybindings snap = Some vk ∧
    fs w2 = fs w ∧ host w2 = host w.
Proof.
  intros app Hinfo Hloc Hs Hsne Hk Hkne Hfs Hps Hfk Hpk.
  destruct (run_initialize env wf n ctx w info evs0 Hinfo)
    as (evs & _ & _ & Hrun).
  fold app in Hrun. specialize (Hrun dialogs).
  rewrite bool_decide_eq_false_2, Hs, Hk in Hrun by done.
  set (instance := {| appName := app; activeProfileId := info_id info;
                      activeProfileName := info_name info;
                      globalState := <["manualKeybindingsPath":=k]>
                                       (<["manualSettingsPath":=s]> ctx) |}) in *.
  set (w1 := record w _) in Hrun.
  destruct (run_getActiveProfile env wf cfg instance w1)
    as (instance' & e0 & settings & e1 & keybinds & e2
        & _ & Hgs & _ & Hrs & Hrk & Hcap).
  assert (Hms : globalState instance' !! manual_key settings_file = Some s).
  { rewrite Hgs. cbn [globalState instance].
    by rewrite lookup_insert_ne, lookup_insert_eq. }
  assert (Hmk : globalState instance' !! manual_key keybindings_file = Some k).
  { rewrite Hgs. cbn [globalState instance]. by rewrite lookup_insert_eq. }
  rewrite (run_readConfigFile_manual env instance' settings_file _ s Hms Hsne) in Hrs.
  rewrite (run_readConfigFile_manual env instance' keybindings_file _ k Hmk Hkne) in Hrk.
  rewrite !fs_record in Hrs, Hrk. unfold w1 in Hrs, Hrk.
  rewrite !fs_record, ?Hfs, ?Hps, ?Hfk, ?Hpk in Hrs.
  rewrite !fs_record, ?Hfs, ?Hps, ?Hfk, ?Hpk in Hrk.
  injection Hrs as <- _. injection Hrk as <- _.
  eexists instance, w1, instance', _, _.
  split; [exact Hrun|]. split; [exact Hcap|]. done.
Qed.
End ActivationClaims.

(** ** New-profile creation *)

Section ProfileIdFacts.
Context {num : Type} `{Number num}.

Lemma to_hex_digit (z : Z) :
  (0 ≤ z < 16)%Z → ∃ c, to_hex z = String c EmptyString ∧ hex_char c = true.
Proof.
  intros [Hlo Hhi].
  destruct z as [|p|p]; [by eexists | | lia].
  repeat (match goal with q : positive |- _ => destruct q; try lia end);
    by eexists.
Qed.

Lemma floor_digit (r : Q) :
  (0 <= r)%Q → (r < 1)%Q → (0 ≤ Qfloor (r * 16) < 16)%Z.
Proof.
  intros Hlo Hhi. split.
  - change 0%Z with (Qfloor 0). apply Qfloor_resp_le.
    apply Qmult_le_0_compat; [done | discriminate].
  - rewrite Zlt_Qlt. eapply Qle_lt_trans; [apply Qfloor_le|].
    change (inject_Z 16) with (1 * 16)%Q.
    apply Qmult_lt_compat_r; [reflexivity | done].
Qed.

Lemma generateProfileId_digits (random : nat → Q) :
  (∀ i, i < 8 → (0 <= random i)%Q ∧ (random i < 1)%Q) →
  ∃ cs,
    length cs = 8 ∧ Forall (fun c => hex_char c = true) cs ∧
    generateProfileId random = Strings.String.string_of_list_ascii cs.
Proof.
  intros Hrandom.
  assert (Hd : ∀ i, i < 8 →
    ∃ c, to_hex (Qfloor (random i * 16)) = String c EmptyString ∧ hex_char c = true).
  { intros i Hi. destruct (Hrandom i Hi). by apply to_hex_digit, floor_digit. }
  destruct (Hd 0) as (c0 & E0 & H0); [lia|].
  destruct (Hd 1) as (c1 & E1 & H1); [lia|].
  destruct (Hd 2) as (c2 & E2 & H2); [lia|].
  destruct (Hd 3) as (c3 & E3 & H3); [lia|].
  destruct (Hd 4) as (c4 & E4 & H4); [lia|].
  destruct (Hd 5) as (c5 & E5 & H5); [lia|].
  destruct (Hd 6) as (c6 & E6 & H6); [lia|].
  destruct (Hd 7) as (c7 & E7 & H7); [lia|].
  exists [c0; c1; c2; c3; c4; c5; c6; c7].
  split; [reflexivity|]. split; [by repeat constructor|].
  unfold generateProfileId. cbn [seq map].
  rewrite E0, E1, E2, E3, E4, E5, E6, E7. reflexivity.
Qed.

Lemma generateProfileId_valid (random : nat → Q) :
  (∀ i, i < 8 → (0 <= random i)%Q ∧ (random i < 1)%Q) →
  generateProfileId random ≠ "" ∧ generateProfileId random ≠ default_profile.
Proof.
  intros Hrandom.
  destruct (generateProfileId_digits random Hrandom) as (cs & Hlen & _ & ->).
  do 9 (destruct cs as [|? cs]; try discriminate Hlen).
  split; [discriminate|].
  intros Heq. apply (f_equal String.length) in Heq. discriminate Heq.
Qed.

(** X26: if every [Math.random] result lies in [0, 1), the generated
    profile id consists of exactly eight characters, each one of [0-9a-f];
    it is therefore neither empty nor the default sentinel, and the locator
    puts the profile-scoped path for it first. *)
Theorem X26_generated_id_is_eight_hex_digits (random : nat → Q) :
  (∀ i, i < 8 → (0 <= random i)%Q ∧ (random i < 1)%Q) →
  String.length (generateProfileId random) = 8 ∧
  Forall (fun c => hex_char c = true)
    (Strings.String.list_ascii_of_string (generateProfileId random)) ∧
  generateProfileId random ≠ "" ∧
  generateProfileId random ≠ default_profile ∧
  ∀ env app file,
    getConfigPaths env app file (JStr (generateProfileId random) : json num) =
      profile_path env app file (JStr (generateProfileId random) : json num)
        :: default_paths env app file.
Proof.
  intros Hrandom.
  destruct (generateProfileId_valid random Hrandom) as [Hne Hdef].
  destruct (generateProfileId_digits random Hrandom) as (cs & Hlen & Hhex & Hid).
  split.
  { rewrite Hid. do 9 (destruct cs as [|? cs]; try discriminate Hlen).
    reflexivity. }
  split.
  { rewrite Hid, Strings.String.list_ascii_of_string_of_list_ascii. exact Hhex. }
  split; [exact Hne|]. split; [exact Hdef|].
  intros env app file. unfold getConfigPaths. cbn [truthy strict_eq].
  unfold str_truthy.
  apply String.eqb_neq in Hne as ->. apply String.eqb_neq in Hdef as ->.
  reflexivity.
Qed.
End ProfileIdFacts.

Lemma X26_generated_id_is_eight_hex_digits_witness :
  let random := fun i : nat => (Z.of_nat i # 8)%Q in
  (∀ i, i < 8 → (0 <= random i)%Q ∧ (random i < 1)%Q) ∧
  String.length (generateProfileId random) = 8 ∧
  Forall (fun c => hex_char c = true)
    (Strings.String.list_ascii_of_string (generateProfileId random)) ∧
  generateProfileId random ≠ "" ∧
  generateProfileId random ≠ default_profile ∧
  ∀ env app file,
    getConfigPaths env app file (JStr (generateProfileId random) : json Z) =
      profile_path env app file (JStr (generateProfileId random) : json Z)
        :: default_paths env app file.
Proof.
  intros random.
  assert (Hrandom : ∀ i, i < 8 → (0 <= random i)%Q ∧ (random i < 1)%Q).
  { intros i Hi. unfold random, Qle, Qlt. cbn. lia. }
  split; [exact Hrandom|].
  exact (X26_generated_id_is_eight_hex_digits random Hrandom).
Defined.

Section RegistrationMore.
Context {num : Type} `{Number num} `{Json5 num} `{UriLib}.
Context {Host : Type} `{ExtensionHost Host}.
Implicit Types (w : World Host) (evs : list event).

(** What one registration does, by cases on the descriptor. *)
Lemma run_registerProfileInStorage env pid name app w :
  let sp := getStoragePath env app in
  registerProfileInStorage env pid name app w =
  match fs w !! sp with
  | Some (File content) =>
      match JSON5_parse content with
      | Some storage =>
          match push_profile storage pid name with
          | Ok storage' =>
              (Ok (),
               with_fs w (<[sp := File (JSON_stringify storage')]> (fs w))
                 [ReadFile sp; WriteFile sp (JSON_stringify storage');
                  Log Info ("Registered profile " +:+ quote +:+ name +:+ quote
                            +:+ " in storage.json")])
          | Throw e => (Ok (), record w [ReadFile sp; register_warning e])
          end
      | None => (Ok (), record w [ReadFile sp; register_warning SyntaxError])
      end
  | _ => (Ok (), record w [ReadFile sp; register_warning (IOError sp)])
  end.
Proof.
  intros sp. unfold registerProfileInStorage, try_catch. cbv zeta. fold sp.
  rewrite run_bind, run_readFile.
  destruct (fs w !! sp) as [[content|]|] eqn:Hsp; cbv beta match.
  - rewrite run_bind, run_parse.
    destruct (JSON5_parse content) as [storage|]; cbv beta match.
    + rewrite run_bind. unfold lift.
      destruct (push_profile storage pid name) as [storage'|e]; cbv beta match.
      * rewrite run_bind, run_writeFile, fs_record, Hsp, record_with_fs.
        cbv beta match. by rewrite run_log, with_fs_record.
      * by rewrite run_log, record_record.
    + by rewrite run_log, record_record.
  - by rewrite run_log, record_record.
  - by rewrite run_log, record_record.
Qed.

(** X27: registering a profile never raises.  It can change no file other
    than the storage descriptor and never the extension host, and the
    descriptor changes only if it was read, parsed and extended
    successfully, in which case it holds the serialization of the extended
    document. *)
Theorem X27_registration_never_raises env pid name app w :
  let sp := getStoragePath env app in
  let run := registerProfileInStorage env pid name app w in
  run.1 = Ok () ∧
  host run.2 = host w ∧
  (∀ q, q ≠ sp → fs run.2 !! q = fs w !! q) ∧
  (fs run.2 !! sp ≠ fs w !! sp →
   ∃ content storage storage',
     fs w !! sp = Some (File content) ∧
     JSON5_parse content = Some storage ∧
     push_profile storage pid name = Ok storage' ∧
     fs run.2 !! sp = Some (File (JSON_stringify storage'))).
Proof.
  intros sp run. unfold run. rewrite run_registerProfileInStorage. fold sp.
  destruct (fs w !! sp) as [[content|]|] eqn:Hsp; cbv beta match.
  - destruct (JSON5_parse content) as [storage|] eqn:Hparse; cbv beta match.
    + destruct (push_profile storage pid name) as [storage'|e] eqn:Hpush;
        cbv beta match; cbn [fst snd fs host with_fs record].
      * split; [done|]. split; [done|].
        split; [intros q Hq; by rewrite lookup_insert_ne|].
        intros _. exists content, storage, storage'.
        by rewrite lookup_insert_eq.
      * by repeat split.
    + cbn [fst snd fs host record]. by repeat split.
  - cbn [fst snd fs host record]. by repeat split.
  - cbn [fst snd fs host record]. by repeat split.
Qed.
End RegistrationMore.

Section RegistryFacts.
Context {num : Type} `{Number num} `{Json5 num} `{UriLib}.
Context {Host : Type} `{ExtensionHost Host}.
Implicit Types (w : World Host) (evs : list event).
Implicit Types (kvs : list (string * json num)).

Lemma assoc_set_prop_eq key (v : json num) kvs :
  assoc key (set_prop key v kvs) = Some v.
Proof.
  induction kvs as [|[k v'] kvs IH]; cbn [set_prop assoc].
  - by rewrite String.eqb_refl.
  - destruct (String.eqb key k) eqn:Hk; cbn [assoc]; by rewrite Hk.
Qed.

Lemma assoc_set_prop_ne key key' (v : json num) kvs :
  key' ≠ key → assoc key' (set_prop key v kvs) = assoc key' kvs.
Proof.
  intros Hne. induction kvs as [|[k v'] kvs IH]; cbn [set_prop assoc].
  - by apply String.eqb_neq in Hne as ->.
  - destruct (String.eqb key k) eqn:Hk; cbn [assoc].
    + apply String.eqb_eq in Hk as <-. by apply String.eqb_neq in Hne as ->.
    + by rewrite IH.
Qed.

(** X28: registration and detection agree.  Take a descriptor object that
    associates the workspace with profile id [pid] and whose registry is
    absent, falsy, or an array without an entry for [pid].  Registering
    [pid] under a non-empty name succeeds, appends the entry after the
    existing ones, leaves every other key of the descriptor alone, and any
    descriptor file that parses to the result makes the detector return
    [pid] with that name. *)
Theorem X28_registered_profile_is_detected_by_name
    env wf app kvs pid name registry :
  associated (JObj kvs) wf (JStr pid) →
  assoc "userDataProfiles" kvs = registry →
  (registry = None ∨ (∃ v, registry = Some v ∧ truthy v = false) ∨
   ∃ xs, registry = Some (JArr xs) ∧ Forall (other_location (JStr pid)) xs) →
  name ≠ "" →
  ∃ storage' before,
    push_profile (JObj kvs) pid name = Ok storage' ∧
    get_prop storage' "userDataProfiles" =
      Ok (Some (JArr (before ++ [profile_entry pid name]))) ∧
    (∀ xs, registry = Some (JArr xs) → before = xs) ∧
    (∀ key, key ≠ "userDataProfiles" →
            get_prop storage' key = get_prop (JObj kvs) key) ∧
    (∀ w content,
       fs w !! getStoragePath env app = Some (File content) →
       JSON5_parse content = Some storage' →
       (getActiveProfileInfo env wf app w).1 =
         Ok {| info_id := JStr pid; info_name := JStr name |}).
Proof.
  intros Hassoc Hreg Hcases Hname.
  set (entry := profile_entry pid name : json num).
  assert (Hpush : ∃ before,
    push_profile (JObj kvs) pid name =
      Ok (JObj (set_prop "userDataProfiles" (JArr (before ++ [entry])) kvs)) ∧
    Forall (other_location (JStr pid)) before ∧
    (∀ xs, registry = Some (JArr xs) → before = xs)).
  { unfold push_profile. fold entry. rewrite Hreg.
    destruct Hcases as [-> | [(v & -> & Hv) | (xs & -> & Hxs)]].
    - exists []. by repeat split.
    - exists []. split; [|split; [constructor | intros xs [= ->]; discriminate Hv]].
      destruct v; try done; cbn [truthy] in *; by rewrite ?Hv.
    - exists xs. split; [done|]. split; [done|]. by intros xs' [= ->]. }
  destruct Hpush as (before & Hpush & Hbefore & Hsame).
  set (storage' := JObj (set_prop "userDataProfiles" (JArr (before ++ [entry])) kvs)).
  assert (Hkeys : ∀ key, key ≠ "userDataProfiles" →
            get_prop storage' key = get_prop (JObj kvs) key).
  { intros key Hkey. cbn [get_prop storage']. by rewrite assoc_set_prop_ne. }
  assert (Hregistry : get_prop storage' "userDataProfiles" =
                      Ok (Some (JArr (before ++ [entry])))).
  { cbn [get_prop storage']. by rewrite assoc_set_prop_eq. }
  exists storage', before. split; [exact Hpush|]. split; [exact Hregistry|].
  split; [exact Hsame|]. split; [exact Hkeys|].
  intros w content Hfs Hparse.
  assert (Hassoc' : associated storage' wf (JStr pid)).
  { destruct Hassoc as (pa & ws & folder & others & Hpa & Hrest).
    exists pa, ws, folder, others. split; [|exact Hrest].
    by rewrite Hkeys. }
  rewrite run_getActiveProfileInfo. cbv zeta. rewrite Hfs, Hparse.
  rewrite (workspace_profile_associated storage' wf (JStr pid) Hassoc').
  unfold find_profile. rewrite Hregistry.
  rewrite (find_location_first_match (JStr pid) before entry [] (JStr pid));
    [| done | done | cbn; apply String.eqb_refl].
  unfold profile_name. cbn [opt_chain entry profile_entry get_prop assoc].
  cbn [String.eqb Ascii.eqb Bool.eqb andb truthy]. unfold str_truthy.
  by apply String.eqb_neq in Hname as ->.
Qed.

(** X29: registration refuses a malformed descriptor.  If the descriptor
    parses to [null] or to a primitive, or to an object whose registry is a
    truthy value other than an array, the file is left untouched and the
    only trace of the attempt is the read and one warning that ends in the
    text of the error. *)
Theorem X29_registration_skips_malformed_descriptor
    env pid name app w content (storage : json num) :
  fs w !! getStoragePath env app = Some (File content) →
  JSON5_parse content = Some storage →
  (match storage with
   | JNull | JBool _ | JNum _ | JStr _ => True
   | JArr _ => False
   | JObj kvs =>
       ∃ v, assoc "userDataProfiles" kvs = Some v ∧ truthy v = true ∧
            ∀ xs, v ≠ JArr xs
   end) →
  ∃ reason,
    registerProfileInStorage env pid name app w =
      (Ok (),
       record w [ReadFile (getStoragePath env app);
                 Log Warn ("Could not register profile in storage.json: " +:+
                           reason)]).
Proof.
  intros Hfs Hparse Hbad. exists (exn_message TypeError).
  rewrite run_registerProfileInStorage. cbv zeta. rewrite Hfs, Hparse.
  assert (Hpush : push_profile storage pid name = Throw TypeError).
  { destruct storage as [| | | | |kvs]; try done.
    destruct Hbad as (v & Hv & Ht & Hna). unfold push_profile. rewrite Hv.
    destruct v; try done; try (by rewrite Ht). by destruct (Hna xs). }
  by rewrite Hpush.
Qed.

(** A dismissed or empty name prompt cancels profile creation: the
    cancellation is logged and nothing else happens. *)
Lemma creation_cancelled_without_name
    env cfg user dialogs n random (profile : IProfile) w :
  opt_truthy (input_box dialogs "Enter name for the new profile") = false →
  createNewProfileFromSync env cfg user dialogs n random profile w =
    (Ok (), record w [Log Info "Profile creation cancelled by user"]).
Proof. intros Hname. unfold createNewProfileFromSync. by rewrite Hname. Qed.
End RegistryFacts.

Section CreationMore.
Context {num : Type} `{Number num} `{Json5 num} `{UriLib}.
Context {Host : Type} `{ExtensionHost Host}.
Implicit Types (w : World Host) (evs : list event).

Lemma string_app_eq_self s t : s +:+ t = s → t = "".
Proof.
  intros Heq. rewrite <- (string_app_nil_r s) in Heq at 2.
  by apply (inj (String.app s)) in Heq.
Qed.

Lemma separator_nonempty env t : separator env +:+ t ≠ "".
Proof. unfold separator. by destruct (is_win32 env). Qed.

(** A file directly under the new profile's directory is the locator's
    profile-scoped candidate for that profile id. *)
Lemma new_profile_file env app pid file :
  new_profile_dir env app pid +:+ separator env +:+ file =
  profile_path env app file (JStr pid : json num).
Proof.
  unfold new_profile_dir, profile_path. cbn [to_js_string].
  by rewrite <- !string_app_assoc.
Qed.

Lemma profile_file_not_dir env app pid file :
  new_profile_dir env app pid +:+ separator env +:+ file ≠
  new_profile_dir env app pid.
Proof.
  intros Heq. apply string_app_eq_self in Heq.
  by apply separator_nonempty in Heq.
Qed.

Lemma profile_files_differ env app pid :
  new_profile_dir env app pid +:+ separator env +:+ "keybindings.json" ≠
  new_profile_dir env app pid +:+ separator env +:+ "settings.json".
Proof.
  intros Heq. do 2 apply (inj (String.app _)) in Heq. discriminate Heq.
Qed.

Lemma profile_file_not_storage env app pid file :
  new_profile_dir env app pid +:+ separator env +:+ file ≠
  getStoragePath env app.
Proof.
  rewrite new_profile_file. unfold profile_path, getStoragePath.
  intros Heq. do 6 apply (inj (String.app _)) in Heq. discriminate Heq.
Qed.

Lemma string_length_app s t :
  String.length (s +:+ t) = String.length s + String.length t.
Proof.
  induction s as [|a s IH]; [done|].
  change (S (String.length (s +:+ t)) = S (String.length s + String.length t)).
  by rewrite IH.
Qed.

(** An ancestor is strictly shorter than the path. *)
Lemma parents_from_length env pre path a :
  a ∈ parents_from env pre path →
  String.length a < String.length pre + String.length path.
Proof.
  revert pre. induction path as [|c others IH]; intros pre Hin;
    cbn [parents_from] in Hin; [by apply elem_of_nil in Hin|].
  apply elem_of_app in Hin as [Hin|Hin].
  - destruct (is_separator env c && str_truthy pre);
      [|by apply elem_of_nil in Hin].
    apply list_elem_of_singleton in Hin as ->. cbn [String.length]. lia.
  - apply IH in Hin. rewrite string_length_app in Hin.
    cbn [String.length] in *. lia.
Qed.

Lemma not_among_dirs env dir t :
  t ≠ "" → dir +:+ t ∉ ancestors env dir ++ [dir].
Proof.
  intros Hne Hin. apply elem_of_app in Hin as [Hin|Hin].
  - apply parents_from_length in Hin. rewrite string_length_app in Hin.
    cbn [String.length] in Hin. lia.
  - apply list_elem_of_singleton in Hin. by apply string_app_eq_self in Hin.
Qed.

Lemma lookup_made_dirs (files : gmap string node) dirs q :
  q ∉ dirs →
  foldr (fun p files => <[p := Dir]> files) files dirs !! q = files !! q.
Proof.
  induction dirs as [|p dirs IH]; intros Hq; [done|].
  apply not_elem_of_cons in Hq as [Hne Hq].
  cbn [foldr]. by rewrite lookup_insert_ne, IH.
Qed.

Lemma run_createDirectory env path w :
  existsb (fun p => is_file (fs w !! p)) (ancestors env path ++ [path]) = false →
  createDirectory env path w =
    (Ok (),
     {| fs := foldr (fun p files => <[p := Dir]> files) (fs w)
                (ancestors env path ++ [path]);
        host := host w; trace := trace w |}).
Proof. intros Hfree. unfold createDirectory. cbv zeta. by rewrite Hfree. Qed.

Lemma writeConfigFile_ok path (data : json num) w :
  fs w !! path ≠ Some Dir →
  writeConfigFile path data w =
    (Ok (),
     with_fs w (<[path := File (written_text data)]> (fs w))
       [WriteFile path (written_text data);
        Log Info ("Configuration file updated: " +:+ path)]).
Proof.
  intros Hnd. rewrite run_writeConfigFile.
  by destruct (fs w !! path) as [[c|]|].
Qed.

Lemma installExtensions_frame cfg user remoteList w :
  ∃ r h evs, installExtensions cfg user remoteList w = (r, with_host w h evs).
Proof.
  set (toInstall := toInstall_of (installed_ids cfg (host w)) remoteList).
  set (toDelete := toDelete_of (installed_ids cfg (host w)) remoteList).
  destruct (decide (toInstall = [] ∧ toDelete = [])) as [[Hi Hd]|Hne].
  - unfold installExtensions. rewrite run_bind, run_getExtensions.
    cbv beta iota zeta. fold toInstall toDelete. rewrite Hi, Hd.
    by eexists _, (host w), _.
  - assert (Hdelta : toInstall ≠ [] ∨ toDelete ≠ []).
    { destruct (decide (toInstall = [])) as [Hi|Hi]; [|by left].
      right. intros Hd. by apply Hne. }
    destruct (decide (proceeds cfg user toInstall toDelete)) as [Hgo|Hstop].
    + destruct (run_installExtensions_go cfg user remoteList w Hdelta Hgo)
        as (evs & _ & _ & _ & _ & ->).
      destruct (existsb id _);
        [destruct (bool_decide (answer_reload user reload_message = Some "Reload"))|];
        by eexists _, _, _.
    + assert (Hon : default true (confirmBeforeSync cfg) = true).
      { destruct (default true (confirmBeforeSync cfg)) eqn:Hd; [done|].
        destruct Hstop. by left. }
      assert (Hno : answer_warning user (warning_message toInstall toDelete)
                    ≠ Some "Yes").
      { intros Hyes. apply Hstop. by right. }
      apply delta_nonempty in Hdelta.
      unfold installExtensions. rewrite run_bind, run_getExtensions.
      cbv beta iota zeta. fold toInstall toDelete in Hdelta |- *. rewrite Hdelta.
      rewrite run_bind, run_confirm, Hon.
      destruct (bool_decide (answer_warning user _ = Some "Show Details")).
      * by eexists _, (host w), _.
      * rewrite bool_decide_eq_false_2 by done. by eexists _, (host w), _.
Qed.

Lemma registerProfileInStorage_frame env pid name app w :
  ∃ evs files,
    registerProfileInStorage env pid name app w = (Ok (), with_fs w files evs) ∧
    ∀ q, q ≠ getStoragePath env app → files !! q = fs w !! q.
Proof.
  rewrite run_registerProfileInStorage. cbv zeta.
  destruct (fs w !! getStoragePath env app) as [[content|]|];
    [|by eexists _, (fs w)..].
  destruct (JSON5_parse content) as [storage|]; [|by eexists _, (fs w)].
  destruct (push_profile storage pid name) as [storage'|e];
    [|by eexists _, (fs w)].
  eexists _, _. split; [reflexivity|]. intros q Hq. by rewrite lookup_insert_ne.
Qed.

(** X30: creation and lookup agree.  Given a name, [Math.random] results in
    [0, 1), no regular file at the new directory's path or at any of its
    ancestors, and no directory in the way of the two files,
    [createNewProfileFromSync] leaves - whether or not the later steps
    succeed - a settings and a keybindings file holding the snapshot's
    content at exactly the profile-scoped paths of the generated id, so that
    the locator, asked for that id under the same application name, returns
    them at its first probe. *)
Theorem X30_created_profile_is_found_by_locator
    env cfg user dialogs n random (profile : IProfile) w :
  let pid := generateProfileId random in
  let app := create_appName n in
  let dir := new_profile_dir env app pid in
  let sp := profile_path env app "settings.json" (JStr pid : json num) in
  let kp := profile_path env app "keybindings.json" (JStr pid : json num) in
  let run := createNewProfileFromSync env cfg user dialogs n random profile w in
  opt_truthy (input_box dialogs "Enter name for the new profile") = true →
  (∀ i, i < 8 → (0 <= random i)%Q ∧ (random i < 1)%Q) →
  existsb (fun p => is_file (fs w !! p)) (ancestors env dir ++ [dir]) = false →
  fs w !! sp ≠ Some Dir →
  fs w !! kp ≠ Some Dir →
  fs run.2 !! sp = Some (File (written_text (settings profile))) ∧
  fs run.2 !! kp = Some (File (written_text (keybindings profile))) ∧
  fs run.2 !! dir = Some Dir ∧
  (findConfigFile env app "settings.json" (JStr pid : json num) run.2).1 =
    Ok (fsPath sp) ∧
  (findConfigFile env app "keybindings.json" (JStr pid : json num) run.2).1 =
    Ok (fsPath kp).
Proof.
  intros pid app dir sp kp run Hname Hrandom Hdir Hsp Hkp.
  set (ts := written_text (settings profile)).
  set (tk := written_text (keybindings profile)).
  assert (Esp : dir +:+ separator env +:+ "settings.json" = sp)
    by apply new_profile_file.
  assert (Ekp : dir +:+ separator env +:+ "keybindings.json" = kp)
    by apply new_profile_file.
  assert (Hsd : sp ∉ ancestors env dir ++ [dir]).
  { rewrite <- Esp. apply not_among_dirs, separator_nonempty. }
  assert (Hkd : kp ∉ ancestors env dir ++ [dir]).
  { rewrite <- Ekp. apply not_among_dirs, separator_nonempty. }
  assert (Hks : kp ≠ sp) by (rewrite <- Esp, <- Ekp; apply profile_files_differ).
  assert (Hss : sp ≠ getStoragePath env app)
    by (rewrite <- Esp; apply profile_file_not_storage).
  assert (Hkst : kp ≠ getStoragePath env app)
    by (rewrite <- Ekp; apply profile_file_not_storage).
  assert (Hds : dir ≠ sp).
  { intros Heq. apply Hsd. rewrite <- Heq. apply elem_of_app. right. by left. }
  assert (Hdk : dir ≠ kp).
  { intros Heq. apply Hkd. rewrite <- Heq. apply elem_of_app. right. by left. }
  assert (Hdst : dir ≠ getStoragePath env app).
  { unfold dir, new_profile_dir, getStoragePath.
    intros Heq. do 6 apply (inj (String.app _)) in Heq. discriminate Heq. }
  (* the file system right after the directory was made and the two writes *)
  set (made := foldr (fun p files => <[p := Dir]> files) (fs w)
                 (ancestors env dir ++ [dir])).
  assert (Hmade : made !! dir = Some Dir).
  { unfold made. rewrite foldr_app. cbn [foldr].
    generalize (ancestors env dir). intros l.
    induction l as [|p l IH]; cbn [foldr]; [by rewrite lookup_insert_eq|].
    destruct (decide (p = dir)) as [->|Hne];
      [by rewrite lookup_insert_eq | by rewrite lookup_insert_ne]. }
  set (files := <[kp := File tk]> (<[sp := File ts]> made)).
  assert (Hfs : fs run.2 !! sp = files !! sp ∧ fs run.2 !! kp = files !! kp ∧
                fs run.2 !! dir = files !! dir).
  { unfold run, createNewProfileFromSync. rewrite Hname. cbn [negb].
    cbv zeta. fold pid app dir. rewrite Esp, Ekp.
    unfold try_catch. rewrite run_bind, (run_createDirectory env dir w Hdir).
    cbv beta match. fold made.
    rewrite run_bind, (writeConfigFile_ok sp); fold ts.
    2:{ cbn [fs]. unfold made. by rewrite lookup_made_dirs. }
    cbv beta match.
    rewrite run_bind, (writeConfigFile_ok kp); fold tk.
    2:{ cbn [fs with_fs]. rewrite lookup_insert_ne by done.
        unfold made. by rewrite lookup_made_dirs. }
    cbv beta match. cbn [fs with_fs]. fold files.
    rewrite run_bind.
    match goal with
    | |- context [installExtensions cfg user ?l ?w3] =>
        destruct (installExtensions_frame cfg user l w3) as (r & h & evs & ->)
    end.
    destruct r as [[]|e]; cbv beta match.
    - rewrite run_bind.
      match goal with
      | |- context [registerProfileInStorage env ?a ?b ?c ?w4] =>
          destruct (registerProfileInStorage_frame env a b c w4)
            as (evs' & files' & -> & Hother)
      end.
      cbv beta match. rewrite run_bind, run_log, run_emit.
      cbn [snd fs record with_fs with_host] in *.
      fold app in Hother. by rewrite !Hother.
    - rewrite run_bind, run_log. done. }
  destruct Hfs as (Hfsp & Hfkp & Hfd).
  assert (Hs : fs run.2 !! sp = Some (File ts)).
  { rewrite Hfsp. unfold files.
    by rewrite lookup_insert_ne, lookup_insert_eq. }
  assert (Hk : fs run.2 !! kp = Some (File tk)).
  { rewrite Hfkp. unfold files. by rewrite lookup_insert_eq. }
  split; [exact Hs|]. split; [exact Hk|].
  split.
  { rewrite Hfd. unfold files. by rewrite !lookup_insert_ne. }
  destruct (generateProfileId_valid random Hrandom) as [Hne Hdef].
  fold pid in Hne, Hdef.
  split.
  - unfold findConfigFile. cbv zeta.
    rewrite (getConfigPaths_profile env app "settings.json" pid Hne Hdef).
    fold sp. erewrite (run_find_first_found _ _ _ 0 sp); [done|].
    cbn [list_find]. rewrite decide_True; [done|]. unfold present. by rewrite Hs.
  - unfold findConfigFile. cbv zeta.
    rewrite (getConfigPaths_profile env app "keybindings.json" pid Hne Hdef).
    fold kp. erewrite (run_find_first_found _ _ _ 0 kp); [done|].
    cbn [list_find]. rewrite decide_True; [done|]. unfold present. by rewrite Hk.
Qed.
End CreationMore.

(** ** Concrete instances of the properties above *)

Lemma X7_reader_uses_first_existing_candidate_witness :
  let w := Demo.world Scenario.home_files [] [] in
  let self := Scenario.self0 in
  let paths := getConfigPaths Demo.linux (appName self)
                 (kind_name settings_file +:+ ".json") (activeProfileId self) in
  opt_truthy (globalState self !! manual_key settings_file) = false ∧
  list_find (present w) paths = Some (0, Scenario.settings_path) ∧
  ∃ evs,
    readConfigFile Demo.linux self settings_file w =
      (Ok (Some (JObj [])),
       record w (evs ++ [ReadFile (fsPath Scenario.settings_path)])) ∧
    stats evs = take 1 paths.
Proof.
  intros w self paths.
  assert (H1 : opt_truthy (globalState self !! manual_key settings_file) = false)
    by (vm_compute; reflexivity).
  assert (H2 : list_find (present w) paths = Some (0, Scenario.settings_path))
    by (vm_compute; reflexivity).
  assert (H3 : fs w !! fsPath Scenario.settings_path = Some (File "{}"))
    by (vm_compute; reflexivity).
  split; [exact H1|]. split; [exact H2|].
  exact (X7_reader_uses_first_existing_candidate Demo.linux self settings_file w
           0 Scenario.settings_path "{}" (JObj []) H1 H2 H3 eq_refl).
Defined.

Lemma X8_stale_manual_path_is_not_rescued_witness :
  let w := Demo.world Scenario.home_files [] [] in
  let self := Demo.instance (JStr default_profile)
                {[ "manualSettingsPath" := "/data/gone.json" ]} in
  globalState self !! manual_key settings_file = Some "/data/gone.json" ∧
  present w Scenario.settings_path ∧
  fs w !! "/data/gone.json" = None ∧
  readConfigFile Demo.linux self settings_file w =
    (Ok None,
     record w [ReadFile "/data/gone.json";
               Log Error ("Failed to read " +:+ kind_name settings_file +:+
                          " file: " +:+ "/data/gone.json")]).
Proof.
  intros w self.
  assert (H1 : globalState self !! manual_key settings_file = Some "/data/gone.json")
    by (vm_compute; reflexivity).
  assert (H2 : "/data/gone.json" ≠ "") by discriminate.
  assert (H3 : fs w !! "/data/gone.json" = None) by (vm_compute; reflexivity).
  split; [exact H1|].
  split; [exists (File "{}"); vm_compute; reflexivity|].
  split; [exact H3|].
  exact (X8_stale_manual_path_is_not_rescued Demo.linux self settings_file w
           "/data/gone.json" H1 H2 H3).
Defined.

Lemma X9_write_then_read_back_witness :
  let w := Demo.world Scenario.home_files [] [] in
  let self := Scenario.self0 in
  let p := Scenario.settings_path in
  let data : json Z := JStr "[]" in
  let paths := getConfigPaths Demo.linux (appName self) "settings.json"
                 (activeProfileId self) in
  opt_truthy (globalState self !! manual_key settings_file) = false ∧
  list_find (present w) paths = Some (0, p) ∧
  fs w !! fsPath p = Some (File "{}") ∧
  ∃ w1 w2,
    (findConfigFile Demo.linux (appName self) "settings.json"
       (activeProfileId self) w).1 = Ok (fsPath p) ∧
    writeConfigFile (fsPath p) data w = (Ok (), w1) ∧
    readConfigFile Demo.linux self settings_file w1 =
      (Ok (JSON5_parse "[]"), w2) ∧
    fs w2 = <[fsPath p := File (written_text data)]> (fs w) ∧
    host w2 = host w.
Proof.
  intros w self p data paths.
  assert (H1 : opt_truthy (globalState self !! manual_key settings_file) = false)
    by (vm_compute; reflexivity).
  assert (H2 : list_find (present w) paths = Some (0, p))
    by (vm_compute; reflexivity).
  assert (H3 : fs w !! fsPath p = Some (File "{}")) by (vm_compute; reflexivity).
  split; [exact H1|]. split; [exact H2|]. split; [exact H3|].
  exact (X9_write_then_read_back Demo.linux self settings_file w 0 p "{}" data
           H1 H2 H3).
Defined.

Lemma X10_write_to_directory_fails_witness :
  let w := Demo.world {[ "/home/u/.config" := Dir ]} [] [] in
  let data : json Z := JObj [] in
  fs w !! "/home/u/.config" = Some Dir ∧
  writeConfigFile "/home/u/.config" data w =
    (Throw (IOError "/home/u/.config"),
     record w [WriteFile "/home/u/.config" (written_text data);
               Log Error ("Failed to write settings file: " +:+ "/home/u/.config")]).
Proof.
  intros w data.
  assert (H1 : fs w !! "/home/u/.config" = Some Dir) by (vm_compute; reflexivity).
  split; [exact H1|].
  exact (X10_write_to_directory_fails "/home/u/.config" data w H1).
Defined.

Lemma X11_settings_written_before_keybindings_fail_witness :
  let w := Demo.world {[ Scenario.settings_path := File "{}" ]} [] [] in
  let self := Scenario.self0 in
  let profile := Scenario.profile0 in
  let cfg := Demo.config [] true in
  let user := Demo.always (Some "Yes") in
  let ps := Scenario.settings_path in
  list_find (present w)
    (getConfigPaths Demo.linux (appName self) "settings.json" (activeProfileId self))
    = Some (0, ps) ∧
  fs w !! fsPath ps ≠ Some Dir ∧
  ∃ evs,
    updateLocalProfile Demo.linux cfg user self profile w =
      (Throw (not_found "keybindings.json"),
       with_fs w (<[fsPath ps := File (written_text (settings profile))]> (fs w))
         evs) ∧
    writes evs = [(fsPath ps, written_text (settings profile))] ∧
    actions evs = [].
Proof.
  intros w self profile cfg user ps.
  assert (H1 : list_find (present w)
            (getConfigPaths Demo.linux (appName self) "settings.json"
               (activeProfileId self)) = Some (0, ps))
    by (vm_compute; reflexivity).
  assert (H2 : fs w !! fsPath ps ≠ Some Dir)
    by (intros Hd; vm_compute in Hd; discriminate Hd).
  assert (H3 : ∀ q, q ∈ getConfigPaths Demo.linux (appName self)
                          "keybindings.json" (activeProfileId self) →
                    q ≠ fsPath ps ∧ fs w !! q = None).
  { intros q Hq. vm_compute in Hq.
    repeat (apply elem_of_cons in Hq as [->|Hq];
            [split; [discriminate | vm_compute; reflexivity]|]).
    by apply elem_of_nil in Hq. }
  split; [exact H1|]. split; [exact H2|].
  exact (X11_settings_written_before_keybindings_fail Demo.linux cfg user self
           profile w 0 ps H1 H2 H3).
Defined.

Lemma X12_settings_candidate_is_directory_witness :
  let w := Demo.world {[ Scenario.settings_path := Dir;
                         Scenario.keybindings_path := File "[]" ]} [] [] in
  let self := Scenario.self0 in
  let profile := Scenario.profile0 in
  let cfg := Demo.config [] true in
  let user := Demo.always (Some "Yes") in
  let ps := Scenario.settings_path in
  list_find (present w)
    (getConfigPaths Demo.linux (appName self) "settings.json" (activeProfileId self))
    = Some (0, ps) ∧
  fs w !! fsPath ps = Some Dir ∧
  ∃ evs,
    updateLocalProfile Demo.linux cfg user self profile w =
      (Throw (IOError (fsPath ps)), record w evs) ∧
    stats evs =
      take 1 (getConfigPaths Demo.linux (appName self) "settings.json"
                (activeProfileId self)) ∧
    actions evs = [].
Proof.
  intros w self profile cfg user ps.
  assert (H1 : list_find (present w)
            (getConfigPaths Demo.linux (appName self) "settings.json"
               (activeProfileId self)) = Some (0, ps))
    by (vm_compute; reflexivity).
  assert (H2 : fs w !! fsPath ps = Some Dir) by (vm_compute; reflexivity).
  split; [exact H1|]. split; [exact H2|].
  exact (X12_settings_candidate_is_directory Demo.linux cfg user self profile w
           0 ps H1 H2).
Defined.

Lemma X13_both_files_written_then_reconcile_witness :
  let w := Demo.world Scenario.home_files ["A"; "B"] [] in
  let self := Scenario.self0 in
  let profile := Scenario.profile0 in
  let cfg := Demo.config [] false in
  let user := Demo.always None in
  let ps := Scenario.settings_path in
  let pk := Scenario.keybindings_path in
  list_find (present w)
    (getConfigPaths Demo.linux (appName self) "settings.json" (activeProfileId self))
    = Some (0, ps) ∧
  list_find (present w)
    (getConfigPaths Demo.linux (appName self) "keybindings.json" (activeProfileId self))
    = Some (0, pk) ∧
  ∃ evs,
    updateLocalProfile Demo.linux cfg user self profile w =
      installExtensions cfg user (extensions profile)
        (with_fs w
           (<[fsPath pk := File (written_text (keybindings profile))]>
              (<[fsPath ps := File (written_text (settings profile))]> (fs w)))
           evs) ∧
    writes evs = [(fsPath ps, written_text (settings profile));
                  (fsPath pk, written_text (keybindings profile))] ∧
    actions evs = [].
Proof.
  intros w self profile cfg user ps pk.
  assert (H1 : list_find (present w)
            (getConfigPaths Demo.linux (appName self) "settings.json"
               (activeProfileId self)) = Some (0, ps))
    by (vm_compute; reflexivity).
  assert (H2 : list_find (present w)
            (getConfigPaths Demo.linux (appName self) "keybindings.json"
               (activeProfileId self)) = Some (0, pk))
    by (vm_compute; reflexivity).
  assert (H3 : fs w !! fsPath ps = Some (File "{}")) by (vm_compute; reflexivity).
  assert (H4 : fs w !! fsPath pk = Some (File "[]")) by (vm_compute; reflexivity).
  split; [exact H1|]. split; [exact H2|].
  exact (X13_both_files_written_then_reconcile Demo.linux cfg user self profile w
           0 ps 0 pk "{}" "[]" H1 H2 H3 H4).
Defined.

Lemma X14_reload_is_offered_never_forced_witness :
  let w := Demo.world ∅ ["A"; "B"] [] in
  let cfg := Demo.config [] false in
  let user := Demo.always None in
  let remoteList := ["B"; "C"] in
  let localList := installed_ids cfg (host w) in
  let toInstall := toInstall_of localList remoteList in
  let toDelete := toDelete_of localList remoteList in
  let cmds := batch_commands toInstall toDelete in
  let oks := (outcomes (host w) cmds).1 in
  (toInstall ≠ [] ∨ toDelete ≠ []) ∧
  proceeds cfg user toInstall toDelete ∧
  ∃ h' evs,
    (installExtensions cfg user remoteList w).2 = with_host w h' evs ∧
    shown evs = (if existsb id oks then [reload_message] else []) ∧
    actions evs =
      cmds ++ (if existsb id oks &&
                  bool_decide (answer_reload user reload_message = Some "Reload")
               then [(reload_command, [])] else []).
Proof.
  intros w cfg user remoteList localList toInstall toDelete cmds oks.
  assert (H1 : toInstall ≠ [] ∨ toDelete ≠ [])
    by (left; intros Hn; vm_compute in Hn; discriminate Hn).
  assert (H2 : proceeds cfg user toInstall toDelete) by (left; reflexivity).
  split; [exact H1|]. split; [exact H2|].
  exact (X14_reload_is_offered_never_forced cfg user remoteList w H1 H2).
Defined.

Lemma X15_confirmation_follows_setting_witness :
  let w := Demo.world ∅ ["A"; "B"] [] in
  let cfg := {| excludeExtensions := None; confirmBeforeSync := None |} in
  let user := Demo.always (Some "Cancel") in
  let remoteList := ["B"; "C"] in
  let localList := installed_ids cfg (host w) in
  let toInstall := toInstall_of localList remoteList in
  let toDelete := toDelete_of localList remoteList in
  (toInstall ≠ [] ∨ toDelete ≠ []) ∧
  ∃ h' evs,
    (installExtensions cfg user remoteList w).2 = with_host w h' evs ∧
    warnings evs =
      match confirmBeforeSync cfg with
      | Some false => []
      | _ => [warning_message toInstall toDelete]
      end.
Proof.
  intros w cfg user remoteList localList toInstall toDelete.
  assert (H1 : toInstall ≠ [] ∨ toDelete ≠ [])
    by (left; intros Hn; vm_compute in Hn; discriminate Hn).
  split; [exact H1|].
  exact (X15_confirmation_follows_setting cfg user remoteList w H1).
Defined.

Lemma X18_no_action_twice_witness :
  let w := Demo.world ∅ ["A"; "B"] [] in
  let cfg := Demo.config [] true in
  let user := Demo.always (Some "Yes") in
  let remoteList := ["B"; "C"; "D"] in
  NoDup (map ext_id (all_extensions (host w))) ∧ NoDup remoteList ∧
  ∃ h' evs,
    (installExtensions cfg user remoteList w).2 = with_host w h' evs ∧
    NoDup (actions evs).
Proof.
  intros w cfg user remoteList.
  assert (H1 : NoDup (map ext_id (all_extensions (host w))))
    by (apply (bool_decide_unpack _); vm_compute; exact I).
  assert (H2 : NoDup remoteList)
    by (apply (bool_decide_unpack _); vm_compute; exact I).
  split; [exact H1|]. split; [exact H2|].
  exact (X18_no_action_twice cfg user remoteList w H1 H2).
Defined.

Lemma X19_one_report_before_each_command_witness :
  let w := Demo.world ∅ ["A"; "B"] ["C"] in
  let cfg := Demo.config [] true in
  let user := Demo.always (Some "Yes") in
  let remoteList := ["B"; "C"; "D"] in
  let localList := installed_ids cfg (host w) in
  let toInstall := toInstall_of localList remoteList in
  let toDelete := toDelete_of localList remoteList in
  let total := length toInstall + length toDelete in
  (toInstall ≠ [] ∨ toDelete ≠ []) ∧
  proceeds cfg user toInstall toDelete ∧
  ∃ h' evs tail,
    (installExtensions cfg user remoteList w).2 = with_host w h' evs ∧
    steps evs = flat_map uninstall_steps toDelete ++
                flat_map install_steps toInstall ++ tail ∧
    (tail = [] ∨ tail = [inr (reload_command, [])]) ∧
    length (increments evs) = total ∧
    (∃ q, last (increments evs) = Some q ∧ (q == 100)%Q).
Proof.
  intros w cfg user remoteList localList toInstall toDelete total.
  assert (H1 : toInstall ≠ [] ∨ toDelete ≠ [])
    by (left; intros Hn; vm_compute in Hn; discriminate Hn).
  assert (H2 : proceeds cfg user toInstall toDelete) by (right; reflexivity).
  split; [exact H1|]. split; [exact H2|].
  exact (X19_one_report_before_each_command cfg user remoteList w H1 H2).
Defined.

Lemma X20_capture_ignores_cached_profile_witness :
  let w := Demo.world Scenario.home_files ["A"] [] in
  let cfg := Demo.config [] true in
  let self1 := Demo.instance JNull ∅ in
  let self2 := Demo.instance (JStr "stale-id") ∅ in
  appName self1 = appName self2 ∧
  globalState self1 = globalState self2 ∧
  getActiveProfile Demo.linux None cfg self1 w =
    getActiveProfile Demo.linux None cfg self2 w ∧
  ∃ self' snap evs,
    getActiveProfile Demo.linux None cfg self1 w =
      (Ok (self', snap), record w evs) ∧
    writes evs = [] ∧ actions evs = [] ∧
    sourceProfileId snap = activeProfileId self' ∧
    (getActiveProfileInfo Demo.linux None (appName self1) w).1 =
      Ok {| info_id := activeProfileId self';
            info_name := activeProfileName self' |}.
Proof.
  intros w cfg self1 self2.
  assert (H1 : appName self1 = appName self2) by reflexivity.
  assert (H2 : globalState self1 = globalState self2) by reflexivity.
  split; [exact H1|]. split; [exact H2|].
  exact (X20_capture_ignores_cached_profile Demo.linux None cfg self1 self2 w
           H1 H2).
Defined.

Lemma X22_initialize_without_picker_witness :
  let w := Demo.world Scenario.home_files [] [] in
  let dialogs := Scenario.answers None None in
  let n := "Visual Studio Code" in
  let app := initialize_appName n in
  let info : ProfileInfo (num := Z) := default_info in
  let evs0 := [Stat Scenario.storage_path] in
  getActiveProfileInfo Demo.linux None app w = (Ok info, record w evs0) ∧
  locatable Demo.linux app (info_id info) w ∧
  ∃ evs,
    initialize Demo.linux None dialogs n ∅ w =
      (Ok (Some {| appName := app; activeProfileId := info_id info;
                   activeProfileName := info_name info; globalState := ∅ |}),
       record w evs) ∧
    writes evs = [] ∧ actions evs = [] ∧
    ∀ dialogs',
      initialize Demo.linux None dialogs' n ∅ w =
      initialize Demo.linux None dialogs n ∅ w.
Proof.
  intros w dialogs n app info evs0.
  assert (H1 : getActiveProfileInfo Demo.linux None app w =
               (Ok info, record w evs0)) by (vm_compute; reflexivity).
  assert (H2 : locatable Demo.linux app (info_id info) w).
  { split.
    - exists (0, Scenario.settings_path). vm_compute; reflexivity.
    - exists (0, Scenario.keybindings_path). vm_compute; reflexivity. }
  split; [exact H1|]. split; [exact H2|].
  exact (X22_initialize_without_picker Demo.linux None dialogs n ∅ w info evs0
           H1 H2).
Defined.

Lemma X23_initialize_stores_picked_paths_witness :
  let w := Demo.world {[ "/data/s.json" := File "{}";
                         "/data/k.json" := File "[]" ]} [] [] in
  let dialogs :=
    {| open_dialog := fun title =>
         if String.eqb title settings_title then Some ["/data/s.json"]
         else Some ["/data/k.json"];
       input_box := fun _ => None |} in
  let n := "Cursor" in
  let app := initialize_appName n in
  let info : ProfileInfo (num := Z) := default_info in
  let evs0 := [Stat "/home/u/.config/Cursor/User/globalStorage/storage.json"] in
  getActiveProfileInfo Demo.linux None app w = (Ok info, record w evs0) ∧
  ¬ locatable Demo.linux app (info_id info) w ∧
  picked (open_dialog dialogs settings_title) = Some "/data/s.json" ∧
  picked (open_dialog dialogs keybindings_title) = Some "/data/k.json" ∧
  ∃ instance evs,
    initialize Demo.linux None dialogs n ∅ w = (Ok (Some instance), record w evs) ∧
    appName instance = app ∧
    activeProfileId instance = info_id info ∧
    globalState instance !! "manualSettingsPath" = Some "/data/s.json" ∧
    globalState instance !! "manualKeybindingsPath" = Some "/data/k.json" ∧
    (∀ key, key ≠ "manualSettingsPath" → key ≠ "manualKeybindingsPath" →
            globalState instance !! key = (∅ : gmap string string) !! key) ∧
    writes evs = [] ∧ actions evs = [].
Proof.
  intros w dialogs n app info evs0.
  assert (H1 : getActiveProfileInfo Demo.linux None app w =
               (Ok info, record w evs0)) by (vm_compute; reflexivity).
  assert (H2 : ¬ locatable Demo.linux app (info_id info) w)
    by (intros [[x Hx] _]; vm_compute in Hx; discriminate Hx).
  assert (H3 : picked (open_dialog dialogs settings_title) = Some "/data/s.json")
    by reflexivity.
  assert (H4 : picked (open_dialog dialogs keybindings_title) = Some "/data/k.json")
    by reflexivity.
  split; [exact H1|]. split; [exact H2|]. split; [exact H3|]. split; [exact H4|].
  exact (X23_initialize_stores_picked_paths Demo.linux None dialogs n ∅ w info
           evs0 "/data/s.json" "/data/k.json" H1 H2 H3 H4).
Defined.

Lemma X24_initialize_gives_up_without_files_witness :
  let w := Demo.world ∅ [] [] in
  let dialogs := Scenario.answers None None in
  let n := "Cursor" in
  let app := initialize_appName n in
  let info : ProfileInfo (num := Z) := default_info in
  let evs0 := [Stat "/home/u/.config/Cursor/User/globalStorage/storage.json"] in
  getActiveProfileInfo Demo.linux None app w = (Ok info, record w evs0) ∧
  ¬ locatable Demo.linux app (info_id info) w ∧
  ∃ evs,
    initialize Demo.linux None dialogs n ∅ w = (Ok None, record w evs) ∧
    writes evs = [] ∧ actions evs = [].
Proof.
  intros w dialogs n app info evs0.
  assert (H1 : getActiveProfileInfo Demo.linux None app w =
               (Ok info, record w evs0)) by (vm_compute; reflexivity).
  assert (H2 : ¬ locatable Demo.linux app (info_id info) w)
    by (intros [[x Hx] _]; vm_compute in Hx; discriminate Hx).
  assert (H3 : picked (open_dialog dialogs settings_title) = None ∨
               picked (open_dialog dialogs keybindings_title) = None)
    by (left; reflexivity).
  split; [exact H1|]. split; [exact H2|].
  exact (X24_initialize_gives_up_without_files Demo.linux None dialogs n ∅ w
           info evs0 H1 H2 H3).
Defined.

Lemma X25_picked_files_are_captured_witness :
  let w := Demo.world {[ "/data/s.json" := File "{}";
                         "/data/k.json" := File "[]" ]} ["A"] [] in
  let dialogs :=
    {| open_dialog := fun title =>
         if String.eqb title settings_title then Some ["/data/s.json"]
         else Some ["/data/k.json"];
       input_box := fun _ => None |} in
  let cfg := Demo.config [] true in
  let n := "Cursor" in
  let app := initialize_appName n in
  let info : ProfileInfo (num := Z) := default_info in
  let evs0 := [Stat "/home/u/.config/Cursor/User/globalStorage/storage.json"] in
  getActiveProfileInfo Demo.linux None app w = (Ok info, record w evs0) ∧
  ¬ locatable Demo.linux app (info_id info) w ∧
  ∃ instance w1 instance' snap w2,
    initialize Demo.linux None dialogs n ∅ w = (Ok (Some instance), w1) ∧
    getActiveProfile Demo.linux None cfg instance w1 = (Ok (instance', snap), w2) ∧
    snap_settings snap = Some (JObj []) ∧
    snap_keybindings snap = Some (JArr []) ∧
    fs w2 = fs w ∧ host w2 = host w.
Proof.
  intros w dialogs cfg n app info evs0.
  assert (H1 : getActiveProfileInfo Demo.linux None app w =
               (Ok info, record w evs0)) by (vm_compute; reflexivity).
  assert (H2 : ¬ locatable Demo.linux app (info_id info) w)
    by (intros [[x Hx] _]; vm_compute in Hx; discriminate Hx).
  assert (H3 : fs w !! "/data/s.json" = Some (File "{}")) by (vm_compute; reflexivity).
  assert (H4 : fs w !! "/data/k.json" = Some (File "[]")) by (vm_compute; reflexivity).
  split; [exact H1|]. split; [exact H2|].
  refine (X25_picked_files_are_captured Demo.linux None cfg dialogs n ∅ w info
            evs0 "/data/s.json" "/data/k.json" "{}" "[]" (JObj []) (JArr [])
            H1 H2 eq_refl _ eq_refl _ H3 eq_refl H4 eq_refl); discriminate.
Defined.

Lemma X28_registered_profile_is_detected_by_name_witness :
  let kvs : list (string * json Z) :=
    [("profileAssociations", Scenario.association)] in
  associated (JObj kvs) Scenario.workspace (JStr "abc123") ∧
  ∃ storage' before,
    push_profile (JObj kvs) "abc123" "Work" = Ok storage' ∧
    get_prop storage' "userDataProfiles" =
      Ok (Some (JArr (before ++ [profile_entry "abc123" "Work"]))) ∧
    (∀ xs, (None : jsval) = Some (JArr xs) → before = xs) ∧
    (∀ key, key ≠ "userDataProfiles" →
            get_prop storage' key = get_prop (JObj kvs) key) ∧
    (∀ (w : World Demo.sim_host) content,
       fs w !! getStoragePath Demo.linux "Code" = Some (File content) →
       JSON5_parse content = Some storage' →
       (getActiveProfileInfo Demo.linux Scenario.workspace "Code" w).1 =
         Ok {| info_id := JStr "abc123"; info_name := JStr "Work" |}).
Proof.
  intros kvs.
  assert (H1 : associated (JObj kvs) Scenario.workspace (JStr "abc123")).
  { exists Scenario.association, (JObj [("file:///w", JStr "abc123")]),
      {| scheme := "file"; rest := "///w" |}, [].
    repeat split; try reflexivity. discriminate. }
  assert (H2 : ("Work" : string) ≠ "") by discriminate.
  split; [exact H1|].
  exact (X28_registered_profile_is_detected_by_name Demo.linux Scenario.workspace
           "Code" kvs "abc123" "Work" None H1 eq_refl (or_introl eq_refl) H2).
Defined.

Lemma X29_registration_skips_malformed_descriptor_witness :
  let w := Demo.world {[ Scenario.storage_path := File "null" ]} [] [] in
  fs w !! getStoragePath Demo.linux "Code" = Some (File "null") ∧
  JSON5_parse "null" = Some (JNull : json Z) ∧
  ∃ reason,
    registerProfileInStorage Demo.linux "abc123" "Work" "Code" w =
      (Ok (),
       record w [ReadFile (getStoragePath Demo.linux "Code");
                 Log Warn ("Could not register profile in storage.json: " +:+
                           reason)]).
Proof.
  intros w.
  assert (H1 : fs w !! getStoragePath Demo.linux "Code" = Some (File "null"))
    by (vm_compute; reflexivity).
  assert (H2 : JSON5_parse "null" = Some (JNull : json Z)) by reflexivity.
  split; [exact H1|]. split; [exact H2|].
  exact (X29_registration_skips_malformed_descriptor Demo.linux "abc123" "Work"
           "Code" w "null" JNull H1 H2 I).
Defined.

Lemma X30_created_profile_is_found_by_locator_witness :
  let w := Demo.world {[ Scenario.storage_path := File "{}";
                         "/home/u/.config" := Dir ]} ["A"] [] in
  let cfg := Demo.config [] false in
  let user := Demo.always None in
  let dialogs := Scenario.answers None (Some "Work") in
  let n := "Visual Studio Code" in
  let random := Scenario.eighths in
  let profile := Scenario.profile0 in
  let pid := generateProfileId random in
  let app := create_appName n in
  let dir := new_profile_dir Demo.linux app pid in
  let sp := profile_path Demo.linux app "settings.json" (JStr pid : json Z) in
  let kp := profile_path Demo.linux app "keybindings.json" (JStr pid : json Z) in
  let run := createNewProfileFromSync Demo.linux cfg user dialogs n random profile w in
  pid = "02468ace" ∧
  ancestors Demo.linux dir =
    ["/home"; "/home/u"; "/home/u/.config"; "/home/u/.config/Code";
     "/home/u/.config/Code/User"; "/home/u/.config/Code/User/profiles"] ∧
  opt_truthy (input_box dialogs "Enter name for the new profile") = true ∧
  (∀ i, i < 8 → (0 <= random i)%Q ∧ (random i < 1)%Q) ∧
  existsb (fun p => is_file (fs w !! p)) (ancestors Demo.linux dir ++ [dir])
    = false ∧
  fs run.2 !! sp = Some (File (written_text (settings profile))) ∧
  fs run.2 !! kp = Some (File (written_text (keybindings profile))) ∧
  fs run.2 !! dir = Some Dir ∧
  (findConfigFile Demo.linux app "settings.json" (JStr pid : json Z) run.2).1 =
    Ok (fsPath sp) ∧
  (findConfigFile Demo.linux app "keybindings.json" (JStr pid : json Z) run.2).1 =
    Ok (fsPath kp).
Proof.
  intros w cfg user dialogs n random profile pid app dir sp kp run.
  assert (H0 : pid = "02468ace") by (vm_compute; reflexivity).
  assert (Ha : ancestors Demo.linux dir =
    ["/home"; "/home/u"; "/home/u/.config"; "/home/u/.config/Code";
     "/home/u/.config/Code/User"; "/home/u/.config/Code/User/profiles"])
    by (vm_compute; reflexivity).
  assert (H1 : opt_truthy (input_box dialogs "Enter name for the new profile")
               = true) by reflexivity.
  assert (H2 : ∀ i, i < 8 → (0 <= random i)%Q ∧ (random i < 1)%Q).
  { intros i Hi. unfold random, Scenario.eighths, Qle, Qlt. cbn. lia. }
  assert (H3 : existsb (fun p => is_file (fs w !! p))
                 (ancestors Demo.linux dir ++ [dir]) = false)
    by (vm_compute; reflexivity).
  assert (H4 : fs w !! sp ≠ Some Dir)
    by (intros Hc; vm_compute in Hc; discriminate Hc).
  assert (H5 : fs w !! kp ≠ Some Dir)
    by (intros Hc; vm_compute in Hc; discriminate Hc).
  split; [exact H0|]. split; [exact Ha|]. split; [exact H1|].
  split; [exact H2|]. split; [exact H3|].
  exact (X30_created_profile_is_found_by_locator Demo.linux cfg user dialogs n
           random profile w H1 H2 H3 H4 H5).
Defined.
